(** * Verification of the InvestSite stock scraper (src/stocks.py)

    A shallow embedding of [DataCleaner] and of the record pipeline of
    [StocksScraper] (earnings yield, field cleaning, page extraction,
    batched scraping), followed by the theorems that settle the
    properties stated for them.

    Modelling conventions.
    - A Python [str] is a [string] of ASCII characters.  Within ASCII the
      model follows CPython exactly: [str.strip] removes the characters
      9-13, 28-31 and 32, the regex class [\d] is ['0'..'9'], [\s] is
      9-13 and 32 together with 28-31, and [upper]/[lower] only touch
      letters.  Field names with accented letters are UTF-8 byte strings;
      no operation of the program splits such a character.
    - A Python [float] is an IEEE-754 binary64 number, represented by the
      standard library's [spec_float] at precision 53 and maximal
      exponent 1024.  Products and quotients are the library's correctly
      rounded [SFmul] and [SFdiv]; [float(str)], [round(x, 2)], [repr]
      and the [.2f] format are defined below on exact integers, the way
      CPython's dtoa/strtod compute them (correct rounding, ties to
      even).
    - A Python [dict] is an association list in insertion order without
      duplicate keys; where the identity of a record matters (the copy
      made by [clean_stock_data]) the records live in a store, a finite
      map from references to dictionaries.
    - An exception is a value of [exn]; code that can raise returns a
      [result], and [try]/[except Exception] is [try_except].
    - [int(str)] raises [ValueError] for more than 4300 digits, the
      default limit of CPython 3.11 and later
      ([sys.get_int_max_str_digits()]).  [str] of an [int] is the text
      of an [int] within that limit; the values that the scraper cleans
      are texts read from a page.
    - The workers of a batch are represented by the order in which
      their results arrive, an arbitrary rearrangement of the batch.
    - Printing and wall-clock timing are not modelled.  The handlers of
      the numeric cleaners print the value and the exception before
      they return [None]; for a text this formatting cannot fail, and
      the statements about handlers are about texts. *)

From stdpp Require Import base option list strings gmap.
From Stdlib Require Import ZArith Ascii String Bool Lia SpecFloat.
From Stdlib Require Import Permutation.

Local Open Scope Z_scope.

(** ** Characters *)

Module Char.

Definition code (c : ascii) : N := N_of_ascii c.

Definition in_range (lo hi : N) (c : ascii) : bool :=
  ((lo <=? code c) && (code c <=? hi))%N.

(** [\d] on ASCII text. *)
Definition is_digit : ascii -> bool := in_range 48 57.

(** The characters removed by [str.strip()] and matched by [\s]. *)
Definition is_space (c : ascii) : bool :=
  in_range 9 13 c || in_range 28 31 c || (code c =? 32)%N.

(** C's [isspace] in the "C" locale, which is what [float()] strips. *)
Definition is_c_space (c : ascii) : bool :=
  in_range 9 13 c || (code c =? 32)%N.

Definition is_upper_letter : ascii -> bool := in_range 65 90.
Definition is_lower_letter : ascii -> bool := in_range 97 122.

(** [\w] on ASCII text. *)
Definition is_word (c : ascii) : bool :=
  is_digit c || is_upper_letter c || is_lower_letter c || (code c =? 95)%N.

Definition upper (c : ascii) : ascii :=
  if is_lower_letter c then ascii_of_N (code c - 32) else c.

Definition lower (c : ascii) : ascii :=
  if is_upper_letter c then ascii_of_N (code c + 32) else c.

Definition digit_value (c : ascii) : Z := Z.of_N (code c) - 48.

Definition of_digit (d : Z) : ascii := ascii_of_N (Z.to_N (d + 48)).

End Char.

(** ** Python string operations *)

Module Str.

Definition len (s : string) : nat := String.length s.

Fixpoint all (p : ascii -> bool) (s : string) : bool :=
  match s with
  | EmptyString => true
  | String c s' => p c && all p s'
  end.

Fixpoint any (p : ascii -> bool) (s : string) : bool :=
  match s with
  | EmptyString => false
  | String c s' => p c || any p s'
  end.

Fixpoint map (f : ascii -> ascii) (s : string) : string :=
  match s with
  | EmptyString => EmptyString
  | String c s' => String (f c) (map f s')
  end.

Definition upper : string -> string := map Char.upper.
Definition lower : string -> string := map Char.lower.

(** [s.startswith(p)] *)
Fixpoint startswith (p s : string) : bool :=
  match p, s with
  | EmptyString, _ => true
  | String a p', String b s' => Ascii.eqb a b && startswith p' s'
  | String _ _, EmptyString => false
  end.

(** [p in s] *)
Fixpoint contains (p s : string) : bool :=
  startswith p s ||
  match s with
  | EmptyString => false
  | String _ s' => contains p s'
  end.

(** [c in s] for a one-character needle. *)
Definition has_char (c : ascii) : string -> bool := any (Ascii.eqb c).

Fixpoint drop (n : nat) (s : string) : string :=
  match n, s with
  | O, _ => s
  | S n', String _ s' => drop n' s'
  | S _, EmptyString => EmptyString
  end.

Fixpoint take (n : nat) (s : string) : string :=
  match n, s with
  | S k, String c s' => String c (take k s')
  | _, _ => EmptyString
  end.

Fixpoint take_while (p : ascii -> bool) (s : string) : string :=
  match s with
  | String c s' => if p c then String c (take_while p s') else EmptyString
  | EmptyString => EmptyString
  end.

Fixpoint drop_while (p : ascii -> bool) (s : string) : string :=
  match s with
  | String c s' => if p c then drop_while p s' else s
  | EmptyString => EmptyString
  end.

Definition lstrip_by (p : ascii -> bool) : string -> string := drop_while p.

Fixpoint rstrip_by (p : ascii -> bool) (s : string) : string :=
  match s with
  | EmptyString => EmptyString
  | String c s' =>
      match rstrip_by p s' with
      | EmptyString => if p c then EmptyString else String c EmptyString
      | r => String c r
      end
  end.

(** [s.strip()] *)
Definition strip (s : string) : string :=
  rstrip_by Char.is_space (lstrip_by Char.is_space s).

(** [s.replace(old, new)] for a non-empty [old]: occurrences are found
    from the left and do not overlap.  [skip] counts the characters of an
    occurrence that remain to be dropped. *)
Fixpoint replace_from (old new : string) (skip : nat) (s : string) : string :=
  match s with
  | EmptyString => EmptyString
  | String c s' =>
      match skip with
      | S k => replace_from old new k s'
      | O =>
          if startswith old s
          then new +:+ replace_from old new (len old - 1) s'
          else String c (replace_from old new 0 s')
      end
  end.

Definition replace (old new s : string) : string := replace_from old new 0 s.

(** [s.split(sep)] for a one-character separator: never the empty list. *)
Fixpoint split (sep : ascii) (s : string) : list string :=
  match s with
  | EmptyString => [EmptyString]
  | String c s' =>
      let r := split sep s' in
      if Ascii.eqb c sep then EmptyString :: r
      else match r with
           | h :: t => String c h :: t
           | [] => [String c EmptyString]
           end
  end.

(** [s.split(sep)[-1]] *)
Definition last_part (sep : ascii) (s : string) : string :=
  List.last (split sep s) EmptyString.

(** [re.sub] of a negated character class by the empty string: keep the
    characters of the class. *)
Fixpoint filter (p : ascii -> bool) (s : string) : string :=
  match s with
  | EmptyString => EmptyString
  | String c s' => if p c then String c (filter p s') else filter p s'
  end.

Fixpoint repeat (c : ascii) (n : nat) : string :=
  match n with
  | O => EmptyString
  | S k => String c (repeat c k)
  end.

End Str.

(** ** Decimal numerals *)

Module Dec.

Fixpoint digits_fuel (fuel : nat) (n : Z) (acc : string) : string :=
  match fuel with
  | O => acc
  | S k =>
      let acc' := String (Char.of_digit (n mod 10)) acc in
      if n <? 10 then acc' else digits_fuel k (n / 10) acc'
  end.

(** [str(n)] for [n >= 0]. *)
Definition of_nonneg (n : Z) : string :=
  digits_fuel (S (Z.to_nat (Z.log2 n))) n EmptyString.

(** [str(n)] for an [int]. *)
Definition of_Z (n : Z) : string :=
  if n <? 0 then String "-" (of_nonneg (- n)) else of_nonneg n.

Fixpoint value_from (acc : Z) (s : string) : Z :=
  match s with
  | EmptyString => acc
  | String c s' => value_from (10 * acc + Char.digit_value c) s'
  end.

(** The number written by a string of decimal digits (0 if empty). *)
Definition value (s : string) : Z := value_from 0 s.

(** Number of decimal digits of [n > 0]. *)
Definition ndigits (n : Z) : Z := Z.of_nat (Str.len (of_nonneg n)).

(** [n] left-padded with zeros to [w] digits. *)
Definition padded (w : nat) (n : Z) : string :=
  let s := of_nonneg n in
  Str.repeat "0" (w - Str.len s) +:+ s.

End Dec.

(** ** Python floats: IEEE-754 binary64 *)

Module Float.

Definition prec : Z := 53.
Definition emax : Z := 1024.

Definition mul : spec_float -> spec_float -> spec_float := SFmul prec emax.
Definition div : spec_float -> spec_float -> spec_float := SFdiv prec emax.
Definition neg : spec_float -> spec_float := SFopp.
Definition abs : spec_float -> spec_float := SFabs.
Definition ltb : spec_float -> spec_float -> bool := SFltb.
Definition leb : spec_float -> spec_float -> bool := SFleb.

(** The float nearest to [n / d] (ties to even) for positive [n], [d]. *)
Definition of_ratio (sign : bool) (n d : Z) : spec_float :=
  let '(q, e, l) := SFdiv_core_binary prec emax n 0 d 0 in
  binary_round_aux prec emax sign q e l.

(** Conversion of an [int] operand to [float]. *)
Definition of_Z (z : Z) : spec_float := binary_normalize prec emax z 0 false.

(** The float nearest to [c * 10^p] for [c > 0]. *)
Definition of_decimal (sign : bool) (c p : Z) : spec_float :=
  if 0 <=? p then of_ratio sign (c * 10 ^ p) 1 else of_ratio sign c (10 ^ (- p)).

Definition eqb_repr (x y : spec_float) : bool :=
  match x, y with
  | S754_zero a, S754_zero b => Bool.eqb a b
  | S754_infinity a, S754_infinity b => Bool.eqb a b
  | S754_nan, S754_nan => true
  | S754_finite a m e, S754_finite b m' e' =>
      Bool.eqb a b && (m =? m')%positive && (e =? e')
  | _, _ => false
  end.

(** The exact value [m * 2^e] as a fraction. *)
Definition exact (m : positive) (e : Z) : Z * Z :=
  if 0 <=? e then (Zpos m * 2 ^ e, 1) else (Zpos m, 2 ^ (- e)).

Definition round_half_even (n d : Z) : Z :=
  let q := n / d in
  match (2 * (n mod d)) ?= d with
  | Lt => q
  | Gt => q + 1
  | Eq => if Z.even q then q else q + 1
  end.

(** Hundredths of [|x|], correctly rounded: what dtoa's mode 3 returns
    for two digits after the point. *)
Definition hundredths (m : positive) (e : Z) : Z :=
  let '(n, d) := exact m e in round_half_even (n * 100) d.

(** [round(x, 2)] *)
Definition round2 (x : spec_float) : spec_float :=
  match x with
  | S754_finite s m e =>
      let c := hundredths m e in
      if c =? 0 then S754_zero s else of_ratio s c 100
  | _ => x
  end.

Definition sign_str (s : bool) : string := if s then "-" else "".

(** [f"{x:.2f}"] *)
Definition format_2f (x : spec_float) : string :=
  match x with
  | S754_nan => "nan"
  | S754_infinity s => sign_str s +:+ "inf"
  | S754_zero s => sign_str s +:+ "0.00"
  | S754_finite s m e =>
      let c := hundredths m e in
      sign_str s +:+ Dec.of_nonneg (c / 100) +:+ "." +:+ Dec.padded 2 (c mod 100)
  end.

(** *** [float(str)] *)

(** Underscores may only stand between two digits; they are removed.
    [prev] is the previous character of the input. *)
Fixpoint strip_underscores (prev : ascii) (s : string) : option string :=
  match s with
  | EmptyString => if Ascii.eqb prev "_" then None else Some EmptyString
  | String c s' =>
      if Ascii.eqb c "_" then
        if Char.is_digit prev then strip_underscores c s' else None
      else if Ascii.eqb prev "_" && negb (Char.is_digit c) then None
      else option_map (String c) (strip_underscores c s')
  end.

Definition split_sign (s : string) : bool * string :=
  match s with
  | String "-" s' => (true, s')
  | String "+" s' => (false, s')
  | _ => (false, s)
  end.

(** The exponent part: [None] when the text is not an exponent. *)
Definition parse_exponent (s : string) : option Z :=
  match s with
  | EmptyString => Some 0
  | String c s' =>
      if Ascii.eqb c "e" || Ascii.eqb c "E" then
        let '(sg, ds) := split_sign s' in
        if negb (String.eqb ds EmptyString) && Str.all Char.is_digit ds
        then Some (if sg then - Dec.value ds else Dec.value ds)
        else None
      else None
  end.

(** The float nearest to [d * 10^e]; far out of range the result is
    decided without computing the power. *)
Definition of_scientific (sign : bool) (d e : Z) : spec_float :=
  if d =? 0 then S754_zero sign
  else
    let mag := Dec.ndigits d + e in
    if 400 <? mag then S754_infinity sign
    else if mag <? -400 then S754_zero sign
    else of_decimal sign d e.

Definition parse_number (sign : bool) (s : string) : option spec_float :=
  let ip := Str.take_while Char.is_digit s in
  let r1 := Str.drop_while Char.is_digit s in
  let '(fp, r2) :=
    match r1 with
    | String "." r => (Str.take_while Char.is_digit r, Str.drop_while Char.is_digit r)
    | _ => (EmptyString, r1)
    end in
  if String.eqb (ip +:+ fp) EmptyString then None
  else
    match parse_exponent r2 with
    | Some ex => Some (of_scientific sign (Dec.value (ip +:+ fp)) (ex - Z.of_nat (Str.len fp)))
    | None => None
    end.

Definition parse_inf_nan (sign : bool) (s : string) : option spec_float :=
  let l := Str.lower s in
  if String.eqb l "inf" || String.eqb l "infinity" then Some (S754_infinity sign)
  else if String.eqb l "nan" then Some S754_nan
  else None.

(** [float(s)] for a [str]; [None] stands for [ValueError]. *)
Definition of_string (s : string) : option spec_float :=
  let t := Str.rstrip_by Char.is_c_space (Str.lstrip_by Char.is_c_space s) in
  match (if Str.has_char "_" t then strip_underscores "000" t else Some t) with
  | None => None
  | Some u =>
      let '(sg, body) := split_sign u in
      match parse_number sg body with
      | Some x => Some x
      | None => parse_inf_nan sg body
      end
  end.

(** *** [repr(x)]: the shortest decimal string that reads back as [x] *)

(** [floor(log10(n / d))] for positive [n], [d]. *)
Definition floor_log10 (n d : Z) : Z :=
  let t := Dec.ndigits n - Dec.ndigits d in
  let ge := if 0 <=? t then d * 10 ^ t <=? n else d <=? n * 10 ^ (- t) in
  if ge then t else t - 1.

(** The [nd]-digit decimals [c * 10^p] next to [n / d] that read back as
    [x]; of two, the nearer one (ties to the even digit). *)
Definition candidate (x : spec_float) (n d : Z) (nd : Z) : option (Z * Z) :=
  let p := floor_log10 n d - nd + 1 in
  let '(sn, sd) := if 0 <=? p then (n, d * 10 ^ p) else (n * 10 ^ (- p), d) in
  let lo := sn / sd in
  let r := sn mod sd in
  if r =? 0 then Some (lo, p)
  else
    let ok_lo := eqb_repr (of_decimal false lo p) x in
    let ok_hi := eqb_repr (of_decimal false (lo + 1) p) x in
    let lo_nearer :=
      match (2 * r) ?= sd with
      | Lt => true
      | Gt => false
      | Eq => Z.even lo
      end in
    match ok_lo, ok_hi with
    | true, true => Some (if lo_nearer then lo else lo + 1, p)
    | true, false => Some (lo, p)
    | false, true => Some (lo + 1, p)
    | false, false => None
    end.

Fixpoint shortest_from (fuel : nat) (x : spec_float) (n d : Z) (nd : Z) : Z * Z :=
  match candidate x n d nd, fuel with
  | Some cp, _ => cp
  | None, S k => shortest_from k x n d (nd + 1)
  | None, O => (0, 0)
  end.

Fixpoint strip_zeros_fuel (fuel : nat) (c p : Z) : Z * Z :=
  match fuel with
  | O => (c, p)
  | S k => if (c mod 10 =? 0) && negb (c =? 0)
           then strip_zeros_fuel k (c / 10) (p + 1) else (c, p)
  end.

(** Digits and position of the decimal point of the shortest
    representation of [m * 2^e]: the value is [0.digits * 10^decpt]. *)
Definition shortest_digits (m : positive) (e : Z) : string * Z :=
  let '(n, d) := exact m e in
  let x := binary_round prec emax false m e in
  let '(c, p) := shortest_from 17 x n d 1 in
  let '(c', p') := strip_zeros_fuel 400 c p in
  let ds := Dec.of_nonneg c' in
  (ds, Z.of_nat (Str.len ds) + p').

Definition format_repr (ds : string) (decpt : Z) : string :=
  let l := Z.of_nat (Str.len ds) in
  if (decpt <=? -4) || (16 <? decpt) then
    let ex := decpt - 1 in
    let mant :=
      match ds with
      | String c EmptyString => ds
      | String c rest => String c (String "." rest)
      | EmptyString => ds
      end in
    mant +:+ "e" +:+ (if ex <? 0 then "-" else "+") +:+ Dec.padded 2 (Z.abs ex)
  else if decpt <=? 0 then
    "0." +:+ Str.repeat "0" (Z.to_nat (- decpt)) +:+ ds
  else if decpt <? l then
    Str.take (Z.to_nat decpt) ds +:+ "." +:+ Str.drop (Z.to_nat decpt) ds
  else
    ds +:+ Str.repeat "0" (Z.to_nat (decpt - l)) +:+ ".0".

(** [str(x)] for a [float]. *)
Definition to_string (x : spec_float) : string :=
  match x with
  | S754_nan => "nan"
  | S754_infinity s => sign_str s +:+ "inf"
  | S754_zero s => sign_str s +:+ "0.0"
  | S754_finite s m e =>
      let '(ds, decpt) := shortest_digits m e in
      sign_str s +:+ format_repr ds decpt
  end.

End Float.

(** ** Values, exceptions *)

(** The values a record holds: [None], [str], [float], [int]. *)
Inductive pyval : Type :=
  | VNone
  | VStr (s : string)
  | VFloat (x : spec_float)
  | VInt (n : Z).

Inductive exn : Type :=
  | ValueError (msg : string)
  | RequestException (msg : string).

(** [str(e)] *)
Definition exn_message (e : exn) : string :=
  match e with
  | ValueError m => m
  | RequestException m => m
  end.

Inductive result (A : Type) : Type :=
  | Ok (a : A)
  | Raise (e : exn).

Arguments Ok {A} a.
Arguments Raise {A} e.

#[global] Instance result_ret : MRet result := fun A a => Ok a.

#[global] Instance result_bind : MBind result := fun A B k r =>
  match r with
  | Ok a => k a
  | Raise e => Raise e
  end.

(** [try: body  except Exception as e: handler] *)
Definition try_except {A : Type} (body : result A) (handler : exn -> result A) : result A :=
  match body with
  | Ok a => Ok a
  | Raise e => handler e
  end.

Module Py.

(** Truth value of an object: [bool(v)]. *)
Definition truthy (v : pyval) : bool :=
  match v with
  | VNone => false
  | VStr s => negb (String.eqb s EmptyString)
  | VFloat x => negb (SFeqb x (S754_zero false))
  | VInt n => negb (n =? 0)
  end.

(** [v == s] for a string literal [s]. *)
Definition eq_str (v : pyval) (s : string) : bool :=
  match v with
  | VStr t => String.eqb t s
  | _ => false
  end.

(** [str(v)] *)
Definition str (v : pyval) : string :=
  match v with
  | VNone => "None"
  | VStr s => s
  | VFloat x => Float.to_string x
  | VInt n => Dec.of_Z n
  end.

(** [float(s)] *)
Definition float (s : string) : result spec_float :=
  match Float.of_string s with
  | Some x => Ok x
  | None => Raise (ValueError ("could not convert string to float: " +:+ s))
  end.

(** The number of digits beyond which [int(str)] and [str(int)] raise:
    [sys.get_int_max_str_digits()]. *)
Definition int_max_str_digits : nat := 4300.

(** [int(s)] on a match of [[-+]?\d+]: the digits are counted, leading
    zeros included, and more than the limit raise [ValueError]. *)
Definition int_limit_message (digits : nat) : string :=
  "Exceeds the limit (4300 digits) for integer string conversion: value has "
  +:+ Dec.of_nonneg (Z.of_nat digits)
  +:+ " digits; use sys.set_int_max_str_digits() to increase the limit".

Definition int (s : string) : result Z :=
  let '(sg, ds) := Float.split_sign s in
  if (int_max_str_digits <? Str.len ds)%nat
  then Raise (ValueError (int_limit_message (Str.len ds)))
  else Ok (if sg then - Dec.value ds else Dec.value ds).

End Py.

(** ** Regular expressions used by the program *)

Module Re.

(** [re.search(r'(C+)', s)] for a character class [C]: the first maximal
    run of [C]. *)
Definition search_run (p : ascii -> bool) (s : string) : option string :=
  match Str.drop_while (fun c => negb (p c)) s with
  | EmptyString => None
  | r => Some (Str.take_while p r)
  end.

Definition is_sign (c : ascii) : bool := Ascii.eqb c "-" || Ascii.eqb c "+".

Definition starts_with_class (p : ascii -> bool) (s : string) : bool :=
  match s with
  | String c _ => p c
  | EmptyString => false
  end.

(** [re.search(r'([-+]?C+)', s)]: the leftmost position where a run of
    [C], or a sign followed by one, starts. *)
Fixpoint search_signed (p : ascii -> bool) (s : string) : option string :=
  match s with
  | EmptyString => None
  | String c s' =>
      if is_sign c && starts_with_class p s' then Some (String c (Str.take_while p s'))
      else if p c then Some (Str.take_while p s)
      else search_signed p s'
  end.

(** [[\d.]] *)
Definition num_dot (c : ascii) : bool := Char.is_digit c || Ascii.eqb c ".".

(** [[\d.,]] *)
Definition num_dot_comma (c : ascii) : bool :=
  Char.is_digit c || Ascii.eqb c "." || Ascii.eqb c ",".

End Re.

(** ** [datetime.strptime] / [strftime] for the formats of the program *)

Module Strptime.

Inductive directive : Type :=
  | Day        (* %d *)
  | Month      (* %m *)
  | Year4      (* %Y *)
  | Year2      (* %y *)
  | Lit (c : ascii).

Record date : Type := { year : Z; month : Z; day : Z }.

Definition dv := Char.digit_value.

(** The alternatives of each directive's pattern, in the order in which
    the regex engine tries them, with the text left after each. *)
Definition alternatives (d : directive) (s : string) : list (Z * string) :=
  match d with
  | Day =>
      (* 3[0-1]|[1-2]\d|0[1-9]|[1-9]| [1-9] *)
      match s with
      | String a (String b r) =>
          (if Ascii.eqb a "3" && Char.in_range 48 49 b then [(30 + dv b, r)] else []) ++
          (if Char.in_range 49 50 a && Char.is_digit b then [(10 * dv a + dv b, r)] else []) ++
          (if Ascii.eqb a "0" && Char.in_range 49 57 b then [(dv b, r)] else []) ++
          (if Char.in_range 49 57 a then [(dv a, String b r)] else []) ++
          (if Ascii.eqb a " " && Char.in_range 49 57 b then [(dv b, r)] else [])
      | String a EmptyString =>
          if Char.in_range 49 57 a then [(dv a, EmptyString)] else []
      | EmptyString => []
      end
  | Month =>
      (* 1[0-2]|0[1-9]|[1-9] *)
      match s with
      | String a (String b r) =>
          (if Ascii.eqb a "1" && Char.in_range 48 50 b then [(10 + dv b, r)] else []) ++
          (if Ascii.eqb a "0" && Char.in_range 49 57 b then [(dv b, r)] else []) ++
          (if Char.in_range 49 57 a then [(dv a, String b r)] else [])
      | String a EmptyString =>
          if Char.in_range 49 57 a then [(dv a, EmptyString)] else []
      | EmptyString => []
      end
  | Year4 =>
      let ds := Str.take 4 s in
      if (Str.len ds =? 4)%nat && Str.all Char.is_digit ds
      then [(Dec.value ds, Str.drop 4 s)] else []
  | Year2 =>
      let ds := Str.take 2 s in
      if (Str.len ds =? 2)%nat && Str.all Char.is_digit ds
      then [(let y := Dec.value ds in if y <=? 68 then 2000 + y else 1900 + y,
             Str.drop 2 s)]
      else []
  | Lit c =>
      match s with
      | String a r => if Ascii.eqb a c then [(0, r)] else []
      | EmptyString => []
      end
  end.

Definition store (d : directive) (v : Z) (f : date) : date :=
  match d with
  | Day => {| year := year f; month := month f; day := v |}
  | Month => {| year := year f; month := v; day := day f |}
  | Year4 | Year2 => {| year := v; month := month f; day := day f |}
  | Lit _ => f
  end.

Fixpoint find_map {A B : Type} (f : A -> option B) (l : list A) : option B :=
  match l with
  | [] => None
  | a :: l' => match f a with Some b => Some b | None => find_map f l' end
  end.

(** The first way (in backtracking order) to match the whole format at
    the start of [s]. *)
Fixpoint match_format (fmt : list directive) (s : string) (f : date) : option (date * string) :=
  match fmt with
  | [] => Some (f, s)
  | d :: fmt' =>
      find_map (fun '(v, r) => match_format fmt' r (store d v f)) (alternatives d s)
  end.

Definition is_leap (y : Z) : bool :=
  (y mod 4 =? 0) && (negb (y mod 100 =? 0) || (y mod 400 =? 0)).

Definition days_in_month (y m : Z) : Z :=
  if m =? 2 then (if is_leap y then 29 else 28)
  else if (m =? 4) || (m =? 6) || (m =? 9) || (m =? 11) then 30
  else 31.

(** [datetime.strptime(s, fmt)]; [None] stands for [ValueError]: no
    match, unconverted data, or a day that the calendar does not have. *)
Definition strptime (s : string) (fmt : list directive) : option date :=
  match match_format fmt s {| year := 1900; month := 1; day := 1 |} with
  | Some (f, EmptyString) =>
      if (1 <=? year f) && (year f <=? 9999) && (1 <=? month f) && (month f <=? 12)
         && (1 <=? day f) && (day f <=? days_in_month (year f) (month f))
      then Some f else None
  | _ => None
  end.

(** [d.strftime('%d/%m/%Y')]: day and month with two digits, the year
    as the C library writes it, which on Linux is without leading zeros
    (year 50 gives ["50"]). *)
Definition strftime_dmY (d : date) : string :=
  Dec.padded 2 (day d) +:+ "/" +:+ Dec.padded 2 (month d) +:+ "/" +:+ Dec.of_nonneg (year d).

Definition fmt_dmY_slash := [Day; Lit "/"; Month; Lit "/"; Year4].
Definition fmt_Ymd_dash := [Year4; Lit "-"; Month; Lit "-"; Day].
Definition fmt_dmY_dash := [Day; Lit "-"; Month; Lit "-"; Year4].
Definition fmt_dmy_slash := [Day; Lit "/"; Month; Lit "/"; Year2].

End Strptime.

(** ** [class DataCleaner] *)

Module DataCleaner.

(** [not value or value == 'N/A' or value == '-'] *)
Definition is_missing (value : pyval) : bool :=
  negb (Py.truthy value) || Py.eq_str value "N/A" || Py.eq_str value "-".

(** The sign test shared by the two currency cleaners. *)
Definition detect_negative (original_value : string) : bool :=
  Str.startswith "-" original_value || Str.startswith "- " original_value
  || Str.contains "R$ -" original_value || Str.contains "R$-" original_value.

(** [.replace('R$', '').replace('R ', '').replace('-', '').replace(' ', '')] *)
Definition unmark (original_value : string) : string :=
  Str.replace " " ""
    (Str.replace "-" "" (Str.replace "R " "" (Str.replace "R$" "" original_value))).

(** The marker, the signs and the blanks removed, then [.strip()]. *)
Definition strip_marker (original_value : string) : string :=
  Str.strip (unmark original_value).

(** [-result if is_negative else result] *)
Definition apply_sign (is_negative : bool) (x : spec_float) : spec_float :=
  if is_negative then Float.neg x else x.

(** The separator rule of the currency cleaner: a comma followed by at
    most two characters is the decimal point. *)
Definition currency_separators (clean_val : string) : string :=
  if Str.contains "," clean_val then
    if (Str.len (Str.last_part "," clean_val) <=? 2)%nat
    then Str.replace "," "." (Str.replace "." "" clean_val)
    else Str.replace "." "" (Str.replace "," "" clean_val)
  else Str.replace "." "" clean_val.

(** The rest of the currency cleaner once the sign is known and the
    marker is removed. *)
Definition currency_of_text (is_negative : bool) (clean_val : string) : result pyval :=
  match Re.search_run Re.num_dot (currency_separators clean_val) with
  | Some g =>
      number ← Py.float g;
      mret (VFloat (apply_sign is_negative (Float.round2 number)))
  | None => mret VNone
  end.

Definition clean_currency_body (value : pyval) : result pyval :=
  let original_value := Str.strip (Py.str value) in
  let is_negative := detect_negative original_value in
  let clean_val := strip_marker original_value in
  currency_of_text is_negative clean_val.

Definition clean_currency_to_float (value : pyval) : result pyval :=
  if is_missing value then mret VNone
  else try_except (clean_currency_body value) (fun _ => mret VNone).

(** The scale suffix: multiplier and text without the token. *)
Definition detect_scale (clean_val : string) : Z * string :=
  if Str.contains "B" clean_val then
    (1000000000, Str.strip (Str.replace "B" "" clean_val))
  else if Str.contains "MIL" clean_val then
    (1000, Str.strip (Str.replace "MIL" "" clean_val))
  else if Str.contains "M" clean_val then
    (1000000, Str.strip (Str.replace "M" "" clean_val))
  else if Str.contains "K" clean_val then
    (1000, Str.strip (Str.replace "K" "" clean_val))
  else (1, clean_val).

(** The separator rules shared by the scaled-currency and the ratio
    cleaners. *)
Definition brazilian_number (clean_val : string) : string :=
  if Str.contains "," clean_val && Str.contains "." clean_val then
    Str.replace "," "." (Str.replace "." "" clean_val)
  else if Str.contains "," clean_val then
    if (Str.len (Str.last_part "," clean_val) <=? 2)%nat
    then Str.replace "," "." clean_val
    else Str.replace "," "" clean_val
  else if Str.contains "." clean_val then
    if (Str.len (Str.last_part "." clean_val) <=? 2)%nat
    then clean_val
    else Str.replace "." "" clean_val
  else clean_val.

(** The rest of the scaled-currency cleaner once the sign is known,
    the marker is removed and the text is in capitals. *)
Definition scaled_of_text (is_negative : bool) (clean_val : string) : result pyval :=
  let '(scale_multiplier, clean_val) := detect_scale clean_val in
  let clean_val := brazilian_number clean_val in
  match Re.search_run Re.num_dot clean_val with
  | Some g =>
      number ← Py.float g;
      mret (VFloat (apply_sign is_negative
                      (Float.round2 (Float.mul number (Float.of_Z scale_multiplier)))))
  | None => mret VNone
  end.

Definition clean_currency_with_scale_body (value : pyval) : result pyval :=
  let original_value := Str.strip (Py.str value) in
  let is_negative := detect_negative original_value in
  let clean_val := Str.upper (strip_marker original_value) in
  scaled_of_text is_negative clean_val.

Definition clean_currency_with_scale_to_float (value : pyval) : result pyval :=
  if is_missing value then mret VNone
  else try_except (clean_currency_with_scale_body value) (fun _ => mret VNone).

(** The text handed to the final regex by the percentage cleaner. *)
Definition percentage_text (clean_val : string) : result string :=
  if Str.contains "." clean_val && Str.contains "," clean_val then
    let clean_val := Str.replace "," "." (Str.replace "." "" clean_val) in
    temp_result ← Py.float clean_val;
    mret (Float.to_string (Float.div temp_result (Float.of_Z 1000)))
  else if Str.contains "," clean_val then
    mret (Str.replace "," "." clean_val)
  else if Str.contains "." clean_val then
    if (Str.len (Str.last_part "." clean_val) <=? 2)%nat then mret clean_val
    else
      temp_result ← Py.float (Str.replace "." "" clean_val);
      if Float.leb (Float.of_Z 1000) (Float.abs temp_result)
      then mret (Float.to_string (Float.div temp_result (Float.of_Z 1000)))
      else mret (Str.replace "." "" clean_val)
  else mret clean_val.

(** [round(float(match.group(1)), 2)] on the first signed number of the
    text, [None] without a match. *)
Definition first_signed_number (clean_val : string) : result pyval :=
  match Re.search_signed Re.num_dot clean_val with
  | Some g => number ← Py.float g; mret (VFloat (Float.round2 number))
  | None => mret VNone
  end.

Definition clean_percentage_body (value : pyval) : result pyval :=
  let clean_val := Str.strip (Str.replace "%" "" (Py.str value)) in
  clean_val ← percentage_text clean_val;
  first_signed_number clean_val.

Definition clean_percentage_to_float (value : pyval) : result pyval :=
  if is_missing value then mret VNone
  else try_except (clean_percentage_body value) (fun _ => mret VNone).

Definition clean_ratio_body (value : pyval) : result pyval :=
  let clean_val := Str.strip (Py.str value) in
  first_signed_number (brazilian_number clean_val).

Definition clean_ratio_to_float (value : pyval) : result pyval :=
  if is_missing value then mret VNone
  else try_except (clean_ratio_body value) (fun _ => mret VNone).

Definition date_formats : list (list Strptime.directive) :=
  [Strptime.fmt_dmY_slash; Strptime.fmt_Ymd_dash; Strptime.fmt_dmY_dash;
   Strptime.fmt_dmy_slash].

(** The loop over the formats: an inner [try] around each attempt. *)
Definition first_date (date_str : string) : option Strptime.date :=
  Strptime.find_map (Strptime.strptime date_str) date_formats.

Definition clean_date_body (value : pyval) : result pyval :=
  let date_str := Str.strip (Py.str value) in
  match first_date date_str with
  | Some date_obj => mret (VStr (Strptime.strftime_dmY date_obj))
  | None => mret value
  end.

Definition clean_date_to_format (value : pyval) : result pyval :=
  if is_missing value then mret VNone
  else try_except (clean_date_body value) (fun _ => mret value).

Definition digit_or_sign (c : ascii) : bool := Char.is_digit c || Re.is_sign c.

Definition clean_integer_body (value : pyval) : result pyval :=
  let clean_val := Str.strip (Str.replace "," "" (Str.replace "." "" (Py.str value))) in
  let clean_val := Str.filter digit_or_sign clean_val in
  match Re.search_signed Char.is_digit clean_val with
  | Some g => n ← Py.int g; mret (VInt n)
  | None => mret VNone
  end.

Definition clean_integer (value : pyval) : result pyval :=
  if is_missing value then mret VNone
  else try_except (clean_integer_body value) (fun _ => mret VNone).

End DataCleaner.

(** ** Python dictionaries *)

Module Dict.

(** Items in insertion order; keys are distinct. *)
Definition t : Type := list (string * pyval).

(** [d.get(k)] *)
Fixpoint get (d : t) (k : string) : option pyval :=
  match d with
  | [] => None
  | (k', v) :: d' => if String.eqb k' k then Some v else get d' k
  end.

(** [k in d] *)
Definition mem (k : string) (d : t) : bool :=
  match get d k with Some _ => true | None => false end.

(** [d[k] = v]: an existing key keeps its position, a new key goes last. *)
Fixpoint set (d : t) (k : string) (v : pyval) : t :=
  match d with
  | [] => [(k, v)]
  | (k', v') :: d' => if String.eqb k' k then (k', v) :: d' else (k', v') :: set d' k v
  end.

(** [list(d.keys())] *)
Definition keys (d : t) : list string := List.map fst d.

(** [len(d)] *)
Definition len (d : t) : nat := List.length d.

End Dict.

(** ** [StocksScraper]: derived field and cleaning *)

Module StocksScraper.

(** [key.lower()] on UTF-8 text whose letters are ASCII or Latin-1: an
    ASCII capital gets its small letter, and so does the second byte
    (128-158, except the multiplication sign 151) of a two-byte
    character introduced by 195. *)
Fixpoint lower_from (after_c3 : bool) (s : string) : string :=
  match s with
  | EmptyString => EmptyString
  | String c s' =>
      let c' :=
        if after_c3 then
          if Char.in_range 128 158 c && negb (Char.code c =? 151)%N
          then ascii_of_N (Char.code c + 32) else c
        else Char.lower c in
      String c' (lower_from (negb after_c3 && (Char.code c =? 195)%N) s')
  end.

Definition lower : string -> string := lower_from false.

(** ["Lucro/Ação" in key or "lucro por ação" in key.lower()] *)
Definition is_profit_key (key : string) : bool :=
  Str.contains "Lucro/Ação" key || Str.contains "lucro por ação" (lower key).

(** The loop over [stock_data.keys()]: the first matching key decides
    ([break]); a cleaner that raised would let the loop go on. *)
Fixpoint find_profit (items : Dict.t) : pyval :=
  match items with
  | [] => VNone
  | (key, lucro_str) :: rest =>
      if is_profit_key key then
        match DataCleaner.clean_currency_to_float lucro_str with
        | Ok lucro_por_acao => lucro_por_acao
        | Raise _ => find_profit rest
        end
      else find_profit rest
  end.

Definition price_key : string := "Último Preço de Fechamento".

Definition find_price (stock_data : Dict.t) : pyval :=
  let preco_key := default (VStr "") (Dict.get stock_data price_key) in
  if Py.truthy preco_key then
    match DataCleaner.clean_currency_to_float preco_key with
    | Ok ultimo_preco => ultimo_preco
    | Raise _ => VNone
    end
  else VNone.

(** [calculate_earnings_yield(stock_data)].  The cleaner returns a float
    or [None] (lemma [clean_currency_float_or_none]), so the comparison
    [ultimo_preco > 0] is between floats. *)
Definition calculate_earnings_yield (stock_data : Dict.t) : string :=
  match find_profit stock_data, find_price stock_data with
  | VFloat lucro_por_acao, VFloat ultimo_preco =>
      if Float.ltb (Float.of_Z 0) ultimo_preco then
        let earnings_yield :=
          Float.mul (Float.div lucro_por_acao ultimo_preco) (Float.of_Z 100) in
        Float.format_2f earnings_yield +:+ "%"
      else "N/A"
  | _, _ => "N/A"
  end.

(** The static table [cleaning_rules], in the order of the source. *)
Definition cleaning_rules : list (string * (pyval -> result pyval)) :=
  [
    ("Último Preço de Fechamento", DataCleaner.clean_currency_to_float);
    ("Volume Financeiro Transacionado", DataCleaner.clean_currency_with_scale_to_float);
    ("Indicador - Preço/Lucro", DataCleaner.clean_ratio_to_float);
    ("Indicador - Preço/VPA", DataCleaner.clean_ratio_to_float);
    ("Indicador - Preço/Receita Líquida", DataCleaner.clean_ratio_to_float);
    ("Indicador - Preço/FCO", DataCleaner.clean_ratio_to_float);
    ("Indicador - Preço/FCF", DataCleaner.clean_ratio_to_float);
    ("Indicador - Preço/Ativo Total", DataCleaner.clean_ratio_to_float);
    ("Indicador - Preço/EBIT", DataCleaner.clean_ratio_to_float);
    ("Indicador - Preço/Capital Giro", DataCleaner.clean_ratio_to_float);
    ("Indicador - Preço/NCAV", DataCleaner.clean_ratio_to_float);
    ("Indicador - EV/EBIT", DataCleaner.clean_ratio_to_float);
    ("Indicador - EV/EBITDA", DataCleaner.clean_ratio_to_float);
    ("Indicador - EV/Receita Líquida", DataCleaner.clean_ratio_to_float);
    ("Indicador - EV/FCO", DataCleaner.clean_ratio_to_float);
    ("Indicador - EV/FCF", DataCleaner.clean_ratio_to_float);
    ("Indicador - EV/Ativo Total", DataCleaner.clean_ratio_to_float);
    ("Indicador - Market Cap Empresa", DataCleaner.clean_currency_with_scale_to_float);
    ("Indicador - Enterprise Value", DataCleaner.clean_currency_with_scale_to_float);
    ("Indicador - Data Demonstração Financeira Atual", DataCleaner.clean_date_to_format);
    ("Indicador - Data do Preço da Ação", DataCleaner.clean_date_to_format);
    ("Indicador - Preço Atual da Ação", DataCleaner.clean_currency_to_float);
    ("Indicador - Dividend Yield", DataCleaner.clean_percentage_to_float);
    ("DRE 12M - Receita Líquida", DataCleaner.clean_currency_with_scale_to_float);
    ("DRE 12M - Resultado Bruto", DataCleaner.clean_currency_with_scale_to_float);
    ("DRE 12M - EBIT", DataCleaner.clean_currency_with_scale_to_float);
    ("DRE 12M - Depreciação e Amortização", DataCleaner.clean_currency_with_scale_to_float);
    ("DRE 12M - EBITDA", DataCleaner.clean_currency_with_scale_to_float);
    ("DRE 12M - Lucro Líquido", DataCleaner.clean_currency_with_scale_to_float);
    ("DRE 12M - Lucro/Ação", DataCleaner.clean_currency_with_scale_to_float);
    ("DRE 3M - Receita Líquida", DataCleaner.clean_currency_with_scale_to_float);
    ("DRE 3M - Resultado Bruto", DataCleaner.clean_currency_with_scale_to_float);
    ("DRE 3M - EBIT", DataCleaner.clean_currency_with_scale_to_float);
    ("DRE 3M - Depreciação e Amortização", DataCleaner.clean_currency_with_scale_to_float);
    ("DRE 3M - EBITDA", DataCleaner.clean_currency_with_scale_to_float);
    ("DRE 3M - Lucro Líquido", DataCleaner.clean_currency_with_scale_to_float);
    ("DRE 3M - Lucro/Ação", DataCleaner.clean_currency_with_scale_to_float);
    ("Retorno/Margem - Retorno s/ Capital Tangível Inicial", DataCleaner.clean_percentage_to_float);
    ("Retorno/Margem - Retorno s/ Capital Investido Inicial", DataCleaner.clean_percentage_to_float);
    ("Retorno/Margem - Retorno s/ Capital Tangível Inicial Pré-Impostos", DataCleaner.clean_percentage_to_float);
    ("Retorno/Margem - Retorno s/ Capital Investido Inicial Pré-Impostos", DataCleaner.clean_percentage_to_float);
    ("Retorno/Margem - Retorno s/ Patrimônio Líquido Inicial", DataCleaner.clean_percentage_to_float);
    ("Retorno/Margem - Retorno s/ Ativo Inicial", DataCleaner.clean_percentage_to_float);
    ("Retorno/Margem - Margem Bruta", DataCleaner.clean_percentage_to_float);
    ("Retorno/Margem - Margem Líquida", DataCleaner.clean_percentage_to_float);
    ("Retorno/Margem - Margem EBIT", DataCleaner.clean_percentage_to_float);
    ("Retorno/Margem - Margem EBITDA", DataCleaner.clean_percentage_to_float);
    ("Retorno/Margem - Giro do Ativo Inicial", DataCleaner.clean_ratio_to_float);
    ("Retorno/Margem - Alavancagem Financeira", DataCleaner.clean_ratio_to_float);
    ("Retorno/Margem - Passivo/Patrimônio Líquido", DataCleaner.clean_ratio_to_float);
    ("Retorno/Margem - Dívida Líquida/EBITDA", DataCleaner.clean_ratio_to_float);
    ("Balanço - Caixa e Equivalentes de Caixa", DataCleaner.clean_currency_with_scale_to_float);
    ("Balanço - Ativo Total", DataCleaner.clean_currency_with_scale_to_float);
    ("Balanço - Dívida de Curto Prazo", DataCleaner.clean_currency_with_scale_to_float);
    ("Balanço - Dívida de Longo Prazo", DataCleaner.clean_currency_with_scale_to_float);
    ("Balanço - Dívida Bruta", DataCleaner.clean_currency_with_scale_to_float);
    ("Balanço - Dívida Líquida", DataCleaner.clean_currency_with_scale_to_float);
    ("Balanço - Patrimônio Líquido", DataCleaner.clean_currency_with_scale_to_float);
    ("Balanço - Valor Patrimonial da Ação", DataCleaner.clean_currency_with_scale_to_float);
    ("Balanço - Ações Ordinárias", DataCleaner.clean_integer);
    ("Balanço - Ações Preferenciais", DataCleaner.clean_integer);
    ("Balanço - Total", DataCleaner.clean_integer);
    ("Balanço - Ações Ordinárias em Tesouraria", DataCleaner.clean_integer);
    ("Balanço - Ações Preferenciais em Tesouraria", DataCleaner.clean_integer);
    ("Balanço - Total em Tesouraria", DataCleaner.clean_integer);
    ("Balanço - Ações Ordinárias (Exceto Tesouraria)", DataCleaner.clean_integer);
    ("Balanço - Ações Preferenciais (Exceto Tesouraria)", DataCleaner.clean_integer);
    ("Balanço - Total (Exceto Tesouraria)", DataCleaner.clean_integer);
    ("FC 12M - Fluxo de Caixa Operacional", DataCleaner.clean_currency_with_scale_to_float);
    ("FC 12M - Fluxo de Caixa de Investimentos", DataCleaner.clean_currency_with_scale_to_float);
    ("FC 12M - Fluxo de Caixa de Financiamentos", DataCleaner.clean_currency_with_scale_to_float);
    ("FC 12M - Aumento (Redução) de Caixa e Equivalentes", DataCleaner.clean_currency_with_scale_to_float);
    ("FC 3M - Fluxo de Caixa Operacional", DataCleaner.clean_currency_with_scale_to_float);
    ("FC 3M - Fluxo de Caixa de Investimentos", DataCleaner.clean_currency_with_scale_to_float);
    ("FC 3M - Fluxo de Caixa de Financiamentos", DataCleaner.clean_currency_with_scale_to_float);
    ("FC 3M - Aumento (Redução) de Caixa e Equivalentes", DataCleaner.clean_currency_with_scale_to_float);
    ("CAPEX/FCL - CAPEX 3 meses", DataCleaner.clean_currency_with_scale_to_float);
    ("CAPEX/FCL - Fluxo de Caixa Livre 3 meses", DataCleaner.clean_currency_with_scale_to_float);
    ("CAPEX/FCL - CAPEX 12 meses", DataCleaner.clean_currency_with_scale_to_float);
    ("CAPEX/FCL - Fluxo de Caixa Livre 12 meses", DataCleaner.clean_currency_with_scale_to_float);
    ("Earnings Yield (%)", DataCleaner.clean_percentage_to_float);
    ("Preço/Volume - Menor Preço 52 semanas", DataCleaner.clean_currency_to_float);
    ("Preço/Volume - Maior Preço 52 semanas", DataCleaner.clean_currency_to_float);
    ("Preço/Volume - Variação 2025", DataCleaner.clean_percentage_to_float);
    ("Preço/Volume - Variação 1 ano", DataCleaner.clean_percentage_to_float);
    ("Preço/Volume - Variação 2 anos(total)", DataCleaner.clean_percentage_to_float);
    ("Preço/Volume - Variação 2 anos(anual)", DataCleaner.clean_percentage_to_float);
    ("Preço/Volume - Variação 3 anos(total)", DataCleaner.clean_percentage_to_float);
    ("Preço/Volume - Variação 3 anos(anual)", DataCleaner.clean_percentage_to_float);
    ("Preço/Volume - Variação 4 anos(total)", DataCleaner.clean_percentage_to_float);
    ("Preço/Volume - Variação 4 anos(anual)", DataCleaner.clean_percentage_to_float);
    ("Preço/Volume - Variação 5 anos(total)", DataCleaner.clean_percentage_to_float);
    ("Preço/Volume - Variação 5 anos(anual)", DataCleaner.clean_percentage_to_float);
    ("Preço/Volume - Volume Diário Médio (3 meses)", DataCleaner.clean_currency_with_scale_to_float)
  ].

(** One turn of the loop of [clean_stock_data] on the dictionary held
    by [cleaned_data]. *)
Definition apply_rule (cleaned_data : Dict.t)
    (rule : string * (pyval -> result pyval)) : Dict.t :=
  let '(field_name, cleaning_function) := rule in
  match Dict.get cleaned_data field_name with
  | Some original_value =>
      if Py.truthy original_value then
        match cleaning_function original_value with
        | Ok VNone => cleaned_data
        | Ok cleaned_value => Dict.set cleaned_data field_name cleaned_value
        | Raise _ => cleaned_data
        end
      else cleaned_data
  | None => cleaned_data
  end.

(** The dictionary that [clean_stock_data] returns for the items [d]. *)
Definition clean_record (d : Dict.t) : Dict.t :=
  fold_left apply_rule cleaning_rules d.

(** *** The objects: records live in a store *)

Definition loc : Type := nat.

(** [clean_stock_data(stock_data)] on the store: [stock_data.copy()]
    is a new object, the loop writes to that object only, and the
    reference to it is returned.  [None] if [stock_data] is not a
    reference of the store. *)
Definition clean_stock_data (stock_data : loc) (h : gmap loc Dict.t)
    : option (loc * gmap loc Dict.t) :=
  match h !! stock_data with
  | Some d =>
      let cleaned_data := fresh (dom h) in
      Some (cleaned_data,
            fold_left (fun h' rule => alter (fun c => apply_rule c rule) cleaned_data h')
                      cleaning_rules (<[cleaned_data := d]> h))
  | None => None
  end.

End StocksScraper.

(** ** The fetched page and its extraction *)

Module Page.

(** A table cell: its text ([get_text()]) and the text of the first
    anchor inside it, if there is one. *)
Record cell : Type := { text : string; link : option string }.

(** A table row: its [td] cells. *)
Definition row : Type := list cell.

(** The ten data sections, in the order in which the scraper visits
    them. *)
Inductive section_id : Type :=
  | Basic | Prices | Dre12m | Dre3m | PriceVolume | Margins
  | Balance | Cash12m | Cash3m | Experimental.

(** A parsed page: for each section the rows that the lookups of the
    scraper reach (the table by its id, then its body), or [None] when
    the table or its body is not found. *)
Definition document : Type := section_id -> option (list row).

Definition is_scale_letter (c : ascii) : bool :=
  Ascii.eqb c "B" || Ascii.eqb c "M" || Ascii.eqb c "K".

Definition is_newline (c : ascii) : bool := (Char.code c =? 10)%N.

(** [R\$.*[BMK]] somewhere in [s]; [.] stops at a newline. *)
Fixpoint has_currency_scale (s : string) : bool :=
  (Str.startswith "R$" s
   && Str.any is_scale_letter
        (Str.take_while (fun c => negb (is_newline c)) (Str.drop 2 s)))
  || match s with
     | EmptyString => false
     | String _ s' => has_currency_scale s'
     end.

(** [\bmil\b] somewhere in [s]; [prev_word] tells whether the character
    before [s] is a word character. *)
Fixpoint has_word_mil (prev_word : bool) (s : string) : bool :=
  (negb prev_word && Str.startswith "mil" s
   && negb (Re.starts_with_class Char.is_word (Str.drop 3 s)))
  || match s with
     | EmptyString => false
     | String c s' => has_word_mil (Char.is_word c) s'
     end.

(** [re.search(r'[-\s]*R\$.*[BMK]|\bmil\b', s)] as a truth value. *)
Definition looks_scaled (s : string) : bool :=
  has_currency_scale s || has_word_mil false s.

Definition opt_char (p : ascii -> bool) (s : string) : string :=
  match s with
  | String c _ => if p c then String c EmptyString else EmptyString
  | EmptyString => EmptyString
  end.

Definition is_percent (c : ascii) : bool := Ascii.eqb c "%".
Definition is_dot_comma (c : ascii) : bool := Ascii.eqb c "." || Ascii.eqb c ",".

(** [re.findall(r'[0-9]+[.,]?[0-9]*[%]?', s)[0]], if the list is not
    empty. *)
Definition first_number (s : string) : option string :=
  match Str.drop_while (fun c => negb (Char.is_digit c)) s with
  | EmptyString => None
  | r =>
      let d1 := Str.take_while Char.is_digit r in
      let r1 := Str.drop_while Char.is_digit r in
      let sep := opt_char is_dot_comma r1 in
      let r2 := Str.drop (Str.len sep) r1 in
      let d2 := Str.take_while Char.is_digit r2 in
      let r3 := Str.drop_while Char.is_digit r2 in
      Some (d1 +:+ sep +:+ d2 +:+ opt_char is_percent r3)
  end.

(** [re.search(r'([-+]?[\d.,]+%?)', s)] *)
Fixpoint search_value (s : string) : option string :=
  match s with
  | EmptyString => None
  | String c s' =>
      if Re.is_sign c && Re.starts_with_class Re.num_dot_comma s' then
        Some (String c (Str.take_while Re.num_dot_comma s'
                        +:+ opt_char is_percent (Str.drop_while Re.num_dot_comma s')))
      else if Re.num_dot_comma c then
        Some (Str.take_while Re.num_dot_comma s
              +:+ opt_char is_percent (Str.drop_while Re.num_dot_comma s))
      else search_value s'
  end.

(** What is left of [s] after a match of
    [[-+]?\s*R\$\s*[\d.,]+\s*[BMK]?] at its start. *)
Definition match_currency_at (s : string) : option string :=
  let s1 := match s with
            | String c s' => if Re.is_sign c then s' else s
            | EmptyString => s
            end in
  let s2 := Str.drop_while Char.is_space s1 in
  if Str.startswith "R$" s2 then
    let s3 := Str.drop_while Char.is_space (Str.drop 2 s2) in
    match Str.take_while Re.num_dot_comma s3 with
    | EmptyString => None
    | _ =>
        let s4 := Str.drop_while Char.is_space (Str.drop_while Re.num_dot_comma s3) in
        Some (Str.drop (Str.len (opt_char is_scale_letter s4)) s4)
    end
  else None.

(** [re.search(r'([-+]?\s*R\$\s*[\d.,]+\s*[BMK]?)', s)] *)
Fixpoint search_currency (s : string) : option string :=
  match match_currency_at s with
  | Some rest => Some (Str.take (Str.len s - Str.len rest) s)
  | None =>
      match s with
      | EmptyString => None
      | String _ s' => search_currency s'
      end
  end.

(** The value kept for the second cell of a row, by section. *)
Definition cell_value (sec : section_id) (value_cell : cell) : string :=
  match sec, link value_cell with
  | (Basic | PriceVolume), _ => Str.strip (text value_cell)
  | _, None => Str.strip (text value_cell)
  | Prices, Some a =>
      let value_text := Str.strip a in
      if looks_scaled value_text then value_text
      else
        let is_negative := Str.startswith "-" (Str.strip value_text) in
        match first_number value_text with
        | Some value => if is_negative then "-" +:+ value else value
        | None => value_text
        end
  | (Dre12m | Dre3m), Some a =>
      let value_text := Str.strip a in
      if Str.contains "R$" value_text then value_text
      else default value_text (search_value value_text)
  | Margins, Some a =>
      let value_text := Str.strip a in
      default value_text (search_value value_text)
  | Balance, Some a =>
      let value_text := Str.strip a in
      if looks_scaled value_text then value_text
      else default value_text (search_value value_text)
  | (Cash12m | Cash3m | Experimental), Some a =>
      let value_text := Str.strip a in
      default value_text (search_currency value_text)
  end.

(** The prefix that a section puts before the label of its rows. *)
Definition key_prefix (sec : section_id) : string :=
  match sec with
  | Basic => ""
  | Prices => "Indicador - "
  | Dre12m => "DRE 12M - "
  | Dre3m => "DRE 3M - "
  | PriceVolume => "Preço/Volume - "
  | Margins => "Retorno/Margem - "
  | Balance => "Balanço - "
  | Cash12m => "FC 12M - "
  | Cash3m => "FC 3M - "
  | Experimental => "CAPEX/FCL - "
  end.

(** One row: only rows of exactly two cells are read. *)
Definition extract_row (sec : section_id) (stock_data : Dict.t) (r : row) : Dict.t :=
  match r with
  | [key_cell; value_cell] =>
      let key := Str.strip (text key_cell) in
      Dict.set stock_data (key_prefix sec +:+ key) (VStr (cell_value sec value_cell))
  | _ => stock_data
  end.

Definition extract_section (soup : document) (stock_data : Dict.t) (sec : section_id) : Dict.t :=
  match soup sec with
  | Some rows => fold_left (extract_row sec) rows stock_data
  | None => stock_data
  end.

Definition sections : list section_id :=
  [Basic; Prices; Dre12m; Dre3m; PriceVolume; Margins; Balance; Cash12m; Cash3m;
   Experimental].

Definition extract (soup : document) (stock_data : Dict.t) : Dict.t :=
  fold_left (extract_section soup) sections stock_data.

End Page.

(** ** [StocksScraper]: scraping one symbol, scraping all *)

Module Scraping.

Section WithSource.

(** The document source: the HTTP request for the page of a symbol,
    [raise_for_status] and the parse.  [Raise] is any failure of these. *)
Variable fetch : string -> result Page.document.

Definition code_key : string := "Código".
Definition error_key : string := "Erro".
Definition status_key : string := "Status".
Definition yield_key : string := "Earnings Yield (%)".

Definition scrape_stock_data (stock_code : string) : Dict.t :=
  let attempt : result Dict.t :=
    soup ← fetch stock_code;
    let stock_data := [(code_key, VStr stock_code)] in
    let stock_data := Page.extract soup stock_data in
    let earnings_yield := StocksScraper.calculate_earnings_yield stock_data in
    let stock_data :=
      if Py.truthy (VStr earnings_yield)
      then Dict.set stock_data yield_key (VStr earnings_yield)
      else stock_data in
    let cleaned_data := StocksScraper.clean_record stock_data in
    if (Dict.len cleaned_data <=? 1)%nat
    then mret [(code_key, VStr stock_code); (status_key, VStr "Nenhuma tabela encontrada")]
    else mret cleaned_data in
  match attempt with
  | Ok record => record
  | Raise e => [(code_key, VStr stock_code); (error_key, VStr (exn_message e))]
  end.

(** The classification of a record by its reserved keys. *)
Inductive outcome : Type := Success | Empty | Error.

Definition classify (record : Dict.t) : outcome :=
  if Dict.mem error_key record then Error
  else if Dict.mem status_key record then Empty
  else Success.

(** The scraper object: its configuration, the aggregate result
    [stocks_data], and the pages requested so far. *)
Record scraper : Type := {
  max_workers : Z;
  batch_size : Z;
  stocks_data : list Dict.t;
  requested : list string
}.

(** [StocksScraper(max_workers=w, batch_size=b)] *)
Definition init (w b : Z) : scraper :=
  {| max_workers := w; batch_size := b; stocks_data := []; requested := [] |}.

(** The order in which the futures of a batch complete, as
    [as_completed] yields them: some rearrangement of the submitted
    symbols, which may differ from batch to batch. *)
Variable completion_order : Z -> list string -> list string.

(** The values of [range(i, n, step)] for [step > 0]. *)
Fixpoint range_from (fuel : nat) (i n step : Z) : list Z :=
  match fuel with
  | O => []
  | S k => if i <? n then i :: range_from k (i + step) n step else []
  end.

(** [range(0, n, step)] for [n >= 0] *)
Definition py_range (n step : Z) : result (list Z) :=
  if step =? 0 then Raise (ValueError "range() arg 3 must not be zero")
  else if step <? 0 then Ok []
  else Ok (range_from (Z.to_nat n) 0 n step).

(** [l[a:b]] for [0 <= a] *)
Definition slice {A : Type} (l : list A) (a b : Z) : list A :=
  firstn (Z.to_nat (b - a)) (skipn (Z.to_nat a) l).

(** One batch: a pool of [max_workers] threads, one task per symbol,
    results appended as the tasks complete. *)
Definition run_batch (batch_start : Z) (batch : list string) (self : scraper)
    : scraper * result unit :=
  if max_workers self <=? 0 then
    (self, Raise (ValueError "max_workers must be greater than 0"))
  else
    let batch_results := List.map scrape_stock_data (completion_order batch_start batch) in
    ({| max_workers := max_workers self;
        batch_size := batch_size self;
        stocks_data := stocks_data self ++ batch_results;
        requested := requested self ++ batch |}, Ok tt).

Fixpoint run_batches (stock_codes : list string) (starts : list Z) (self : scraper)
    : scraper * result unit :=
  match starts with
  | [] => (self, Ok tt)
  | batch_start :: rest =>
      let batch_end :=
        Z.min (batch_start + batch_size self) (Z.of_nat (List.length stock_codes)) in
      let batch := slice stock_codes batch_start batch_end in
      match run_batch batch_start batch self with
      | (self', Ok _) => run_batches stock_codes rest self'
      | (self', Raise e) => (self', Raise e)
      end
  end.

Definition scrape_all_stocks (stock_codes : list string) (self : scraper)
    : scraper * result unit :=
  match py_range (Z.of_nat (List.length stock_codes)) (batch_size self) with
  | Ok starts => run_batches stock_codes starts self
  | Raise e => (self, Raise e)
  end.

End WithSource.

End Scraping.

(** ** Statements taken from the specification *)

Module Stated.

Import DataCleaner.

(** The text that the percentage cleaner works on: [%] removed, then
    stripped. *)
Definition percent_text (s : string) : string := Str.strip (Str.replace "%" "" s).

(** What the percentage cleaner returns once the text handed to its
    final regex is [clean_val]. *)
Definition percentage_of_text (clean_val : string) : result pyval :=
  try_except (first_signed_number clean_val) (fun _ => mret VNone).

(** An input with dots only whose last dot-group is longer than two
    characters. *)
Definition dots_only_long_group (s : string) : Prop :=
  Str.contains "." (percent_text s) = true /\
  Str.contains "," (percent_text s) = false /\
  (Str.len (Str.last_part "." (percent_text s)) <=? 2)%nat = false.

(** "If only [.] is present with more than 2 trailing digits, apply the
    same division by 1000", for every such input. *)
Definition dots_only_always_divided : Prop :=
  forall (s : string) (x : spec_float),
    dots_only_long_group s ->
    Float.of_string (Str.replace "." "" (percent_text s)) = Some x ->
    clean_percentage_to_float (VStr s)
    = percentage_of_text (Float.to_string (Float.div x (Float.of_Z 1000))).

(** "All functions catch internal parse errors and degrade to none", for
    the date cleaner: text that no format parses gives [None]. *)
Definition date_failure_gives_none : Prop :=
  forall s : string,
    is_missing (VStr s) = false ->
    first_date (Str.strip s) = None ->
    clean_date_to_format (VStr s) = Ok VNone.

(** "Invalid workerCount/batchSize (<= 0) fails fast before any batch
    starts": the run raises and the scraper is as it was created. *)
Definition invalid_configuration_fails : Prop :=
  forall (fetch : string -> result Page.document)
         (completion_order : Z -> list string -> list string)
         (w b : Z) (stock_codes : list string),
    w <= 0 \/ b <= 0 ->
    exists e,
      Scraping.scrape_all_stocks fetch completion_order stock_codes (Scraping.init w b)
      = (Scraping.init w b, Raise e).

(** The record kept for a symbol whose page was fetched but has none of
    the sections: the symbol and a status marker. *)
Definition empty_record (stock_code : string) : Dict.t :=
  [(Scraping.code_key, VStr stock_code);
   (Scraping.status_key, VStr "Nenhuma tabela encontrada")].

(** Text made of digits, dots and commas. *)
Definition numeric (t : string) : Prop := Str.all Re.num_dot_comma t = true.

(** The characters of numeric text. *)
Definition numeric_chars : list ascii :=
  ["0"; "1"; "2"; "3"; "4"; "5"; "6"; "7"; "8"; "9"; "."; ","]%char.

(** A pattern that numeric text cannot meet: not empty, and none of its
    characters is a digit, a dot or a comma. *)
Definition foreign (p : string) : bool :=
  negb (String.eqb p EmptyString) && negb (Str.any Re.num_dot_comma p).

(** Text that starts with a digit, a dot or a comma. *)
Definition numeric_head (x : string) : bool := Re.starts_with_class Re.num_dot_comma x.

(** The currency marker, with a leading minus for a negative amount. *)
Definition marker (is_negative : bool) : string :=
  if is_negative then "- R$ " else "R$ ".

(** The scale tokens in every letter case, with their factors. *)
Definition scale_tokens : list (string * Z) :=
  [("B", 1000000000); ("b", 1000000000);
   ("MIL", 1000); ("MIl", 1000); ("MiL", 1000); ("Mil", 1000);
   ("mIL", 1000); ("mIl", 1000); ("miL", 1000); ("mil", 1000);
   ("M", 1000000); ("m", 1000000); ("K", 1000); ("k", 1000)].

(** The factor of a scale token, in any letter case. *)
Definition token_factor (tok : string) : option Z :=
  let u := Str.upper tok in
  if String.eqb u "B" then Some 1000000000
  else if String.eqb u "MIL" then Some 1000
  else if String.eqb u "M" then Some 1000000
  else if String.eqb u "K" then Some 1000
  else None.

(** The number that the scaled-currency cleaner reads in numeric text. *)
Definition parsed_number (t : string) : option spec_float :=
  match Re.search_run Re.num_dot (brazilian_number t) with
  | Some g => Float.of_string g
  | None => None
  end.

(** The same result with the opposite sign. *)
Definition negated (r : result pyval) : result pyval :=
  match r with
  | Ok (VFloat x) => Ok (VFloat (Float.neg x))
  | _ => r
  end.

(** The first item of a record whose key names the profit per share. *)
Definition profit_field (d : Dict.t) (key : string) (v : pyval) : Prop :=
  exists d1 d2,
    d = d1 ++ (key, v) :: d2 /\
    StocksScraper.is_profit_key key = true /\
    Forall (fun kv => StocksScraper.is_profit_key (fst kv) = false) d1.

(** The conditions under which a yield is computed: the profit field
    and the last close price clean to the floats [l] and [p], and
    [p > 0]. *)
Definition yield_inputs (d : Dict.t) (l p : spec_float) : Prop :=
  (exists key v, profit_field d key v /\ clean_currency_to_float v = Ok (VFloat l))
  /\ (exists pv, Dict.get d StocksScraper.price_key = Some pv
                 /\ clean_currency_to_float pv = Ok (VFloat p))
  /\ Float.ltb (Float.of_Z 0) p = true.

(** A key of the rule table. *)
Definition ruled (k : string) : Prop := In k (List.map fst StocksScraper.cleaning_rules).

End Stated.

(** The float written by a decimal literal. *)
Definition f64 (s : string) : spec_float := default S754_nan (Float.of_string s).

(** ** The rest of [StocksScraper]: sequential run, summary, start-up *)

Module Driver.

Import Scraping.

(** [scrape_all_stocks_legacy]: one symbol after the other, each record
    appended at once. *)
Definition scrape_all_stocks_legacy (fetch : string -> result Page.document)
    (stock_codes : list string) (self : scraper) : scraper :=
  fold_left
    (fun self code =>
       {| max_workers := max_workers self;
          batch_size := batch_size self;
          stocks_data := stocks_data self ++ [scrape_stock_data fetch code];
          requested := requested self ++ [code] |})
    stock_codes self.

(** ["Erro" not in s] *)
Definition succeeded (s : Dict.t) : bool := negb (Dict.mem error_key s).

(** The three numbers that [show_summary] prints: total, successes and
    errors; nothing is printed for an empty result. *)
Definition show_summary (self : scraper) : option (nat * nat * nat) :=
  match stocks_data self with
  | [] => None
  | _ =>
      let total_stocks := List.length (stocks_data self) in
      let successful := List.length (List.filter succeeded (stocks_data self)) in
      let errors := (total_stocks - successful)%nat in
      Some (total_stocks, successful, errors)
  end.

(** The codes used when neither the table nor a spreadsheet gives any. *)
Definition example_codes : list string :=
  ["PETR4"; "VALE3"; "ITUB4"; "BBDC4"; "ABEV3"; "WEGE3"; "MGLU3"; "TTEN3"; "B3SA3";
   "RENT3"].

(** [get_stock_codes], given what [get_stock_codes_from_table] and
    [read_stock_codes_from_excel] return. *)
Definition get_stock_codes (table_codes excel_codes : list string) : list string :=
  match table_codes with
  | _ :: _ => table_codes
  | [] =>
      match excel_codes with
      | _ :: _ => excel_codes
      | [] => example_codes
      end
  end.

(** [int(s)] for a [str]: blanks around, a sign, digits with single
    underscores between them, and no more digits than the limit.
    [None] stands for [ValueError]. *)
Definition int_of_string (s : string) : option Z :=
  let t := Str.rstrip_by Char.is_c_space (Str.lstrip_by Char.is_c_space s) in
  let '(sg, body) := Float.split_sign t in
  match Float.strip_underscores "000" body with
  | Some ds =>
      if negb (String.eqb ds EmptyString) && Str.all Char.is_digit ds
         && (Str.len ds <=? Py.int_max_str_digits)%nat
      then Some (if sg then - Dec.value ds else Dec.value ds)
      else None
  | None => None
  end.

(** The configuration that [main] hands to [StocksScraper]: workers,
    batch size, use of Selenium.  [stdin] holds the lines that [input()]
    will read; reading past the end raises, and so does [int()] on text
    that is no number; both land in an [except] that takes the default. *)
Definition default_config : Z * Z * bool := (5, 20, false).

Definition custom_config (stdin : list string) : Z * Z * bool :=
  match stdin with
  | workers :: batch :: selenium :: _ =>
      match int_of_string (Str.strip workers), int_of_string (Str.strip batch) with
      | Some max_workers, Some batch_size =>
          (Z.max 1 (Z.min 10 max_workers), Z.max 5 (Z.min 50 batch_size),
           String.eqb (StocksScraper.lower (Str.strip selenium)) "s")
      | _, _ => default_config
      end
  | _ => default_config
  end.

Definition main_config (stdin : list string) : Z * Z * bool :=
  match stdin with
  | [] => default_config
  | line :: rest =>
      let choice := Str.strip line in
      if String.eqb choice "1" then (5, 20, false)
      else if String.eqb choice "2" then (8, 30, false)
      else if String.eqb choice "3" then (1, 1, false)
      else if String.eqb choice "4" then custom_config rest
      else default_config
  end.

(** [run], without the writing of the spreadsheet: the codes, the
    batched scraping, the summary.  An exception ends the run; the
    scraper keeps what it had. *)
Definition run (fetch : string -> result Page.document)
    (completion_order : Z -> list string -> list string)
    (table_codes excel_codes : list string) (self : scraper)
    : scraper * option (nat * nat * nat) :=
  let stock_codes := get_stock_codes table_codes excel_codes in
  match stock_codes with
  | [] => (self, None)
  | _ =>
      match scrape_all_stocks fetch completion_order stock_codes self with
      | (self', Ok _) => (self', show_summary self')
      | (self', Raise _) => (self', None)
      end
  end.

End Driver.

(** ** What the extraction writes *)

Module Written.

(** The key under which a row is stored: rows of two cells only. *)
Definition row_key (sec : Page.section_id) (r : Page.row) : option string :=
  match r with
  | [key_cell; _] => Some (Page.key_prefix sec +:+ Str.strip (Page.text key_cell))
  | _ => None
  end.

(** The keys written for one section, in the order of its rows. *)
Definition section_keys (soup : Page.document) (sec : Page.section_id) : list string :=
  match soup sec with
  | Some rows => omap (row_key sec) rows
  | None => []
  end.

(** The keys written for a page. *)
Definition written_keys (soup : Page.document) : list string :=
  flat_map (section_keys soup) Page.sections.

(** Whether the request for a symbol fails. *)
Definition fetch_fails (fetch : string -> result Page.document) (code : string) : bool :=
  match fetch code with
  | Ok _ => false
  | Raise _ => true
  end.

(** No page of the source has a row whose key is [key]. *)
Definition never_written (fetch : string -> result Page.document) (key : string) : Prop :=
  forall code soup, fetch code = Ok soup -> ~ In key (written_keys soup).

End Written.

(** ** The codes of the selection table *)

Module Codes.

(** [s.split(sep)] for a separator of one character or more:
    occurrences are found from the left and do not overlap.  [skip]
    counts the characters of an occurrence that remain to be dropped. *)
Fixpoint split_from (sep : string) (skip : nat) (s : string) : list string :=
  match s with
  | EmptyString => [EmptyString]
  | String c s' =>
      match skip with
      | S k => split_from sep k s'
      | O =>
          if Str.startswith sep s
          then EmptyString :: split_from sep (Str.len sep - 1) s'
          else match split_from sep 0 s' with
               | h :: t => String c h :: t
               | [] => [String c EmptyString]
               end
      end
  end.

Definition split (sep s : string) : list string := split_from sep 0 s.

Definition marker : string := "cod_negociacao=".

(** The address of the page of a symbol, as [scrape_stock_data] builds
    it. *)
Definition url (stock_code : string) : string :=
  "https://www.investsite.com.br/principais_indicadores.php?cod_negociacao=" +:+ stock_code.

(** [code and len(code) >= 4] *)
Definition long_enough (code : string) : bool :=
  Py.truthy (VStr code) && (4 <=? Str.len code)%nat.

(** A loop whose body may raise; [None] stands for the exception. *)
Fixpoint for_each {A S : Type} (body : S -> A -> option S) (l : list A) (s : S)
    : option S :=
  match l with
  | [] => Some s
  | x :: l' => s' ← body s x; for_each body l' s'
  end.

(** [href.split('cod_negociacao=')[1].split('&')[0]]; [None] stands for
    [IndexError]. *)
Definition href_code_requests (href : string) : option string :=
  part ← split marker href !! 1%nat;
  Str.split "&" part !! 0%nat.

(** [href.split('cod_negociacao=')[1]] *)
Definition href_code_selenium (href : string) : option string :=
  split marker href !! 1%nat.

(** One link of [_get_codes_with_requests]; a link without [href] reads
    as the empty text. *)
Definition add_link_requests (stock_codes : list string) (link : option string)
    : option (list string) :=
  let href := default EmptyString link in
  if Str.contains marker href then
    code ← href_code_requests href;
    Some (if long_enough code then stock_codes ++ [code] else stock_codes)
  else Some stock_codes.

(** A cell is the list of its links, a row the list of its cells, a
    table the list of its rows. *)
Definition cell : Type := list (option string).
Definition row : Type := list cell.
Definition table : Type := list row.

Definition add_row_requests (stock_codes : list string) (cells : row)
    : option (list string) :=
  match cells with
  | first_cell :: _ => for_each add_link_requests first_cell stock_codes
  | [] => Some stock_codes
  end.

(** [rows[1:]]: the header row is skipped. *)
Definition add_table_requests (stock_codes : list string) (rows : table)
    : option (list string) :=
  for_each add_row_requests (List.tail rows) stock_codes.

(** [_get_codes_with_requests], given the outcome of the two requests:
    an exception, a first page without the selection form ([None]), or
    the tables of the result page. *)
Definition get_codes_with_requests (search : result (option (list table)))
    : list string :=
  match search with
  | Ok (Some tables) => default [] (for_each add_table_requests tables [])
  | Ok None => []
  | Raise _ => []
  end.

(** One link of [_get_codes_with_selenium]; [get_attribute] gives
    [None] for a link without [href]. *)
Definition add_link_selenium (stock_codes : list string) (link : option string)
    : option (list string) :=
  match link with
  | Some href =>
      if Py.truthy (VStr href) && Str.contains marker href then
        code ← href_code_selenium href;
        Some (if long_enough code then stock_codes ++ [code] else stock_codes)
      else Some stock_codes
  | None => Some stock_codes
  end.

(** [_get_codes_with_selenium], given the driver ([None] when it could
    not be set up) and the links found in the first column, or the
    exception raised on the way. *)
Definition get_codes_with_selenium (driver : option (result (list (option string))))
    : list string :=
  match driver with
  | Some (Ok code_links) => default [] (for_each add_link_selenium code_links [])
  | Some (Raise _) => []
  | None => []
  end.

Definition get_stock_codes_from_table (use_selenium : bool)
    (driver : option (result (list (option string))))
    (search : result (option (list table))) : list string :=
  if use_selenium then get_codes_with_selenium driver
  else get_codes_with_requests search.

End Codes.

(** ** The codes of a spreadsheet *)

Module Excel.

(** [pd.isna(cell_value)] for the value of a cell. *)
Definition isna (cell_value : pyval) : bool :=
  match cell_value with
  | VNone => true
  | VFloat S754_nan => true
  | _ => false
  end.

(** [str(cell_value).strip()] *)
Definition cell_text (cell_value : pyval) : string := Str.strip (Py.str cell_value).

(** The row at which the codes start, from the first cell of column A
    ([column] is empty for an empty sheet): the second row for a file
    written by [save_results], the fourth for a file of the site. *)
Definition start_row (column : list pyval) : nat :=
  let first_cell :=
    match column with
    | cell_value :: _ => cell_text cell_value
    | [] => EmptyString
    end in
  if String.eqb (StocksScraper.lower first_cell) "código" then 1%nat else 3%nat.

(** The loop over the cells from the start row on; it stops at the
    first blank cell. *)
Fixpoint read_cells (cells : list pyval) (stock_codes : list string) : list string :=
  match cells with
  | [] => stock_codes
  | cell_value :: cells' =>
      if isna cell_value || String.eqb (cell_text cell_value) EmptyString
      then stock_codes
      else
        let code := cell_text cell_value in
        read_cells cells'
          (if Codes.long_enough code then stock_codes ++ [code] else stock_codes)
  end.

(** [read_stock_codes_from_excel], given column A of the spreadsheet
    that was found or downloaded: [None] when there is no file, [Raise]
    when reading it fails. *)
Definition read_stock_codes_from_excel (sheet : option (result (list pyval)))
    : list string :=
  match sheet with
  | Some (Ok column) => read_cells (List.skipn (start_row column) column) []
  | Some (Raise _) => []
  | None => []
  end.

End Excel.

(** ** The connection of the scraper *)

Module Session.

(** The two attributes that decide how pages are requested: the flag
    [use_selenium], and whether [__init__] created [self.session]. *)
Record t : Type := { use_selenium : bool; has_session : bool }.

(** [StocksScraper(use_selenium=...)], given [SELENIUM_AVAILABLE]: the
    session is created only when Selenium is not used. *)
Definition init (use_selenium selenium_available : bool) : t :=
  let use_selenium := use_selenium && selenium_available in
  {| use_selenium := use_selenium; has_session := negb use_selenium |}.

(** [setup_selenium_driver]: [started] tells whether the Chrome driver
    could be started; the result tells whether a driver is returned.
    A failure switches the flag, and nothing else, to the requests
    mode. *)
Definition setup_selenium_driver (started : bool) (self : t) : t * bool :=
  if negb (use_selenium self) then (self, false)
  else if started then (self, true)
  else ({| use_selenium := false; has_session := has_session self |}, false).

(** The request of [scrape_stock_data]: [requests.get] under Selenium,
    [self.session.get] otherwise.  [no_session] is the exception raised
    by the lookup of [self.session] on a scraper without a session. *)
Definition request (self : t) (no_session : exn)
    (site : string -> result Page.document) (stock_code : string)
    : result Page.document :=
  if use_selenium self then site stock_code
  else if has_session self then site stock_code
  else Raise no_session.

(** [get_stock_codes_from_table]: the Selenium reader sets up its
    driver first; the requests reader starts with [self.session.get]. *)
Definition get_stock_codes_from_table (started : bool)
    (code_links : result (list (option string)))
    (search : result (option (list Codes.table))) (no_session : exn) (self : t)
    : t * list string :=
  if use_selenium self then
    let '(self, driver) := setup_selenium_driver started self in
    (self, Codes.get_codes_with_selenium (if driver then Some code_links else None))
  else
    (self, Codes.get_codes_with_requests (if has_session self then search
                                         else Raise no_session)).

(** [run] on a scraper in the state [self]: the codes of the table, then
    the batched scraping through the connection that is left. *)
Definition run (started : bool) (code_links : result (list (option string)))
    (search : result (option (list Codes.table))) (no_session : exn)
    (site : string -> result Page.document)
    (completion_order : Z -> list string -> list string)
    (excel_codes : list string) (self : t) (scraper : Scraping.scraper)
    : Scraping.scraper * option (nat * nat * nat) :=
  let '(self, table_codes) :=
    get_stock_codes_from_table started code_links search no_session self in
  Driver.run (request self no_session site) completion_order table_codes excel_codes
    scraper.

End Session.

(** ** The fields counted by the summary *)

Module Summary.

(** [k.startswith((p1, p2, ...))] *)
Definition startswith_any (prefixes : list string) (k : string) : bool :=
  existsb (fun p => Str.startswith p k) prefixes.

(** The prefixes that exclude a key from the basic fields. *)
Definition sectioned : list string :=
  ["Indicador -"; "DRE "; "Preço/Volume -"; "Retorno/Margem -"; "Balanço -"; "FC ";
   "CAPEX/FCL -"].

(** The ten classes of keys, in the order in which they are printed. *)
Definition field_classes : list (string -> bool) :=
  [ (fun k => negb (startswith_any sectioned k));
    Str.startswith "Indicador -";
    Str.startswith "DRE 12M -";
    Str.startswith "DRE 3M -";
    Str.startswith "Preço/Volume -";
    Str.startswith "Retorno/Margem -";
    Str.startswith "Balanço -";
    Str.startswith "FC 12M -";
    Str.startswith "FC 3M -";
    Str.startswith "CAPEX/FCL -" ].

(** [next((s for s in self.stocks_data if "Erro" not in s), None)] *)
Definition sample_stock (stocks_data : list Dict.t) : option Dict.t :=
  List.find Driver.succeeded stocks_data.

(** The numbers of fields printed for the sample record, class by
    class, and the total printed after them. *)
Definition field_counts (sample_stock : Dict.t) : list nat :=
  List.map (fun class => List.length (List.filter class (Dict.keys sample_stock)))
    field_classes.

Definition field_total (sample_stock : Dict.t) : nat := Dict.len sample_stock.

End Summary.

(** ** Sample pages *)

Module Sample.

Definition plain (t : string) : Page.cell := {| Page.text := t; Page.link := None |}.

Definition linked (t : string) : Page.cell := {| Page.text := t; Page.link := Some t |}.

(** A page with a basic table of two rows and one cash-flow row. *)
Definition bank_page : Page.document := fun sec =>
  match sec with
  | Page.Basic =>
      Some [[plain " Setor "; plain "Bancos"];
            [plain "Último Preço de Fechamento"; plain "R$ 25,50"]]
  | Page.Cash12m =>
      Some [[plain "Fluxo de Caixa Operacional"; linked "R$ 1,5 mil"]]
  | _ => None
  end.

(** A source that has the page of one symbol and fails for the rest. *)
Definition one_symbol (code : string) : result Page.document :=
  if String.eqb code "ITUB4" then Ok bank_page
  else Raise (RequestException "404 Client Error").

End Sample.

(** * Theorems *)

(** ** The percentage cleaner *)

Section Percentage.

Import DataCleaner Stated.

Lemma missing_has_no_dot (s : string) :
  Str.contains "." (percent_text s) = true -> is_missing (VStr s) = false.
Proof.
  intros H. unfold is_missing. simpl.
  destruct (String.eqb s "") eqn:E0.
  { apply String.eqb_eq in E0. subst s. discriminate H. }
  destruct (String.eqb s "N/A") eqn:E1.
  { apply String.eqb_eq in E1. subst s. discriminate H. }
  destruct (String.eqb s "-") eqn:E2.
  { apply String.eqb_eq in E2. subst s. discriminate H. }
  reflexivity.
Qed.

(** C1. With both a dot and a comma in the text, the cleaner removes
    [%], removes the dots, reads the comma as the decimal point and
    divides the number by 1000 whatever its size: the value returned is
    the one read back from that quotient, and a text that is no number
    gives [None].  In particular ["-18.000,00%"] gives [-18.0]. *)
Theorem percentage_both_separators_divides :
  (forall s : string,
     Str.contains "." (percent_text s) = true ->
     Str.contains "," (percent_text s) = true ->
     clean_percentage_to_float (VStr s)
     = match Float.of_string (Str.replace "," "." (Str.replace "." "" (percent_text s))) with
       | Some x => percentage_of_text (Float.to_string (Float.div x (Float.of_Z 1000)))
       | None => Ok VNone
       end)
  /\ clean_percentage_to_float (VStr "-18.000,00%") = Ok (VFloat (f64 "-18.00")).
Proof.
  split; [| vm_compute; reflexivity].
  intros s Hd Hc.
  unfold clean_percentage_to_float.
  rewrite (missing_has_no_dot s Hd).
  unfold clean_percentage_body, percentage_text. simpl Py.str.
  fold (percent_text s). rewrite Hd, Hc. simpl andb. cbv iota.
  unfold Py.float.
  destruct (Float.of_string _) as [x|]; reflexivity.
Qed.

Lemma percentage_both_separators_divides_witness :
  clean_percentage_to_float (VStr "1.234,5%")
  = percentage_of_text "1.2345".
Proof.
  rewrite (proj1 percentage_both_separators_divides "1.234,5%");
    vm_compute; reflexivity.
Defined.

(** C6, as stated, fails: ["0.500%"] has dots only and a last group of
    three digits, yet it is not divided and comes out as [500.0]. *)
Lemma dots_only_not_always_divided : ~ dots_only_always_divided.
Proof.
  intros H.
  specialize (H "0.500%" (f64 "500")).
  assert (Hp : dots_only_long_group "0.500%") by (repeat split; vm_compute; reflexivity).
  specialize (H Hp eq_refl).
  vm_compute in H. discriminate H.
Qed.

(** C6, amended.  For text with dots only and a last group longer than
    two characters, the dots are removed and the number is divided by
    1000 exactly when its absolute value is at least 1000; below that
    the number is kept as it is. *)
Theorem percentage_dots_only_guarded (s : string) (x : spec_float) :
  dots_only_long_group s ->
  Float.of_string (Str.replace "." "" (percent_text s)) = Some x ->
  clean_percentage_to_float (VStr s)
  = percentage_of_text
      (if Float.leb (Float.of_Z 1000) (Float.abs x)
       then Float.to_string (Float.div x (Float.of_Z 1000))
       else Str.replace "." "" (percent_text s)).
Proof.
  intros (Hd & Hc & Hl) Hx.
  unfold clean_percentage_to_float.
  rewrite (missing_has_no_dot s Hd).
  unfold clean_percentage_body, percentage_text. simpl Py.str.
  fold (percent_text s). rewrite Hd, Hc, Hl. simpl andb. cbv iota.
  unfold Py.float. rewrite Hx. simpl.
  destruct (Float.leb _ _); reflexivity.
Qed.

Lemma percentage_dots_only_guarded_witness :
  clean_percentage_to_float (VStr "18.000%") = Ok (VFloat (f64 "18.00"))
  /\ clean_percentage_to_float (VStr "0.500%") = Ok (VFloat (f64 "500")).
Proof.
  split.
  - rewrite (percentage_dots_only_guarded "18.000%" (f64 "18000"));
      [ vm_compute; reflexivity
      | repeat split; vm_compute; reflexivity
      | vm_compute; reflexivity ].
  - rewrite (percentage_dots_only_guarded "0.500%" (f64 "500"));
      [ vm_compute; reflexivity
      | repeat split; vm_compute; reflexivity
      | vm_compute; reflexivity ].
Defined.

End Percentage.

(** ** Sentinels and exceptions of the six cleaners *)

Section Sentinels.

Import DataCleaner Stated.

(** A cleaner whose body sits in [try]/[except Exception] with a
    handler that returns: it always returns. *)
Lemma guarded_returns (missing : bool) (body : result pyval) (fallback : pyval) :
  exists r, (if missing then mret VNone
             else try_except body (fun _ => mret fallback)) = Ok r.
Proof.
  destruct missing; [ eexists; reflexivity |].
  destruct body; eexists; reflexivity.
Qed.

Lemma guarded_failure (missing : bool) (body : result pyval) (fallback : pyval) (e : exn) :
  body = Raise e ->
  (if missing then mret VNone else try_except body (fun _ => mret fallback))
  = Ok (if missing then VNone else fallback).
Proof. intros ->. destruct missing; reflexivity. Qed.

(** The body of the date cleaner cannot raise: each [strptime] sits in
    its own [try]. *)
Lemma clean_date_body_returns (value : pyval) :
  clean_date_body value
  = Ok (match first_date (Str.strip (Py.str value)) with
        | Some date_obj => VStr (Strptime.strftime_dmY date_obj)
        | None => value
        end).
Proof. unfold clean_date_body. destruct (first_date _); reflexivity. Qed.

(** C8, as stated, fails for the date cleaner: ["abc"] matches no
    format and comes back unchanged, not as [None]. *)
Lemma date_failure_keeps_text : ~ date_failure_gives_none.
Proof.
  intros H. specialize (H "abc" eq_refl eq_refl).
  vm_compute in H. discriminate H.
Qed.

(** C8, amended.  Each of the six cleaners returns [None] for the empty
    string, ["N/A"] and ["-"], and returns (never raises) for every
    input string; when the body of one of the five numeric cleaners
    raises on a string, the result is [None]; the date cleaner returns
    its input string unchanged when no format parses it. *)
Theorem cleaners_sentinels_and_failures :
  let cleaners :=
    [clean_currency_to_float; clean_currency_with_scale_to_float;
     clean_percentage_to_float; clean_ratio_to_float; clean_integer;
     clean_date_to_format] in
  let numeric_bodies :=
    [(clean_currency_to_float, clean_currency_body);
     (clean_currency_with_scale_to_float, clean_currency_with_scale_body);
     (clean_percentage_to_float, clean_percentage_body);
     (clean_ratio_to_float, clean_ratio_body);
     (clean_integer, clean_integer_body)] in
  Forall (fun f => f (VStr "") = Ok VNone /\ f (VStr "N/A") = Ok VNone
                   /\ f (VStr "-") = Ok VNone
                   /\ forall s : string, exists r, f (VStr s) = Ok r) cleaners
  /\ Forall (fun fb => forall (s : string) e,
               snd fb (VStr s) = Raise e -> fst fb (VStr s) = Ok VNone) numeric_bodies
  /\ (forall s : string,
        is_missing (VStr s) = false ->
        first_date (Str.strip s) = None ->
        clean_date_to_format (VStr s) = Ok (VStr s)).
Proof.
  intros cleaners numeric_bodies. split; [| split].
  - repeat constructor; intros s; apply guarded_returns.
  - repeat constructor; simpl; intros s e He;
      match goal with
      | |- ?f (VStr s) = _ => unfold f
      end;
      rewrite (guarded_failure _ _ VNone e He); destruct (is_missing (VStr s)); reflexivity.
  - intros s Hm Hd. unfold clean_date_to_format.
    rewrite Hm, clean_date_body_returns. cbn [Py.str]. rewrite Hd. reflexivity.
Qed.

Lemma cleaners_sentinels_and_failures_witness :
  clean_date_to_format (VStr "abc") = Ok (VStr "abc")
  /\ clean_percentage_to_float (VStr "1.2,3,4") = Ok VNone
  /\ clean_integer (VStr (Str.repeat "7" 4301)) = Ok VNone.
Proof.
  pose proof cleaners_sentinels_and_failures as (_ & Hnum & Hdate).
  split; [| split].
  - apply (Hdate "abc"); reflexivity.
  - pose proof (proj1 (Forall_cons_iff _ _ _)
                  (proj2 (proj1 (Forall_cons_iff _ _ _)
                     (proj2 (proj1 (Forall_cons_iff _ _ _) Hnum))))) as (Hp & _).
    apply (Hp "1.2,3,4"
              (ValueError "could not convert string to float: 12.3.4")).
    vm_compute. reflexivity.
  - pose proof (proj1 (Forall_cons_iff _ _ _)
                  (proj2 (proj1 (Forall_cons_iff _ _ _)
                     (proj2 (proj1 (Forall_cons_iff _ _ _)
                        (proj2 (proj1 (Forall_cons_iff _ _ _)
                           (proj2 (proj1 (Forall_cons_iff _ _ _) Hnum))))))))) as (Hi & _).
    apply (Hi (Str.repeat "7" 4301) (ValueError (Py.int_limit_message 4301))).
    vm_compute. reflexivity.
Defined.

End Sentinels.

(** ** Batched scraping *)

Section Batches.

Import Scraping.

Variable fetch : string -> result Page.document.
Variable completion_order : Z -> list string -> list string.

Local Abbreviation scrape := (scrape_stock_data fetch).
Local Abbreviation run := (run_batches fetch completion_order).

Lemma range_from_unfold (k : nat) (i n step : Z) :
  range_from (S k) i n step
  = if i <? n then i :: range_from k (i + step) n step else [].
Proof. reflexivity. Qed.

(** A batch is the next [batch_size] symbols, or all that are left. *)
Lemma slice_batch (codes : list string) (i bs : Z) :
  0 <= i -> 0 < bs ->
  slice codes i (Z.min (i + bs) (Z.of_nat (List.length codes)))
  = take (Z.to_nat bs) (drop (Z.to_nat i) codes).
Proof.
  intros Hi Hbs. unfold slice.
  destruct (Z.le_gt_cases (i + bs) (Z.of_nat (List.length codes))) as [Hle | Hgt].
  - rewrite Z.min_l by lia. f_equal. lia.
  - rewrite Z.min_r by lia.
    rewrite !take_ge; [reflexivity | |]; rewrite length_drop; lia.
Qed.

(** Without a worker the pool of the first batch cannot be created. *)
Lemma no_worker_raises (w b : Z) (stock_codes : list string) :
  0 < b -> w <= 0 -> stock_codes <> [] ->
  scrape_all_stocks fetch completion_order stock_codes (init w b)
  = (init w b, Raise (ValueError "max_workers must be greater than 0")).
Proof.
  intros Hb Hw Hne.
  destruct stock_codes as [| c cs]; [contradiction |].
  unfold scrape_all_stocks, py_range. cbn [batch_size init].
  replace (b =? 0) with false by (symmetry; lia).
  replace (b <? 0) with false by (symmetry; lia).
  cbn [List.length]. rewrite Nat2Z.id, range_from_unfold.
  assert (Hpos : (0 <? Z.of_nat (S (List.length cs))) = true) by (apply Z.ltb_lt; lia).
  rewrite Hpos.
  cbn [run_batches]. unfold run_batch. cbn [max_workers init].
  replace (w <=? 0) with true by (symmetry; lia).
  reflexivity.
Qed.

Hypothesis completion_is_rearrangement :
  forall b batch, Permutation (completion_order b batch) batch.

(** The batches from position [i] on handle exactly the symbols from
    [i] on, whatever the order of completion inside each batch. *)
Lemma run_batches_complete (codes : list string) (fuel : nat) :
  forall (i : Z) (self : scraper),
    0 < batch_size self -> 0 < max_workers self -> 0 <= i ->
    Z.of_nat (List.length codes) - i <= Z.of_nat fuel ->
    exists records,
      run codes (range_from fuel i (Z.of_nat (List.length codes)) (batch_size self)) self
      = ({| max_workers := max_workers self;
            batch_size := batch_size self;
            stocks_data := stocks_data self ++ records;
            requested := requested self ++ drop (Z.to_nat i) codes |}, Ok tt)
      /\ Permutation records (List.map scrape (drop (Z.to_nat i) codes)).
Proof.
  induction fuel as [| k IH]; intros i self Hbs Hw Hi Hfuel.
  - exists []. simpl.
    rewrite drop_ge by lia. rewrite !app_nil_r.
    destruct self; split; [reflexivity | constructor].
  - rewrite range_from_unfold.
    destruct (i <? Z.of_nat (List.length codes)) eqn:Hlt.
    + apply Z.ltb_lt in Hlt.
      cbn [run_batches]. rewrite slice_batch by assumption.
      unfold run_batch. replace (max_workers self <=? 0) with false by (symmetry; lia).
      set (batch := take (Z.to_nat (batch_size self)) (drop (Z.to_nat i) codes)).
      set (self1 := {| max_workers := max_workers self;
                       batch_size := batch_size self;
                       stocks_data := stocks_data self
                                        ++ List.map scrape (completion_order i batch);
                       requested := requested self ++ batch |}).
      destruct (IH (i + batch_size self) self1) as (rest & Hrun & Hperm);
        [ assumption | assumption | lia | lia |].
      change (batch_size self1) with (batch_size self) in Hrun.
      exists (List.map scrape (completion_order i batch) ++ rest). split.
      * rewrite Hrun. subst self1. cbn [max_workers batch_size stocks_data requested].
        rewrite <- !app_assoc. repeat f_equal.
        subst batch. rewrite Z2Nat.inj_add by lia.
        rewrite <- drop_drop. apply take_drop.
      * rewrite <- (take_drop (Z.to_nat (batch_size self)) (drop (Z.to_nat i) codes)).
        rewrite List.map_app. apply Permutation_app.
        -- apply Permutation_map, completion_is_rearrangement.
        -- rewrite drop_drop, <- Z2Nat.inj_add by lia. exact Hperm.
    + apply Z.ltb_ge in Hlt. exists []. cbn [run_batches].
      rewrite drop_ge by lia. rewrite !app_nil_r.
      destruct self; split; [reflexivity | constructor].
Qed.

(** C3.  With a batch size of at least one, a new scraper that
    scrapes [N] symbols and ends normally holds exactly [N] records, the
    records of the submitted symbols in some order (an error record is
    a record like any other), whatever the order in which the workers
    of a batch complete; and with at least one worker it does end
    normally. *)
Theorem batch_completeness (w b : Z) (stock_codes : list string) :
  0 < b ->
  (0 < w ->
   exists self',
     scrape_all_stocks fetch completion_order stock_codes (init w b) = (self', Ok tt))
  /\ (forall self',
        scrape_all_stocks fetch completion_order stock_codes (init w b) = (self', Ok tt) ->
        List.length (stocks_data self') = List.length stock_codes
        /\ Permutation (stocks_data self') (List.map scrape stock_codes)).
Proof.
  intros Hb.
  destruct (Z.lt_ge_cases 0 w) as [Hw | Hw].
  - assert (Hrun : exists records,
               scrape_all_stocks fetch completion_order stock_codes (init w b)
               = ({| max_workers := w; batch_size := b; stocks_data := records;
                     requested := stock_codes |}, Ok tt)
               /\ Permutation records (List.map scrape stock_codes)).
    { unfold scrape_all_stocks, py_range. cbn [batch_size init].
      replace (b =? 0) with false by (symmetry; lia).
      replace (b <? 0) with false by (symmetry; lia).
      destruct (run_batches_complete stock_codes
                  (Z.to_nat (Z.of_nat (List.length stock_codes))) 0 (init w b))
        as (records & Hrun & Hperm); [ assumption | assumption | lia | lia |].
      exists records. split; [exact Hrun | exact Hperm]. }
    destruct Hrun as (records & Hrun & Hperm).
    split; [intros _; eexists; exact Hrun |].
    intros self' Hself. rewrite Hrun in Hself. injection Hself as <-.
    cbn [stocks_data]. split; [| exact Hperm].
    rewrite (Permutation_length Hperm). apply length_map.
  - split; [lia |].
    intros self' Hself.
    destruct stock_codes as [| c cs].
    + unfold scrape_all_stocks, py_range in Hself. cbn [batch_size init] in Hself.
      replace (b =? 0) with false in Hself by (symmetry; lia).
      replace (b <? 0) with false in Hself by (symmetry; lia).
      cbn in Hself. injection Hself as <-. split; [reflexivity | constructor].
    + rewrite (no_worker_raises w b (c :: cs) Hb Hw) in Hself by discriminate.
      discriminate Hself.
Qed.

End Batches.

Lemma batch_completeness_witness :
  exists self',
    Scraping.scrape_all_stocks (fun _ => Raise (RequestException "timeout"))
      (fun _ batch => rev batch) ["PETR4"; "VALE3"; "ITUB4"] (Scraping.init 2 2)
    = (self', Ok tt)
    /\ List.length (Scraping.stocks_data self') = 3%nat.
Proof.
  destruct (batch_completeness (fun _ => Raise (RequestException "timeout"))
              (fun _ batch => rev batch)
              (fun _ batch => Permutation_sym (Permutation_rev batch))
              2 2 ["PETR4"; "VALE3"; "ITUB4"]) as [Hends Hcount]; [lia |].
  destruct Hends as (self' & Hrun); [lia |].
  exists self'. split; [exact Hrun | exact (proj1 (Hcount self' Hrun))].
Defined.

(** ** Invalid configurations *)

Section Configuration.

Import Scraping Stated.

(** C9, as stated, fails: with a negative batch size the loop over the
    batches has nothing to do, and the run ends normally with no
    record. *)
Lemma negative_batch_size_does_not_fail : ~ invalid_configuration_fails.
Proof.
  intros H.
  destruct (H (fun _ => Raise (RequestException "timeout")) (fun _ batch => batch)
              5 (-1) ["PETR4"]) as (e & He).
  - right. lia.
  - vm_compute in He. discriminate He.
Qed.

(** C9, amended.  With a batch size of zero, or with no worker, a
    positive batch size and at least one symbol, the run raises before
    any page is requested and before any record is added: the scraper
    is as it was created. *)
Theorem zero_batch_or_no_worker_fails
    (fetch : string -> result Page.document)
    (completion_order : Z -> list string -> list string)
    (w b : Z) (stock_codes : list string) :
  b = 0 \/ (0 < b /\ w <= 0 /\ stock_codes <> []) ->
  exists e,
    scrape_all_stocks fetch completion_order stock_codes (init w b)
    = (init w b, Raise e).
Proof.
  intros [-> | (Hb & Hw & Hne)].
  - eexists. reflexivity.
  - eexists. apply no_worker_raises; assumption.
Qed.

Lemma zero_batch_or_no_worker_fails_witness :
  exists e,
    scrape_all_stocks (fun _ => Raise (RequestException "timeout")) (fun _ batch => batch)
      ["PETR4"; "VALE3"] (init 0 20)
    = (init 0 20, Raise e).
Proof.
  apply zero_batch_or_no_worker_fails.
  right. split; [lia | split; [lia | discriminate]].
Defined.

End Configuration.

(** ** Empty pages *)

Section EmptyPage.

Import Scraping Stated.

(** C4: what the code does.  For a page that was fetched and has none
    of the ten sections, the record holds the symbol and the derived
    field ["N/A"]: two items, so the test [len(cleaned_data) <= 1] does
    not hold, and the record is classified as a success, not as empty. *)
Theorem empty_page_is_not_classified_empty
    (fetch : string -> result Page.document) (stock_code : string)
    (soup : Page.document) :
  fetch stock_code = Ok soup ->
  (forall sec, soup sec = None) ->
  scrape_stock_data fetch stock_code
  = [(code_key, VStr stock_code); (yield_key, VStr "N/A")]
  /\ scrape_stock_data fetch stock_code <> empty_record stock_code
  /\ classify (scrape_stock_data fetch stock_code) = Success.
Proof.
  intros Hfetch Hnone.
  assert (E : scrape_stock_data fetch stock_code
              = [(code_key, VStr stock_code); (yield_key, VStr "N/A")]).
  { unfold scrape_stock_data. rewrite Hfetch. cbn [mbind result_bind].
    unfold Page.extract, Page.extract_section. cbn [fold_left Page.sections].
    rewrite !Hnone. reflexivity. }
  rewrite E. split; [reflexivity | split; [discriminate | reflexivity]].
Qed.

Lemma empty_page_is_not_classified_empty_witness :
  classify (scrape_stock_data (fun _ => Ok (fun _ => None)) "XXXX4") = Success.
Proof.
  apply (empty_page_is_not_classified_empty (fun _ => Ok (fun _ => None)) "XXXX4"
           (fun _ => None)); reflexivity.
Defined.

End EmptyPage.

(** ** The derived earnings yield *)

Section EarningsYield.

Import DataCleaner StocksScraper Stated.

Lemma clean_currency_returns (value : pyval) :
  exists r, clean_currency_to_float value = Ok r.
Proof. apply guarded_returns. Qed.

(** The currency cleaner returns a float or [None]. *)
Lemma clean_currency_float_or_none (value : pyval) (r : pyval) :
  clean_currency_to_float value = Ok r -> r = VNone \/ exists x, r = VFloat x.
Proof.
  unfold clean_currency_to_float, clean_currency_body, currency_of_text.
  destruct (is_missing value); [intros [= <-]; left; reflexivity |].
  destruct (Re.search_run _ _) as [g |]; [| intros [= <-]; left; reflexivity].
  destruct (Py.float g) as [x | e]; cbn; intros [= <-]; [right; eexists |left]; reflexivity.
Qed.

Lemma clean_currency_needs_truthy (value : pyval) (x : spec_float) :
  clean_currency_to_float value = Ok (VFloat x) -> Py.truthy value = true.
Proof.
  unfold clean_currency_to_float, is_missing.
  destruct (Py.truthy value); [reflexivity | discriminate].
Qed.

(** The loop stops at the first profit key. *)
Lemma find_profit_first (d : Dict.t) (key : string) (v r : pyval) :
  profit_field d key v -> clean_currency_to_float v = Ok r -> find_profit d = r.
Proof.
  intros (d1 & d2 & -> & Hkey & Hbefore) Hclean.
  induction Hbefore as [| [k0 v0] d1 Hk0 _ IH]; cbn [find_profit app].
  - rewrite Hkey, Hclean. reflexivity.
  - cbn [fst] in Hk0. rewrite Hk0. exact IH.
Qed.

Lemma find_profit_float (d : Dict.t) (l : spec_float) :
  find_profit d = VFloat l ->
  exists key v, profit_field d key v /\ clean_currency_to_float v = Ok (VFloat l).
Proof.
  induction d as [| [k0 v0] d IH]; cbn [find_profit]; [discriminate |].
  destruct (is_profit_key k0) eqn:Hk0.
  - destruct (clean_currency_returns v0) as (r & Hr). rewrite Hr. intros ->.
    exists k0, v0. split; [| exact Hr].
    exists [], d. split; [reflexivity | split; [exact Hk0 | constructor]].
  - intros H. destruct (IH H) as (key & v & (d1 & d2 & -> & Hkey & Hbefore) & Hclean).
    exists key, v. split; [| exact Hclean].
    exists ((k0, v0) :: d1), d2. split; [reflexivity | split; [exact Hkey |]].
    constructor; assumption.
Qed.

Lemma find_price_float (d : Dict.t) (p : spec_float) :
  find_price d = VFloat p <->
  exists pv, Dict.get d price_key = Some pv /\ clean_currency_to_float pv = Ok (VFloat p).
Proof.
  unfold find_price. split.
  - destruct (Dict.get d price_key) as [pv |]; cbn [default from_option id];
      [| discriminate].
    destruct (Py.truthy pv); [| discriminate].
    destruct (clean_currency_returns pv) as (r & Hr). rewrite Hr. intros ->.
    exists pv. split; [reflexivity | exact Hr].
  - intros (pv & -> & Hclean). cbn [default from_option id].
    rewrite (clean_currency_needs_truthy pv p Hclean), Hclean. reflexivity.
Qed.

(** C5.  When the profit-per-share field (the first field whose key
    names it) and the last close price both clean to floats [l] and [p]
    and [p > 0], the derived field is [(l / p) * 100] in the [.2f]
    format followed by [%]; a record for which the derived field is not
    ["N/A"] is such a record.  With price ["R$ 25,50"] and profit
    ["2,50"] the field is ["9.80%"]. *)
Theorem earnings_yield_computation :
  (forall d l p,
     yield_inputs d l p ->
     calculate_earnings_yield d
     = Float.format_2f (Float.mul (Float.div l p) (Float.of_Z 100)) +:+ "%")
  /\ (forall d,
        calculate_earnings_yield d <> "N/A" -> exists l p, yield_inputs d l p)
  /\ calculate_earnings_yield
       [("Código", VStr "TEST4"); ("Último Preço de Fechamento", VStr "R$ 25,50");
        ("DRE 12M - Lucro/Ação", VStr "2,50")]
     = "9.80%".
Proof.
  split; [| split; [| vm_compute; reflexivity]].
  - intros d l p ((key & v & Hfield & Hl) & Hprice & Hpos).
    unfold calculate_earnings_yield.
    rewrite (find_profit_first d key v _ Hfield Hl).
    rewrite (proj2 (find_price_float d p) Hprice), Hpos. reflexivity.
  - intros d. unfold calculate_earnings_yield.
    destruct (find_profit d) as [| | l |] eqn:Hl; try congruence.
    destruct (find_price d) as [| | p |] eqn:Hp; try congruence.
    destruct (Float.ltb (Float.of_Z 0) p) eqn:Hpos; [| congruence].
    intros _. exists l, p. split; [| split].
    + apply find_profit_float, Hl.
    + apply find_price_float, Hp.
    + exact Hpos.
Qed.

Lemma earnings_yield_computation_witness :
  calculate_earnings_yield
    [("Último Preço de Fechamento", VStr "R$ 10,00"); ("Lucro por ação", VStr "- R$ 0,50")]
  = "-5.00%".
Proof.
  rewrite (proj1 earnings_yield_computation _ (f64 "-0.5") (f64 "10")).
  - vm_compute. reflexivity.
  - split; [| split].
    + exists "Lucro por ação", (VStr "- R$ 0,50"). split; [| vm_compute; reflexivity].
      exists [("Último Preço de Fechamento", VStr "R$ 10,00")], [].
      split; [reflexivity | split; [vm_compute; reflexivity |]].
      repeat constructor.
    + exists (VStr "R$ 10,00"). split; vm_compute; reflexivity.
    + vm_compute. reflexivity.
Defined.

End EarningsYield.

(** ** The frame of [clean_stock_data] *)

Section Frame.

Import StocksScraper Stated.

Lemma set_existing_keys (d : Dict.t) (k : string) (v v' : pyval) :
  Dict.get d k = Some v -> Dict.keys (Dict.set d k v') = Dict.keys d.
Proof.
  induction d as [| [k0 v0] d IH]; cbn [Dict.get Dict.set]; [discriminate |].
  destruct (String.eqb k0 k); [reflexivity |].
  intros H. cbn [Dict.keys List.map fst]. f_equal. apply IH, H.
Qed.

Lemma get_set_other (d : Dict.t) (k k' : string) (v : pyval) :
  k <> k' -> Dict.get (Dict.set d k v) k' = Dict.get d k'.
Proof.
  intros Hne. induction d as [| [k0 v0] d IH]; cbn [Dict.get Dict.set].
  - destruct (String.eqb_spec k k'); [contradiction | reflexivity].
  - destruct (String.eqb_spec k0 k) as [-> |]; cbn [Dict.get].
    + destruct (String.eqb_spec k k'); [contradiction | reflexivity].
    + destruct (String.eqb k0 k'); [reflexivity | exact IH].
Qed.

Lemma apply_rule_keys (d : Dict.t) (rule : string * (pyval -> result pyval)) :
  Dict.keys (apply_rule d rule) = Dict.keys d.
Proof.
  destruct rule as [k f]. unfold apply_rule.
  destruct (Dict.get d k) as [v |] eqn:Hget; [| reflexivity].
  destruct (Py.truthy v); [| reflexivity].
  destruct (f v) as [[| s | x | n] | e];
    try reflexivity; eapply set_existing_keys, Hget.
Qed.

Lemma apply_rule_other (d : Dict.t) (rule : string * (pyval -> result pyval)) (k : string) :
  fst rule <> k -> Dict.get (apply_rule d rule) k = Dict.get d k.
Proof.
  destruct rule as [k0 f]. cbn [fst]. intros Hne. unfold apply_rule.
  destruct (Dict.get d k0) as [v |]; [| reflexivity].
  destruct (Py.truthy v); [| reflexivity].
  destruct (f v) as [[| s | x | n] | e];
    try reflexivity; apply get_set_other, Hne.
Qed.

Lemma apply_rule_none (d : Dict.t) (k : string) (f : pyval -> result pyval) (v : pyval) :
  Dict.get d k = Some v -> f v = Ok VNone -> apply_rule d (k, f) = d.
Proof.
  intros Hget Hf. unfold apply_rule. rewrite Hget, Hf.
  destruct (Py.truthy v); reflexivity.
Qed.

(** The same three facts for a whole table of rules. *)
Lemma rules_keys (rules : list (string * (pyval -> result pyval))) :
  forall d, Dict.keys (fold_left apply_rule rules d) = Dict.keys d.
Proof.
  induction rules as [| r rules IH]; intros d; cbn [fold_left]; [reflexivity |].
  rewrite IH. apply apply_rule_keys.
Qed.

Lemma rules_other (rules : list (string * (pyval -> result pyval))) (k : string) :
  ~ In k (List.map fst rules) ->
  forall d, Dict.get (fold_left apply_rule rules d) k = Dict.get d k.
Proof.
  induction rules as [| r rules IH]; intros Hnot d; cbn [fold_left]; [reflexivity |].
  cbn [List.map In] in Hnot.
  rewrite IH by tauto. apply apply_rule_other. tauto.
Qed.

Lemma rules_none (rules : list (string * (pyval -> result pyval)))
    (k : string) (f : pyval -> result pyval) (v : pyval) :
  List.NoDup (List.map fst rules) -> In (k, f) rules -> f v = Ok VNone ->
  forall d, Dict.get d k = Some v ->
            Dict.get (fold_left apply_rule rules d) k = Some v.
Proof.
  intros Hnodup Hin Hf.
  induction rules as [| r rules IH]; [contradiction |].
  intros d Hget. cbn [fold_left].
  cbn [List.map] in Hnodup. apply List.NoDup_cons_iff in Hnodup as [Hfresh Hnodup].
  destruct Hin as [-> | Hin].
  - rewrite (apply_rule_none d k f v Hget Hf).
    rewrite rules_other by exact Hfresh. exact Hget.
  - apply (IH Hnodup Hin).
    rewrite apply_rule_other; [exact Hget |].
    intros Heq. apply Hfresh. rewrite Heq.
    change k with (fst (k, f)). apply List.in_map, Hin.
Qed.

Lemma cleaning_rules_distinct : List.NoDup (List.map fst cleaning_rules).
Proof.
  apply NoDup_ListNoDup.
  apply (bool_decide_unpack _). vm_compute. exact I.
Qed.

(** The loop of [clean_stock_data] writes to the copy only. *)
Lemma loop_on_copy (rules : list (string * (pyval -> result pyval))) (c : loc) :
  forall (h : gmap loc Dict.t) (d : Dict.t),
    h !! c = Some d ->
    let h' := fold_left (fun h' rule => alter (fun x => apply_rule x rule) c h') rules h in
    h' !! c = Some (fold_left apply_rule rules d)
    /\ forall l, l <> c -> h' !! l = h !! l.
Proof.
  induction rules as [| r rules IH]; intros h d Hc; cbn [fold_left].
  - split; [exact Hc | reflexivity].
  - destruct (IH (alter (fun x => apply_rule x r) c h) (apply_rule d r)) as [Hcopy Hrest].
    { rewrite lookup_alter_eq, Hc. reflexivity. }
    split; [exact Hcopy |].
    intros l Hl. rewrite (Hrest l Hl). apply lookup_alter_ne. congruence.
Qed.

(** C10.  [clean_stock_data] returns a new record: the keys of the
    result are the keys of the input, in the same order; a key without
    a rule keeps its value; a key with a rule whose cleaner returns
    [None] keeps its raw value; and every record that existed before
    the call, the input among them, is left as it was. *)
Theorem clean_stock_data_frame (h : gmap loc Dict.t) (stock_data : loc) (d : Dict.t) :
  h !! stock_data = Some d ->
  exists (cleaned_data : loc) (h' : gmap loc Dict.t) (d' : Dict.t),
    clean_stock_data stock_data h = Some (cleaned_data, h')
    /\ h' !! cleaned_data = Some d'
    /\ Dict.keys d' = Dict.keys d
    /\ (forall k, ~ ruled k -> Dict.get d' k = Dict.get d k)
    /\ (forall k f v, In (k, f) cleaning_rules -> Dict.get d k = Some v ->
                      f v = Ok VNone -> Dict.get d' k = Some v)
    /\ cleaned_data <> stock_data
    /\ h' !! stock_data = Some d
    /\ (forall l, l ∈ dom h -> h' !! l = h !! l).
Proof.
  intros Hd. unfold clean_stock_data. rewrite Hd.
  set (c := fresh (dom h)).
  assert (Hfresh : c ∉ dom h) by apply is_fresh.
  assert (Hne : c <> stock_data).
  { intros ->. apply Hfresh. eapply elem_of_dom_2, Hd. }
  destruct (loop_on_copy cleaning_rules c (<[c := d]> h) d) as [Hcopy Hrest].
  { apply lookup_insert_eq. }
  eexists c, _, _. split; [reflexivity |]. split; [exact Hcopy |].
  split; [apply rules_keys |].
  split; [intros k Hk; apply rules_other, Hk |].
  split.
  { intros k f v Hin Hget Hf.
    apply (rules_none cleaning_rules k f v cleaning_rules_distinct Hin Hf d Hget). }
  split; [exact Hne |].
  split.
  { rewrite Hrest by congruence. rewrite lookup_insert_ne by exact Hne. exact Hd. }
  intros l Hl. assert (l <> c) by (intros ->; contradiction).
  rewrite Hrest by assumption. apply lookup_insert_ne. congruence.
Qed.

Lemma clean_stock_data_frame_witness :
  let d := [("Código", VStr "TEST4"); ("Indicador - Preço/Lucro", VStr "8,50");
            ("Indicador - Dividend Yield", VStr "abc")] in
  exists cleaned_data h' d',
    clean_stock_data 0%nat {[ 0%nat := d ]} = Some (cleaned_data, h')
    /\ h' !! cleaned_data = Some d'
    /\ Dict.keys d' = ["Código"; "Indicador - Preço/Lucro"; "Indicador - Dividend Yield"]
    /\ h' !! 0%nat = Some d.
Proof.
  intros d.
  destruct (clean_stock_data_frame {[ 0%nat := d ]} 0%nat d)
    as (c & h' & d' & Hrun & Hcopy & Hkeys & _ & _ & _ & Hinput & _).
  - vm_compute. reflexivity.
  - exists c, h', d'. split; [exact Hrun | split; [exact Hcopy | split; [exact Hkeys | exact Hinput]]].
Defined.

End Frame.

(** ** Currency text: a marker, numeric text, a scale token *)

Section MarkedText.

Import DataCleaner Stated.

Lemma numeric_char_cases (c : ascii) :
  Re.num_dot_comma c = true -> In c numeric_chars.
Proof.
  destruct c as [[] [] [] [] [] [] [] []]; vm_compute; intros H;
    first [discriminate H | tauto].
Qed.

(** A property of the twelve numeric characters holds of every numeric
    character. *)
Lemma numeric_char_all (Q : ascii -> Prop) :
  Forall Q numeric_chars -> forall c, Re.num_dot_comma c = true -> Q c.
Proof.
  intros HQ c Hc. rewrite Forall_forall in HQ.
  apply HQ, list_elem_of_In, numeric_char_cases, Hc.
Qed.

Lemma numeric_cons (c : ascii) (t : string) :
  numeric (String c t) <-> Re.num_dot_comma c = true /\ numeric t.
Proof. unfold numeric. cbn [Str.all]. apply andb_true_iff. Qed.

Lemma append_cons (c : ascii) (a b : string) : String c a +:+ b = String c (a +:+ b).
Proof. reflexivity. Qed.

Lemma append_nil_l (b : string) : "" +:+ b = b.
Proof. reflexivity. Qed.

Lemma append_nil_r (s : string) : s +:+ "" = s.
Proof.
  induction s as [| c s IH]; [reflexivity |].
  rewrite append_cons, IH. reflexivity.
Qed.

Lemma append_assoc (a b c : string) : (a +:+ b) +:+ c = a +:+ (b +:+ c).
Proof.
  induction a as [| x a IH]; [reflexivity |].
  rewrite !append_cons, IH. reflexivity.
Qed.

Lemma foreign_cons (a : ascii) (p : string) :
  foreign (String a p) = true ->
  Re.num_dot_comma a = false /\ Str.any Re.num_dot_comma p = false.
Proof.
  unfold foreign. cbn [String.eqb Str.any negb andb].
  destruct (Re.num_dot_comma a); cbn; [discriminate |].
  destruct (Str.any _ p); [discriminate | tauto].
Qed.

Lemma foreign_cons_any (p : string) :
  foreign p = true -> Str.any Re.num_dot_comma p = false.
Proof.
  unfold foreign. destruct (Str.any _ p); [| reflexivity].
  rewrite andb_false_r. discriminate.
Qed.

Lemma eqb_foreign_numeric (a c : ascii) :
  Re.num_dot_comma a = false -> Re.num_dot_comma c = true -> Ascii.eqb a c = false.
Proof.
  intros Ha Hc. destruct (Ascii.eqb_spec a c) as [-> |]; [congruence | reflexivity].
Qed.

(** Whether a foreign pattern starts a text does not depend on what
    follows once numeric text begins. *)
Lemma startswith_before_numeric (old : string) :
  Str.any Re.num_dot_comma old = false ->
  forall (p x : string),
    numeric_head x = true ->
    Str.startswith old (p +:+ x) = Str.startswith old p.
Proof.
  induction old as [| a old IH]; intros Hold p x Hx; [destruct p; reflexivity |].
  cbn [Str.any] in Hold. apply orb_false_iff in Hold as [Ha Hold].
  destruct p as [| b p]; rewrite ?append_cons, ?append_nil_l; cbn [Str.startswith].
  - destruct x as [| c x]; [reflexivity |]. cbn [Str.startswith].
    rewrite (eqb_foreign_numeric a c Ha Hx). reflexivity.
  - rewrite (IH Hold p x Hx). reflexivity.
Qed.

Lemma startswith_length (old p : string) :
  Str.startswith old p = true -> (Str.len old <= Str.len p)%nat.
Proof.
  revert p. induction old as [| a old IH]; intros p; cbn; [lia |].
  destruct p as [| b p]; [discriminate |].
  intros H. apply andb_true_iff in H as [_ H]. apply IH in H. cbn. unfold Str.len in *. lia.
Qed.

(** *** Replacement *)

Lemma startswith_at_numeric (old : string) (c : ascii) (x : string) :
  foreign old = true -> Re.num_dot_comma c = true ->
  Str.startswith old (String c x) = false.
Proof.
  destruct old as [| a old]; [discriminate |]. intros Hf Hc.
  apply foreign_cons in Hf as [Ha _]. cbn [Str.startswith].
  rewrite (eqb_foreign_numeric a c Ha Hc). reflexivity.
Qed.

(** Numeric text passes through the replacement of a foreign pattern. *)
Lemma replace_numeric (old new : string) (t rest : string) :
  foreign old = true -> numeric t ->
  Str.replace_from old new 0 (t +:+ rest) = t +:+ Str.replace_from old new 0 rest.
Proof.
  intros Hold. induction t as [| c t IH]; intros Ht; [reflexivity |].
  apply numeric_cons in Ht as [Hc Htl].
  rewrite !append_cons. cbn [Str.replace_from].
  rewrite (startswith_at_numeric old c _ Hold Hc), (IH Htl). reflexivity.
Qed.

(** An occurrence of a foreign pattern ends before numeric text begins,
    so the replacement works on the two sides separately. *)
Lemma replace_before_numeric (old new : string) (x : string) :
  foreign old = true -> numeric_head x = true ->
  forall (p : string) (k : nat),
    (k <= Str.len p)%nat ->
    Str.replace_from old new k (p +:+ x)
    = Str.replace_from old new k p +:+ Str.replace_from old new 0 x.
Proof.
  intros Hold Hx. induction p as [| b p IH]; intros k Hk.
  - cbn in Hk. replace k with 0%nat by lia. destruct x; reflexivity.
  - rewrite append_cons. cbn [Str.replace_from].
    destruct k as [| k].
    + rewrite <- append_cons.
      rewrite (startswith_before_numeric old (foreign_cons_any old Hold) (String b p) x Hx).
      destruct (Str.startswith old (String b p)) eqn:Hs.
      * apply startswith_length in Hs. cbn in Hs.
        rewrite IH by (unfold Str.len in *; lia).
        rewrite append_assoc. reflexivity.
      * rewrite (IH 0%nat) by lia. reflexivity.
    + apply IH. cbn in Hk. unfold Str.len in *. lia.
Qed.

(** *** Search *)

Lemma contains_numeric (p : string) (t rest : string) :
  foreign p = true -> numeric t ->
  Str.contains p (t +:+ rest) = Str.contains p rest.
Proof.
  intros Hp. induction t as [| c t IH]; intros Ht; [reflexivity |].
  apply numeric_cons in Ht as [Hc Htl].
  rewrite append_cons. cbn [Str.contains].
  rewrite (startswith_at_numeric p c _ Hp Hc), (IH Htl). reflexivity.
Qed.

Lemma contains_before_numeric (q : string) (x : string) :
  foreign q = true -> numeric_head x = true ->
  forall p : string,
    Str.contains q (p +:+ x) = Str.contains q p || Str.contains q x.
Proof.
  intros Hq Hx. induction p as [| b p IH].
  - rewrite append_nil_l. destruct q; [discriminate | reflexivity].
  - rewrite append_cons. cbn [Str.contains]. rewrite <- append_cons.
    rewrite (startswith_before_numeric q (foreign_cons_any q Hq) (String b p) x Hx).
    rewrite IH, orb_assoc. reflexivity.
Qed.

(** *** Stripping and letter case *)

Lemma rstrip_app (f : ascii -> bool) (a b : string) :
  Str.rstrip_by f b <> "" ->
  Str.rstrip_by f (a +:+ b) = a +:+ Str.rstrip_by f b.
Proof.
  intros Hb. induction a as [| c a IH]; [reflexivity |].
  rewrite !append_cons. cbn [Str.rstrip_by]. rewrite IH.
  destruct (a +:+ Str.rstrip_by f b) eqn:E; [| reflexivity].
  destruct a; [rewrite append_nil_l in E; contradiction | discriminate E].
Qed.

Lemma numeric_not_space (c : ascii) : Re.num_dot_comma c = true -> Char.is_space c = false.
Proof.
  revert c. apply (numeric_char_all (fun c => Char.is_space c = false)).
  repeat constructor.
Qed.

Lemma numeric_upper (c : ascii) : Re.num_dot_comma c = true -> Char.upper c = c.
Proof.
  revert c. apply (numeric_char_all (fun c => Char.upper c = c)).
  repeat constructor.
Qed.

Lemma rstrip_numeric (t : string) : numeric t -> Str.rstrip_by Char.is_space t = t.
Proof.
  induction t as [| c t IH]; intros Ht; [reflexivity |].
  apply numeric_cons in Ht as [Hc Htl]. cbn [Str.rstrip_by].
  rewrite (IH Htl), (numeric_not_space c Hc). destruct t; reflexivity.
Qed.

Lemma strip_numeric (t : string) : numeric t -> Str.strip t = t.
Proof.
  intros Ht. unfold Str.strip, Str.lstrip_by.
  replace (Str.drop_while Char.is_space t) with t; [apply rstrip_numeric, Ht |].
  destruct t as [| c t]; [reflexivity |].
  apply numeric_cons in Ht as [Hc _]. cbn [Str.drop_while].
  rewrite (numeric_not_space c Hc). reflexivity.
Qed.

Lemma map_app (f : ascii -> ascii) (a b : string) :
  Str.map f (a +:+ b) = Str.map f a +:+ Str.map f b.
Proof.
  induction a as [| c a IH]; [reflexivity |].
  rewrite append_cons. cbn [Str.map]. rewrite IH. reflexivity.
Qed.

Lemma upper_numeric (t : string) : numeric t -> Str.upper t = t.
Proof.
  unfold Str.upper. induction t as [| c t IH]; intros Ht; [reflexivity |].
  apply numeric_cons in Ht as [Hc Htl]. cbn [Str.map].
  rewrite (numeric_upper c Hc), (IH Htl). reflexivity.
Qed.

(** *** The stages of the currency cleaners on marked text *)

Lemma numeric_nonempty_head (t : string) :
  numeric t -> t <> "" -> forall rest, numeric_head (t +:+ rest) = true.
Proof.
  destruct t as [| c t]; [contradiction |].
  intros Ht _ rest. apply numeric_cons in Ht as [Hc _]. exact Hc.
Qed.

Lemma lstrip_head (f : ascii -> bool) (s : string) :
  Re.starts_with_class f s = false -> Str.lstrip_by f s = s.
Proof.
  destruct s as [| c s]; [reflexivity |]. cbn. intros ->. reflexivity.
Qed.

Lemma rstrip_app_empty (f : ascii -> bool) (a b : string) :
  Str.rstrip_by f b = "" -> Str.rstrip_by f (a +:+ b) = Str.rstrip_by f a.
Proof.
  intros Hb. induction a as [| c a IH]; [exact Hb |].
  rewrite append_cons. cbn [Str.rstrip_by]. rewrite IH. reflexivity.
Qed.

(** Stripping text that starts with a non-blank and ends with numeric
    text followed by [rest]. *)
Lemma strip_marked (p t rest : string) :
  numeric t -> t <> "" ->
  Re.starts_with_class Char.is_space (p +:+ t +:+ rest) = false ->
  Str.strip (p +:+ t +:+ rest) = p +:+ t +:+ Str.rstrip_by Char.is_space rest.
Proof.
  intros Ht Hne Hhead. unfold Str.strip. rewrite (lstrip_head _ _ Hhead).
  assert (Hmid : Str.rstrip_by Char.is_space (t +:+ rest)
                 = t +:+ Str.rstrip_by Char.is_space rest).
  { destruct (Str.rstrip_by Char.is_space rest) eqn:Hr.
    - rewrite (rstrip_app_empty _ t rest Hr), (rstrip_numeric t Ht), append_nil_r.
      reflexivity.
    - rewrite rstrip_app by (rewrite Hr; discriminate). rewrite Hr. reflexivity. }
  rewrite rstrip_app; rewrite Hmid; [reflexivity |].
  destruct t; [contradiction | discriminate].
Qed.

Lemma replace_marked (old new : string) (p t rest : string) :
  foreign old = true -> numeric t -> t <> "" ->
  Str.replace old new (p +:+ t +:+ rest)
  = Str.replace old new p +:+ t +:+ Str.replace old new rest.
Proof.
  intros Hold Ht Hne. unfold Str.replace.
  rewrite (replace_before_numeric old new (t +:+ rest) Hold
             (numeric_nonempty_head t Ht Hne rest) p 0%nat) by lia.
  rewrite (replace_numeric old new t rest Hold Ht). reflexivity.
Qed.

Lemma unmark_marked (p t rest : string) :
  numeric t -> t <> "" ->
  unmark (p +:+ t +:+ rest) = unmark p +:+ t +:+ unmark rest.
Proof.
  intros Ht Hne. unfold unmark.
  rewrite (replace_marked "R$" "" p t rest eq_refl Ht Hne).
  rewrite (replace_marked "R " "" _ t _ eq_refl Ht Hne).
  rewrite (replace_marked "-" "" _ t _ eq_refl Ht Hne).
  rewrite (replace_marked " " "" _ t _ eq_refl Ht Hne).
  reflexivity.
Qed.

Lemma contains_marked (q : string) (p t rest : string) :
  foreign q = true -> numeric t -> t <> "" ->
  Str.contains q (p +:+ t +:+ rest) = Str.contains q p || Str.contains q rest.
Proof.
  intros Hq Ht Hne.
  rewrite (contains_before_numeric q (t +:+ rest) Hq
             (numeric_nonempty_head t Ht Hne rest) p).
  rewrite (contains_numeric q t rest Hq Ht). reflexivity.
Qed.

Lemma detect_negative_marked (p t rest : string) :
  numeric t -> t <> "" ->
  detect_negative (p +:+ t +:+ rest)
  = Str.startswith "-" p || Str.startswith "- " p
    || (Str.contains "R$ -" p || Str.contains "R$ -" rest)
    || (Str.contains "R$-" p || Str.contains "R$-" rest).
Proof.
  intros Ht Hne. unfold detect_negative.
  pose proof (numeric_nonempty_head t Ht Hne rest) as Hhead.
  rewrite (startswith_before_numeric "-" eq_refl p _ Hhead).
  rewrite (startswith_before_numeric "- " eq_refl p _ Hhead).
  rewrite (contains_marked "R$ -" p t rest eq_refl Ht Hne).
  rewrite (contains_marked "R$-" p t rest eq_refl Ht Hne).
  reflexivity.
Qed.

(** The body of the currency cleaner on a marker followed by numeric
    text. *)
Lemma currency_body_marked (p t : string) :
  numeric t -> t <> "" ->
  Re.starts_with_class Char.is_space (p +:+ t +:+ "") = false ->
  unmark p = "" ->
  clean_currency_body (VStr (p +:+ t))
  = currency_of_text (detect_negative p) t.
Proof.
  intros Ht Hne Hhead Hp. unfold clean_currency_body. cbn [Py.str].
  rewrite <- (append_nil_r t) at 1 2.
  rewrite (strip_marked p t "" Ht Hne Hhead).
  change (Str.rstrip_by Char.is_space "") with "".
  rewrite (detect_negative_marked p t "" Ht Hne).
  unfold strip_marker. rewrite (unmark_marked p t "" Ht Hne), Hp.
  change (unmark "") with "". rewrite append_nil_l, append_nil_r.
  rewrite (strip_numeric t Ht).
  f_equal. unfold detect_negative.
  change (Str.contains "R$ -" "") with false.
  change (Str.contains "R$-" "") with false.
  rewrite !orb_false_r. reflexivity.
Qed.

(** The three ways of writing the marker leave the numeric text and
    decide the sign. *)
Lemma currency_marked (p : string) (t : string) :
  In p ["- R$ "; "R$ -"; "R$ "] -> numeric t -> t <> "" ->
  clean_currency_to_float (VStr (p +:+ t))
  = try_except (currency_of_text (detect_negative p) t) (fun _ => mret VNone).
Proof.
  intros Hp Ht Hne. unfold clean_currency_to_float.
  cbn [In] in Hp. destruct Hp as [<- | [<- | [<- | []]]].
  - change (is_missing (VStr ("- R$ " +:+ t))) with false. cbv iota.
    rewrite currency_body_marked by (assumption || reflexivity). reflexivity.
  - change (is_missing (VStr ("R$ -" +:+ t))) with false. cbv iota.
    rewrite currency_body_marked by (assumption || reflexivity). reflexivity.
  - change (is_missing (VStr ("R$ " +:+ t))) with false. cbv iota.
    rewrite currency_body_marked by (assumption || reflexivity). reflexivity.
Qed.

(** C7.  For numeric text [t], a minus before the marker and a minus
    between the marker and the digits give the same result, which is
    the result for the unsigned text with the opposite sign; in
    particular ["- R$ 0,18"] and ["R$ -0,18"] both give [-0.18]. *)
Theorem currency_sign_independent_of_marker :
  (forall t : string,
     numeric t ->
     clean_currency_to_float (VStr ("- R$ " +:+ t))
     = clean_currency_to_float (VStr ("R$ -" +:+ t))
     /\ clean_currency_to_float (VStr ("- R$ " +:+ t))
        = negated (clean_currency_to_float (VStr ("R$ " +:+ t))))
  /\ clean_currency_to_float (VStr "- R$ 0,18") = Ok (VFloat (f64 "-0.18"))
  /\ clean_currency_to_float (VStr "R$ -0,18") = Ok (VFloat (f64 "-0.18")).
Proof.
  split; [| split; vm_compute; reflexivity].
  intros t Ht.
  destruct (String.eqb_spec t "") as [-> | Hne]; [split; vm_compute; reflexivity |].
  rewrite !currency_marked by (assumption || (cbn [In]; tauto)).
  change (detect_negative "- R$ ") with true.
  change (detect_negative "R$ -") with true.
  change (detect_negative "R$ ") with false.
  split; [reflexivity |].
  unfold currency_of_text.
  destruct (Re.search_run Re.num_dot (currency_separators t)) as [g |]; [| reflexivity].
  destruct (Py.float g) as [x | e]; reflexivity.
Qed.

Lemma currency_sign_independent_of_marker_witness :
  clean_currency_to_float (VStr "- R$ 1.234,56")
  = clean_currency_to_float (VStr "R$ -1.234,56").
Proof.
  apply (proj1 currency_sign_independent_of_marker "1.234,56"). reflexivity.
Defined.

(** *** Scale tokens *)

Lemma numeric_head_not_space (t rest : string) :
  numeric t -> t <> "" -> Re.starts_with_class Char.is_space (t +:+ rest) = false.
Proof.
  destruct t as [| c t]; [contradiction |]. intros Ht _.
  apply numeric_cons in Ht as [Hc _]. apply numeric_not_space, Hc.
Qed.

(** The body of the scaled-currency cleaner on a marker, numeric text
    and a suffix: the text reaching the scale detection is the numeric
    text followed by what is left of the suffix, in capitals. *)
Lemma scaled_body_marked (p t rest left : string) (is_negative : bool) :
  numeric t -> t <> "" ->
  Re.starts_with_class Char.is_space (p +:+ t +:+ rest) = false ->
  Str.rstrip_by Char.is_space rest = rest ->
  unmark p = "" ->
  Str.rstrip_by Char.is_space (unmark rest) = left ->
  Str.startswith "-" p || Str.startswith "- " p
  || (Str.contains "R$ -" p || Str.contains "R$ -" rest)
  || (Str.contains "R$-" p || Str.contains "R$-" rest) = is_negative ->
  clean_currency_with_scale_body (VStr (p +:+ t +:+ rest))
  = scaled_of_text is_negative (t +:+ Str.upper left).
Proof.
  intros Ht Hne Hhead Hrest Hp Hleft Hneg.
  unfold clean_currency_with_scale_body. cbn [Py.str].
  rewrite (strip_marked p t rest Ht Hne Hhead), Hrest.
  rewrite (detect_negative_marked p t rest Ht Hne), Hneg.
  unfold strip_marker. rewrite (unmark_marked p t rest Ht Hne), Hp.
  rewrite (strip_marked "" t (unmark rest) Ht Hne (numeric_head_not_space t _ Ht Hne)).
  rewrite Hleft, append_nil_l.
  unfold Str.upper. rewrite map_app. fold (Str.upper t). rewrite (upper_numeric t Ht).
  reflexivity.
Qed.

(** The scale detection on numeric text followed by a token. *)
Lemma detect_scale_token (t token : string) (f : Z) :
  In (token, f) [("B", 1000000000); ("MIL", 1000); ("M", 1000000); ("K", 1000)] ->
  numeric t -> detect_scale (t +:+ token) = (f, t).
Proof.
  intros Hin Ht. unfold detect_scale.
  rewrite !(contains_numeric _ t token) by (reflexivity || exact Ht).
  cbn [In] in Hin.
  destruct Hin as [[= <- <-] | [[= <- <-] | [[= <- <-] | [[= <- <-] | []]]]];
    match goal with
    | |- context [Str.replace ?old "" (t +:+ ?old)] =>
        replace (Str.replace old "" (t +:+ old)) with t
          by (unfold Str.replace; rewrite (replace_numeric old "" t old eq_refl Ht);
              symmetry; apply append_nil_r)
    end;
    rewrite (strip_numeric t Ht); reflexivity.
Qed.

Lemma scaled_of_text_token (is_negative : bool) (t token : string) (f : Z)
    (number : spec_float) :
  In (token, f) [("B", 1000000000); ("MIL", 1000); ("M", 1000000); ("K", 1000)] ->
  numeric t -> parsed_number t = Some number ->
  scaled_of_text is_negative (t +:+ token)
  = Ok (VFloat (apply_sign is_negative
                  (Float.round2 (Float.mul number (Float.of_Z f))))).
Proof.
  intros Hin Ht Hnum. unfold scaled_of_text.
  rewrite (detect_scale_token t token f Hin Ht).
  unfold parsed_number in Hnum.
  destruct (Re.search_run Re.num_dot (brazilian_number t)) as [g |]; [| discriminate].
  unfold Py.float. rewrite Hnum. reflexivity.
Qed.

Lemma upper_char_cases (c x : ascii) :
  Char.upper c = x -> c = x \/ c = Char.lower x.
Proof.
  intros <-.
  destruct c as [[] [] [] [] [] [] [] []]; vm_compute; tauto.
Qed.

(** The tokens that the cleaner accepts are the four tokens in any
    letter case. *)
Lemma token_factor_cases (tok : string) (f : Z) :
  token_factor tok = Some f -> In (tok, f) scale_tokens.
Proof.
  unfold token_factor.
  destruct tok as [| c1 [| c2 [| c3 [| c4 tok]]]]; cbn [Str.upper Str.map String.eqb];
    try discriminate.
  - destruct (Ascii.eqb_spec (Char.upper c1) "B") as [H1 |]; cbv iota;
      [| destruct (Ascii.eqb_spec (Char.upper c1) "M") as [H1 |]; cbv iota;
         [| destruct (Ascii.eqb_spec (Char.upper c1) "K") as [H1 |]; cbv iota;
            [| discriminate]]];
      intros [= <-];
      destruct (upper_char_cases c1 _ H1) as [-> | ->]; vm_compute; tauto.
  - destruct (Ascii.eqb (Char.upper c1) "B"), (Ascii.eqb (Char.upper c1) "M"),
      (Ascii.eqb (Char.upper c1) "K"), (Ascii.eqb (Char.upper c2) "I");
      cbv iota; discriminate.
  - destruct (Ascii.eqb_spec (Char.upper c1) "M") as [H1 |]; cbv iota;
      [| destruct (Ascii.eqb (Char.upper c1) "B"), (Ascii.eqb (Char.upper c1) "K");
         cbv iota; discriminate].
    destruct (Ascii.eqb_spec (Char.upper c2) "I") as [H2 |]; cbv iota;
      [| destruct (Ascii.eqb (Char.upper c1) "B"), (Ascii.eqb (Char.upper c1) "K");
         cbv iota; discriminate].
    destruct (Ascii.eqb_spec (Char.upper c3) "L") as [H3 |]; cbv iota;
      [| destruct (Ascii.eqb (Char.upper c1) "B"), (Ascii.eqb (Char.upper c1) "K");
         cbv iota; discriminate].
    destruct (Ascii.eqb (Char.upper c1) "B"); cbv iota; intros [= <-];
    destruct (upper_char_cases c1 _ H1) as [-> | ->],
             (upper_char_cases c2 _ H2) as [-> | ->],
             (upper_char_cases c3 _ H3) as [-> | ->]; vm_compute; tauto.
  - destruct (Ascii.eqb (Char.upper c1) "B"), (Ascii.eqb (Char.upper c1) "M"),
      (Ascii.eqb (Char.upper c1) "K"), (Ascii.eqb (Char.upper c2) "I"),
      (Ascii.eqb (Char.upper c3) "L"); cbv iota; discriminate.
Qed.

(** A marker, numeric text, a blank and a suffix that leaves a scale
    token [token] once blanks are removed and letters are capitals. *)
Lemma scaled_marked (p t rest left : string) (is_negative : bool) (f : Z)
    (number : spec_float) :
  numeric t -> parsed_number t = Some number ->
  is_missing (VStr (p +:+ t +:+ rest)) = false ->
  Re.starts_with_class Char.is_space (p +:+ t +:+ rest) = false ->
  Str.rstrip_by Char.is_space rest = rest ->
  unmark p = "" ->
  Str.rstrip_by Char.is_space (unmark rest) = left ->
  Str.startswith "-" p || Str.startswith "- " p
  || (Str.contains "R$ -" p || Str.contains "R$ -" rest)
  || (Str.contains "R$-" p || Str.contains "R$-" rest) = is_negative ->
  In (Str.upper left, f) [("B", 1000000000); ("MIL", 1000); ("M", 1000000); ("K", 1000)] ->
  clean_currency_with_scale_to_float (VStr (p +:+ t +:+ rest))
  = Ok (VFloat (apply_sign is_negative
                  (Float.round2 (Float.mul number (Float.of_Z f))))).
Proof.
  intros Ht Hnum Hmiss Hhead Hrest Hp Hleft Hneg Hin.
  assert (Hne : t <> "") by (intros ->; discriminate Hnum).
  unfold clean_currency_with_scale_to_float. rewrite Hmiss.
  rewrite (scaled_body_marked p t rest left is_negative Ht Hne Hhead Hrest Hp Hleft Hneg).
  rewrite (scaled_of_text_token is_negative t _ f number Hin Ht Hnum).
  reflexivity.
Qed.

(** C2.  For numeric text [t] that reads as [number] and a scale token
    [tok] in any letter case, the cleaner returns [number] times the
    factor of the token (B: 10^9, MIL: 10^3, M: 10^6, K: 10^3), rounded
    to two decimals, with the sign of the marker; the tokens are looked
    for in the order B, MIL, M, K.  In particular ["R$ 1,5 M"] gives
    1500000.0, ["- R$ 7,15 B"] gives -7150000000.0 and
    ["R$ 250,30 mil"] gives 250300.0. *)
Theorem scale_token_decoding :
  (forall (is_negative : bool) (t tok : string) (f : Z) (number : spec_float),
     numeric t -> token_factor tok = Some f -> parsed_number t = Some number ->
     clean_currency_with_scale_to_float (VStr (marker is_negative +:+ t +:+ " " +:+ tok))
     = Ok (VFloat (apply_sign is_negative
                     (Float.round2 (Float.mul number (Float.of_Z f))))))
  /\ (forall clean_val : string,
        fst (detect_scale clean_val)
        = if Str.contains "B" clean_val then 1000000000
          else if Str.contains "MIL" clean_val then 1000
          else if Str.contains "M" clean_val then 1000000
          else if Str.contains "K" clean_val then 1000
          else 1)
  /\ clean_currency_with_scale_to_float (VStr "R$ 1,5 M")
     = Ok (VFloat (f64 "1500000.00"))
  /\ clean_currency_with_scale_to_float (VStr "- R$ 7,15 B")
     = Ok (VFloat (f64 "-7150000000.00"))
  /\ clean_currency_with_scale_to_float (VStr "R$ 250,30 mil")
     = Ok (VFloat (f64 "250300.00")).
Proof.
  split; [| split; [| repeat split; vm_compute; reflexivity]].
  2: { intros clean_val. unfold detect_scale.
       destruct (Str.contains "B" clean_val), (Str.contains "MIL" clean_val),
         (Str.contains "M" clean_val), (Str.contains "K" clean_val); reflexivity. }
  intros is_negative t tok f number Ht Htok Hnum.
  apply token_factor_cases in Htok. unfold scale_tokens in Htok. cbn [In] in Htok.
  repeat match type of Htok with
         | _ \/ _ => destruct Htok as [Htok | Htok]
         end;
    try contradiction;
    injection Htok as <- <-;
    destruct is_negative;
    match goal with
    | |- context [?p +:+ t +:+ " " +:+ ?tok] =>
        apply (scaled_marked p t (" " +:+ tok) tok _ _ number Ht Hnum);
          first [reflexivity | vm_compute; tauto]
    end.
Qed.

Lemma scale_token_decoding_witness :
  clean_currency_with_scale_to_float (VStr "- R$ 2,1 Mil")
  = Ok (VFloat (f64 "-2100.00")).
Proof.
  apply (proj1 scale_token_decoding true "2,1" "Mil" 1000 (f64 "2.1"));
    vm_compute; reflexivity.
Defined.

End MarkedText.

(** ** The keys of a record *)

Section RecordKeys.

Import Scraping Written.

Lemma keys_set (d : Dict.t) (k' : string) (v : pyval) (k : string) :
  In k (Dict.keys (Dict.set d k' v)) <-> In k (Dict.keys d) \/ k = k'.
Proof.
  induction d as [| [k0 v0] d IH]; cbn [Dict.set Dict.keys List.map fst In].
  - intuition congruence.
  - destruct (String.eqb_spec k0 k') as [-> |]; cbn [Dict.keys List.map fst In].
    + intuition congruence.
    + unfold Dict.keys in IH. rewrite IH. tauto.
Qed.

Lemma get_in_keys (d : Dict.t) (k : string) :
  In k (Dict.keys d) <-> exists v, Dict.get d k = Some v.
Proof.
  induction d as [| [k0 v0] d IH]; cbn [Dict.get Dict.keys List.map fst In].
  - split; [tauto | intros (v & Hv); discriminate].
  - destruct (String.eqb_spec k0 k) as [-> |].
    + split; [eauto | tauto].
    + unfold Dict.keys in IH. rewrite <- IH. tauto.
Qed.

Lemma mem_in_keys (d : Dict.t) (k : string) :
  Dict.mem k d = true <-> In k (Dict.keys d).
Proof.
  rewrite get_in_keys. unfold Dict.mem.
  destruct (Dict.get d k); split; try discriminate; eauto.
  intros (v & Hv). discriminate.
Qed.

Lemma keys_extract_row (sec : Page.section_id) (d : Dict.t) (r : Page.row) (k : string) :
  In k (Dict.keys (Page.extract_row sec d r))
  <-> In k (Dict.keys d) \/ row_key sec r = Some k.
Proof.
  unfold Page.extract_row, row_key.
  destruct r as [| c1 [| c2 [| c3 r]]]; try (intuition congruence).
  rewrite keys_set. intuition congruence.
Qed.

Lemma keys_extract_rows (sec : Page.section_id) (rows : list Page.row) (k : string) :
  forall d,
    In k (Dict.keys (fold_left (Page.extract_row sec) rows d))
    <-> In k (Dict.keys d) \/ In k (omap (row_key sec) rows).
Proof.
  induction rows as [| r rows IH]; intros d; cbn [fold_left omap list_omap].
  - cbn. tauto.
  - rewrite IH, keys_extract_row.
    destruct (row_key sec r) as [k1 |]; cbn [In]; intuition congruence.
Qed.

Lemma keys_extract_section (soup : Page.document) (d : Dict.t) (sec : Page.section_id)
    (k : string) :
  In k (Dict.keys (Page.extract_section soup d sec))
  <-> In k (Dict.keys d) \/ In k (section_keys soup sec).
Proof.
  unfold Page.extract_section, section_keys.
  destruct (soup sec) as [rows |]; [apply keys_extract_rows | cbn; tauto].
Qed.

(** After the extraction a record has the keys it had and the keys
    written for the page, and no other. *)
Lemma keys_extract (soup : Page.document) (d : Dict.t) (k : string) :
  In k (Dict.keys (Page.extract soup d))
  <-> In k (Dict.keys d) \/ In k (written_keys soup).
Proof.
  unfold Page.extract, written_keys.
  generalize Page.sections. intros secs. revert d.
  induction secs as [| sec secs IH]; intros d; cbn [fold_left flat_map].
  - cbn. tauto.
  - rewrite IH, keys_extract_section, in_app_iff. tauto.
Qed.

Lemma earnings_yield_truthy (d : Dict.t) :
  Py.truthy (VStr (StocksScraper.calculate_earnings_yield d)) = true.
Proof.
  unfold StocksScraper.calculate_earnings_yield.
  destruct (StocksScraper.find_profit d) as [| | l |]; try reflexivity.
  destruct (StocksScraper.find_price d) as [| | p0 |]; try reflexivity.
  destruct (Float.ltb _ _); [| reflexivity].
  cbn [Py.truthy].
  destruct (Float.format_2f _) as [| c f]; reflexivity.
Qed.

Lemma two_keys_length (d : Dict.t) (k1 k2 : string) :
  k1 <> k2 -> In k1 (Dict.keys d) -> In k2 (Dict.keys d) -> (2 <= Dict.len d)%nat.
Proof.
  intros Hne H1 H2.
  destruct d as [| [a va] [| [b vb] d]]; cbn in *; [tauto | | lia].
  intuition congruence.
Qed.

(** The record of a symbol whose page was fetched: the extracted
    fields, the derived field, then the cleaning.  The test on the
    number of keys never selects the status record. *)
Lemma scrape_fetched (fetch : string -> result Page.document) (code : string)
    (soup : Page.document) :
  fetch code = Ok soup ->
  let stock_data := Page.extract soup [(code_key, VStr code)] in
  scrape_stock_data fetch code
  = StocksScraper.clean_record
      (Dict.set stock_data yield_key
         (VStr (StocksScraper.calculate_earnings_yield stock_data))).
Proof.
  intros Hfetch stock_data. unfold scrape_stock_data. rewrite Hfetch.
  cbn [mbind result_bind]. fold stock_data.
  rewrite earnings_yield_truthy.
  set (cleaned := StocksScraper.clean_record _).
  assert (Hlen : (2 <= Dict.len cleaned)%nat).
  { apply (two_keys_length cleaned code_key yield_key); [discriminate | |];
      unfold cleaned, StocksScraper.clean_record; rewrite rules_keys, keys_set.
    - left. apply keys_extract. left. cbn. tauto.
    - right. reflexivity. }
  destruct (Nat.leb_spec (Dict.len cleaned) 1); [lia | reflexivity].
Qed.

Lemma scrape_failed (fetch : string -> result Page.document) (code : string) (e : exn) :
  fetch code = Raise e ->
  scrape_stock_data fetch code = [(code_key, VStr code); (error_key, VStr (exn_message e))].
Proof. intros Hfetch. unfold scrape_stock_data. rewrite Hfetch. reflexivity. Qed.

(** X1.  The keys of the record of a fetched page are the symbol key,
    the derived yield key and the keys written for the rows of the
    page, and no other: cleaning adds and removes nothing, and no
    status key appears unless the page itself has a row of that name. *)
Theorem fetched_record_keys (fetch : string -> result Page.document) (code : string)
    (soup : Page.document) (k : string) :
  fetch code = Ok soup ->
  In k (Dict.keys (scrape_stock_data fetch code))
  <-> k = code_key \/ k = yield_key \/ In k (written_keys soup).
Proof.
  intros Hfetch. rewrite (scrape_fetched fetch code soup Hfetch).
  unfold StocksScraper.clean_record. rewrite rules_keys, keys_set, keys_extract.
  cbn [Dict.keys List.map fst In]. intuition congruence.
Qed.

Lemma fetched_record_keys_witness :
  In "Setor" (Dict.keys (scrape_stock_data Sample.one_symbol "ITUB4")).
Proof.
  apply (proj2 (fetched_record_keys Sample.one_symbol "ITUB4" Sample.bank_page "Setor"
                  eq_refl)).
  right. right. vm_compute. tauto.
Defined.

End RecordKeys.

(** ** Records, errors and the summary *)

Section Outcome.

Import Scraping Written Driver.

Lemma section_keys_prefixed (soup : Page.document) (sec : Page.section_id) (k : string) :
  In k (section_keys soup sec) -> exists label, k = Page.key_prefix sec +:+ label.
Proof.
  unfold section_keys. destruct (soup sec) as [rows |]; [| contradiction].
  intros Hin. apply list_elem_of_In, list_elem_of_omap in Hin as (r & _ & Hr).
  unfold row_key in Hr. destruct r as [| c1 [| c2 [| c3 r]]]; try discriminate.
  injection Hr as <-. eexists. reflexivity.
Qed.

(** Outside the basic table every key carries the prefix of its
    section, so the reserved keys can only come from the basic table. *)
Lemma reserved_only_basic (soup : Page.document) (k : string) :
  k = error_key \/ k = code_key ->
  In k (written_keys soup) <-> In k (section_keys soup Page.Basic).
Proof.
  intros Hk. unfold written_keys. cbn [flat_map Page.sections].
  rewrite !in_app_iff. split; [| tauto].
  assert (Hno : forall sec, sec <> Page.Basic -> ~ In k (section_keys soup sec)).
  { intros sec Hsec Hin. apply section_keys_prefixed in Hin as (label & Hlabel).
    destruct Hk as [-> | ->]; destruct sec; try congruence;
      vm_compute in Hlabel; discriminate Hlabel. }
  intros H.
  repeat match type of H with
         | _ \/ _ => destruct H as [H | H]
         end;
    try exact H; try contradiction;
    exfalso; (eapply Hno; [| exact H]); discriminate.
Qed.

Lemma get_extract_row_other (sec : Page.section_id) (d : Dict.t) (r : Page.row) (k : string) :
  row_key sec r <> Some k ->
  Dict.get (Page.extract_row sec d r) k = Dict.get d k.
Proof.
  unfold Page.extract_row, row_key.
  destruct r as [| c1 [| c2 [| c3 r]]]; try reflexivity.
  intros Hne. apply get_set_other. congruence.
Qed.

(** A key that no row of the page writes keeps its value through the
    extraction. *)
Lemma get_extract_other (soup : Page.document) (k : string) :
  ~ In k (written_keys soup) ->
  forall d, Dict.get (Page.extract soup d) k = Dict.get d k.
Proof.
  unfold Page.extract, written_keys. generalize Page.sections.
  intros secs. induction secs as [| sec secs IH]; intros Hnot d; [reflexivity |].
  cbn [fold_left flat_map] in *. rewrite in_app_iff in Hnot.
  rewrite IH by tauto.
  assert (Hsec : ~ In k (section_keys soup sec)) by tauto. clear IH Hnot.
  unfold Page.extract_section, section_keys in *.
  destruct (soup sec) as [rows |]; [| reflexivity].
  revert d. induction rows as [| r rows IHr]; intros d; [reflexivity |].
  cbn [fold_left omap list_omap] in *.
  destruct (row_key sec r) as [k1 |] eqn:Hr.
  - cbn [In] in Hsec. rewrite IHr by tauto.
    apply get_extract_row_other. rewrite Hr. intros [= ->]. tauto.
  - rewrite IHr by exact Hsec. apply get_extract_row_other. rewrite Hr. discriminate.
Qed.

Lemma error_key_present (fetch : string -> result Page.document) (code : string) :
  In error_key (Dict.keys (scrape_stock_data fetch code))
  <-> fetch_fails fetch code = true
      \/ exists soup, fetch code = Ok soup /\ In error_key (section_keys soup Page.Basic).
Proof.
  unfold fetch_fails. destruct (fetch code) as [soup | e] eqn:Hfetch.
  - rewrite (scrape_fetched fetch code soup Hfetch). cbv zeta.
    unfold StocksScraper.clean_record. rewrite rules_keys, keys_set, keys_extract.
    rewrite (reserved_only_basic soup error_key) by tauto.
    cbn [Dict.keys List.map fst In]. split.
    + intros [[[H | []] | H] | H]; [discriminate H | | discriminate H].
      right. exists soup. split; [reflexivity | exact H].
    + intros [H | (soup' & [= <-] & H)]; [discriminate H | tauto].
  - rewrite (scrape_failed fetch code e Hfetch). cbn. split; [tauto |].
    intros _. tauto.
Qed.

(** X2.  A record carries the key ["Erro"] exactly when the request for
    the symbol failed or the basic table of its page has a row of that
    name; a failed request gives the symbol and the message, nothing
    else. *)
Theorem error_key_iff_failure (fetch : string -> result Page.document) (code : string) :
  (In error_key (Dict.keys (scrape_stock_data fetch code))
   <-> fetch_fails fetch code = true
       \/ exists soup, fetch code = Ok soup /\ In error_key (section_keys soup Page.Basic))
  /\ (forall e, fetch code = Raise e ->
        scrape_stock_data fetch code
        = [(code_key, VStr code); (error_key, VStr (exn_message e))]).
Proof.
  split; [apply error_key_present | intros e He; apply scrape_failed, He].
Qed.

(** X3.  Every record starts with the key ["Código"]; its value is the
    symbol that was asked for, unless the basic table of the page has a
    row of that name. *)
Theorem symbol_key_kept (fetch : string -> result Page.document) (code : string) :
  (exists rest, Dict.keys (scrape_stock_data fetch code) = code_key :: rest)
  /\ ((forall soup, fetch code = Ok soup -> ~ In code_key (section_keys soup Page.Basic)) ->
      Dict.get (scrape_stock_data fetch code) code_key = Some (VStr code)).
Proof.
  destruct (fetch code) as [soup | e] eqn:Hfetch.
  2: { rewrite (scrape_failed fetch code e Hfetch). split; [eexists |]; reflexivity. }
  rewrite (scrape_fetched fetch code soup Hfetch). cbv zeta.
  unfold StocksScraper.clean_record. split.
  - rewrite rules_keys.
    assert (Hhead : forall d k v k0 v0,
               exists rest, Dict.keys (Dict.set ((k0, v0) :: d) k v) = k0 :: rest).
    { intros d k v k0 v0. cbn [Dict.set]. destruct (String.eqb k0 k); eexists; reflexivity. }
    assert (Hext : exists v0 d, Page.extract soup [(code_key, VStr code)] = (code_key, v0) :: d).
    { unfold Page.extract. generalize Page.sections. intros secs.
      assert (Hgen : forall d0 v0, exists v1 d1,
                 fold_left (Page.extract_section soup) secs ((code_key, v0) :: d0)
                 = (code_key, v1) :: d1).
      { induction secs as [| sec secs IH]; intros d0 v0; [eexists _, _; reflexivity |].
        cbn [fold_left].
        assert (Hsec : exists v1 d1,
                   Page.extract_section soup ((code_key, v0) :: d0) sec
                   = (code_key, v1) :: d1).
        { unfold Page.extract_section. destruct (soup sec) as [rows |];
            [| eexists _, _; reflexivity].
          revert d0 v0. induction rows as [| r rows IHr]; intros d0 v0;
            [eexists _, _; reflexivity |].
          cbn [fold_left]. unfold Page.extract_row at 2.
          destruct r as [| c1 [| c2 [| c3 r]]]; try apply IHr.
          cbn [Dict.set]. destruct (String.eqb code_key _); apply IHr. }
        destruct Hsec as (v1 & d1 & ->). apply IH. }
      apply Hgen. }
    destruct Hext as (v0 & d & ->). apply Hhead.
  - intros Hnot. rewrite rules_other by (vm_compute; intuition discriminate).
    rewrite get_set_other by discriminate.
    rewrite get_extract_other; [reflexivity |].
    rewrite (reserved_only_basic soup code_key) by tauto. apply Hnot. reflexivity.
Qed.

Lemma symbol_key_kept_witness :
  Dict.get (scrape_stock_data Sample.one_symbol "ITUB4") code_key = Some (VStr "ITUB4").
Proof.
  apply (proj2 (symbol_key_kept Sample.one_symbol "ITUB4")).
  intros soup [= <-]. vm_compute. intuition discriminate.
Defined.

Lemma error_key_iff_failure_witness :
  scrape_stock_data Sample.one_symbol "VALE3"
  = [(code_key, VStr "VALE3"); (error_key, VStr "404 Client Error")].
Proof.
  apply (proj2 (error_key_iff_failure Sample.one_symbol "VALE3")
           (RequestException "404 Client Error")).
  reflexivity.
Defined.

End Outcome.

(** ** Sequential and batched runs, the summary, the start-up *)

Section Runs.

Import Scraping Written Driver.

Variable fetch : string -> result Page.document.

Local Abbreviation scrape := (scrape_stock_data fetch).

Lemma legacy_appends (stock_codes : list string) :
  forall self,
    scrape_all_stocks_legacy fetch stock_codes self
    = {| max_workers := max_workers self;
         batch_size := batch_size self;
         stocks_data := stocks_data self ++ List.map scrape stock_codes;
         requested := requested self ++ stock_codes |}.
Proof.
  unfold scrape_all_stocks_legacy.
  induction stock_codes as [| c cs IH]; intros self; cbn [fold_left List.map].
  - rewrite !app_nil_r. destruct self; reflexivity.
  - rewrite IH. cbn [max_workers batch_size stocks_data requested].
    rewrite <- !app_assoc. reflexivity.
Qed.

Lemma filter_permutation {A : Type} (f : A -> bool) (l l' : list A) :
  Permutation l l' -> Permutation (List.filter f l) (List.filter f l').
Proof.
  induction 1 as [| x l l' _ IH | x y l | l l' l'' _ IH1 _ IH2]; cbn [List.filter].
  - constructor.
  - destruct (f x); [constructor |]; exact IH.
  - destruct (f x), (f y); try reflexivity. constructor.
  - etransitivity; eassumption.
Qed.

Lemma filter_map_ext {A B : Type} (f : B -> bool) (g : A -> B) (h : A -> bool)
    (l : list A) :
  (forall a, In a l -> f (g a) = h a) ->
  List.length (List.filter f (List.map g l)) = List.length (List.filter h l).
Proof.
  induction l as [| a l IH]; intros Hext; [reflexivity |].
  cbn [List.map List.filter]. rewrite (Hext a) by (left; reflexivity).
  destruct (h a); cbn [List.length]; rewrite IH; auto using in_cons.
Qed.

Variable completion_order : Z -> list string -> list string.

Hypothesis completion_is_rearrangement :
  forall b batch, Permutation (completion_order b batch) batch.

(** A valid configuration: the batched run of a new scraper ends
    normally with a rearrangement of the records of the symbols. *)
Lemma batched_run (w b : Z) (stock_codes : list string) :
  0 < w -> 0 < b ->
  exists records,
    scrape_all_stocks fetch completion_order stock_codes (init w b)
    = ({| max_workers := w; batch_size := b; stocks_data := records;
          requested := stock_codes |}, Ok tt)
    /\ Permutation records (List.map scrape stock_codes).
Proof.
  intros Hw Hb. unfold scrape_all_stocks, py_range. cbn [batch_size init].
  replace (b =? 0) with false by (symmetry; lia).
  replace (b <? 0) with false by (symmetry; lia).
  destruct (run_batches_complete fetch completion_order completion_is_rearrangement
              stock_codes (Z.to_nat (Z.of_nat (List.length stock_codes))) 0 (init w b))
    as (records & Hrun & Hperm); [ assumption | assumption | lia | lia |].
  exists records. split; [exact Hrun | exact Hperm].
Qed.

(** X4.  The sequential run appends the records of the symbols in the
    order given, and the batched run of a new scraper with at least one
    worker and a batch size of at least one holds the same records in
    some order. *)
Theorem batched_matches_sequential (w b : Z) (stock_codes : list string) :
  0 < w -> 0 < b ->
  stocks_data (scrape_all_stocks_legacy fetch stock_codes (init w b))
  = List.map scrape stock_codes
  /\ exists self',
       scrape_all_stocks fetch completion_order stock_codes (init w b) = (self', Ok tt)
       /\ Permutation (stocks_data self')
            (stocks_data (scrape_all_stocks_legacy fetch stock_codes (init w b))).
Proof.
  intros Hw Hb. rewrite legacy_appends. cbn [stocks_data init app].
  split; [reflexivity |].
  destruct (batched_run w b stock_codes Hw Hb) as (records & Hrun & Hperm).
  eexists. split; [exact Hrun | exact Hperm].
Qed.

(** X5.  When no page has a row named ["Erro"], the summary of a
    batched run over [N >= 1] symbols reports [N] records, as many
    errors as there are symbols whose request failed, and the rest as
    successes: a failed symbol costs one record and no more. *)
Theorem summary_counts_failures (w b : Z) (stock_codes : list string) :
  0 < w -> 0 < b -> stock_codes <> [] ->
  never_written fetch error_key ->
  exists self',
    scrape_all_stocks fetch completion_order stock_codes (init w b) = (self', Ok tt)
    /\ let failed := List.length (List.filter (fetch_fails fetch) stock_codes) in
       let total := List.length stock_codes in
       show_summary self' = Some (total, (total - failed)%nat, failed).
Proof.
  intros Hw Hb Hne Hnever.
  destruct (batched_run w b stock_codes Hw Hb) as (records & Hrun & Hperm).
  eexists. split; [exact Hrun |]. cbv zeta.
  unfold show_summary. cbn [stocks_data].
  assert (Hlen : List.length records = List.length stock_codes).
  { rewrite (Permutation_length Hperm). apply length_map. }
  assert (Hsucc : List.length (List.filter succeeded records)
                  = List.length (List.filter (fun c => negb (fetch_fails fetch c))
                                   stock_codes)).
  { rewrite (Permutation_length (filter_permutation succeeded _ _ Hperm)).
    apply filter_map_ext. intros c _. unfold succeeded, fetch_fails.
    destruct (fetch c) as [soup | e] eqn:Hfetch.
    - destruct (Dict.mem error_key (scrape c)) eqn:Hmem; [| reflexivity].
      exfalso. apply mem_in_keys in Hmem.
      apply (proj1 (error_key_present fetch c)) in Hmem.
      unfold fetch_fails in Hmem. rewrite Hfetch in Hmem.
      destruct Hmem as [Hmem | (soup' & [= <-] & Hmem)]; [discriminate |].
      apply (Hnever c soup Hfetch).
      apply (reserved_only_basic soup error_key); [tauto | exact Hmem].
    - rewrite (scrape_failed fetch c e Hfetch). reflexivity. }
  pose proof (List.filter_length (fetch_fails fetch) stock_codes) as Hsplit.
  destruct records as [| r records];
    [destruct stock_codes; [contradiction | discriminate Hlen] |].
  rewrite Hsucc, Hlen. do 2 f_equal; [f_equal |]; lia.
Qed.

End Runs.

Lemma sample_rearrangement (b : Z) (batch : list string) : Permutation (rev batch) batch.
Proof. symmetry. apply Permutation_rev. Qed.

Lemma sample_never_error : Written.never_written Sample.one_symbol Scraping.error_key.
Proof.
  intros code soup. unfold Sample.one_symbol.
  destruct (String.eqb code "ITUB4"); [| discriminate].
  intros [= <-]. vm_compute. intuition discriminate.
Qed.

Lemma batched_matches_sequential_witness :
  exists self',
    Scraping.scrape_all_stocks Sample.one_symbol (fun _ batch => rev batch)
      ["PETR4"; "ITUB4"; "VALE3"] (Scraping.init 2 2) = (self', Ok tt)
    /\ Permutation (Scraping.stocks_data self')
         (Scraping.stocks_data
            (Driver.scrape_all_stocks_legacy Sample.one_symbol ["PETR4"; "ITUB4"; "VALE3"]
               (Scraping.init 2 2))).
Proof.
  apply (batched_matches_sequential Sample.one_symbol (fun _ batch => rev batch)
           sample_rearrangement 2 2 ["PETR4"; "ITUB4"; "VALE3"]); lia.
Defined.

Lemma summary_counts_failures_witness :
  exists self',
    Scraping.scrape_all_stocks Sample.one_symbol (fun _ batch => rev batch)
      ["PETR4"; "ITUB4"; "VALE3"] (Scraping.init 2 2) = (self', Ok tt)
    /\ Driver.show_summary self' = Some (3, 1, 2)%nat.
Proof.
  apply (summary_counts_failures Sample.one_symbol (fun _ batch => rev batch)
           sample_rearrangement 2 2 ["PETR4"; "ITUB4"; "VALE3"]);
    [lia | lia | discriminate | exact sample_never_error].
Defined.

(** ** The configuration chosen at start-up *)

Section StartUp.

Import Scraping Written Driver.

Lemma custom_config_bounds (stdin : list string) :
  let '(w, b, _) := custom_config stdin in 1 <= w <= 10 /\ 1 <= b <= 50.
Proof.
  unfold custom_config, default_config.
  destruct stdin as [| l1 [| l2 [| l3 rest]]]; try lia.
  destruct (int_of_string (Str.strip l1)) as [w |]; [| lia].
  destruct (int_of_string (Str.strip l2)) as [b |]; lia.
Qed.

Lemma main_config_bounds (stdin : list string) :
  let '(w, b, _) := main_config stdin in 1 <= w <= 10 /\ 1 <= b <= 50.
Proof.
  unfold main_config, default_config.
  destruct stdin as [| line rest]; [lia |].
  destruct (String.eqb (Str.strip line) "1"); [lia |].
  destruct (String.eqb (Str.strip line) "2"); [lia |].
  destruct (String.eqb (Str.strip line) "3"); [lia |].
  destruct (String.eqb (Str.strip line) "4"); [apply custom_config_bounds | lia].
Qed.

(** X6.  Whatever is typed at start-up, [main] builds a scraper with 1
    to 10 workers and a batch size of 1 to 50; its run then finds at
    least one symbol (the table, else the spreadsheet, else the ten
    examples), ends normally, and the summary reports one record per
    symbol. *)
Theorem main_run_is_valid (fetch : string -> result Page.document)
    (completion_order : Z -> list string -> list string)
    (stdin table_codes excel_codes : list string) :
  (forall b batch, Permutation (completion_order b batch) batch) ->
  let '(w, b, _) := main_config stdin in
  (1 <= w <= 10 /\ 1 <= b <= 50)
  /\ exists self' successful errors,
       run fetch completion_order table_codes excel_codes (init w b)
       = (self', Some (List.length (get_stock_codes table_codes excel_codes),
                       successful, errors))
       /\ (1 <= List.length (get_stock_codes table_codes excel_codes))%nat
       /\ List.length (stocks_data self')
          = List.length (get_stock_codes table_codes excel_codes).
Proof.
  intros Hperm. pose proof (main_config_bounds stdin) as Hbounds.
  destruct (main_config stdin) as [[w b] sel]. split; [exact Hbounds |].
  set (codes := get_stock_codes table_codes excel_codes).
  assert (Hcodes : codes <> []).
  { unfold codes, get_stock_codes.
    destruct table_codes; [destruct excel_codes |]; discriminate. }
  destruct (batched_run fetch completion_order Hperm w b codes) as (records & Hrun & Hp);
    [lia | lia |].
  assert (Hlen : List.length records = List.length codes).
  { rewrite (Permutation_length Hp). apply length_map. }
  unfold run. fold codes. rewrite Hrun.
  destruct codes as [| c cs] eqn:Hc; [contradiction |].
  destruct records as [| r rs]; [discriminate Hlen |].
  unfold show_summary. cbn [stocks_data].
  eexists _, _, _. split; [rewrite Hlen; reflexivity |].
  split; [cbn; lia | exact Hlen].
Qed.

End StartUp.

Lemma main_run_is_valid_witness :
  Driver.main_config ["4"; " 99 "; "0"; "S"] = (10, 5, true)
  /\ exists self' successful errors,
       Driver.run Sample.one_symbol (fun _ batch => rev batch) [] ["ITUB4"; "VALE3"]
         (Scraping.init 10 5)
       = (self', Some (2%nat, successful, errors)).
Proof.
  split; [reflexivity |].
  pose proof (main_run_is_valid Sample.one_symbol (fun _ batch => rev batch)
                ["4"; " 99 "; "0"; "S"] [] ["ITUB4"; "VALE3"] sample_rearrangement) as H.
  change (Driver.main_config ["4"; " 99 "; "0"; "S"]) with (10, 5, true) in H.
  destruct H as (_ & self' & s & e & Hrun & _).
  exists self', s, e. exact Hrun.
Defined.

(** ** What cleaning puts into a ruled field *)

Section Replacement.

Import StocksScraper.

Lemma get_set_same (d : Dict.t) (k : string) (v : pyval) :
  Dict.get (Dict.set d k v) k = Some v.
Proof.
  induction d as [| [k0 v0] d IH]; cbn [Dict.set Dict.get].
  - rewrite String.eqb_refl. reflexivity.
  - destruct (String.eqb k0 k) eqn:E; cbn [Dict.get]; rewrite E; [reflexivity | exact IH].
Qed.

(** The value that one rule leaves in its field. *)
Lemma apply_rule_value (d : Dict.t) (k : string) (f : pyval -> result pyval) (v : pyval) :
  Dict.get d k = Some v ->
  Dict.get (apply_rule d (k, f)) k
  = Some (if Py.truthy v
          then match f v with
               | Ok VNone => v
               | Ok cleaned_value => cleaned_value
               | Raise _ => v
               end
          else v).
Proof.
  intros Hget. unfold apply_rule. rewrite Hget.
  destruct (Py.truthy v); [| exact Hget].
  destruct (f v) as [[| s | x | n] | e]; try exact Hget; apply get_set_same.
Qed.

Lemma rules_value (rules : list (string * (pyval -> result pyval)))
    (k : string) (f : pyval -> result pyval) (v : pyval) :
  List.NoDup (List.map fst rules) -> In (k, f) rules ->
  forall d, Dict.get d k = Some v ->
            Dict.get (fold_left apply_rule rules d) k
            = Dict.get (apply_rule d (k, f)) k.
Proof.
  intros Hnodup Hin.
  induction rules as [| r rules IH]; [contradiction |].
  intros d Hget. cbn [fold_left].
  cbn [List.map] in Hnodup. apply List.NoDup_cons_iff in Hnodup as [Hfresh Hnodup].
  destruct Hin as [-> | Hin].
  - apply rules_other. exact Hfresh.
  - assert (Hne : fst r <> k).
    { intros Heq. apply Hfresh. rewrite Heq.
      change k with (fst (k, f)). apply List.in_map, Hin. }
    rewrite (IH Hnodup Hin) by (rewrite apply_rule_other; assumption).
    rewrite (apply_rule_value _ k f v) by (rewrite apply_rule_other; assumption).
    rewrite (apply_rule_value d k f v Hget). reflexivity.
Qed.

(** X7.  After [clean_stock_data] a field that has a rule holds the
    value returned by its cleaner; it keeps its raw value when that
    value is empty (falsy) or when the cleaner returns [None] or
    raises.  No rule changes the field of another rule. *)
Theorem ruled_field_value (d : Dict.t) (k : string) (f : pyval -> result pyval)
    (v : pyval) :
  In (k, f) cleaning_rules -> Dict.get d k = Some v ->
  Dict.get (clean_record d) k
  = Some (if Py.truthy v
          then match f v with
               | Ok VNone => v
               | Ok cleaned_value => cleaned_value
               | Raise _ => v
               end
          else v).
Proof.
  intros Hin Hget. unfold clean_record.
  rewrite (rules_value cleaning_rules k f v cleaning_rules_distinct Hin d Hget).
  apply apply_rule_value, Hget.
Qed.

Lemma ruled_field_value_witness :
  Dict.get
    (clean_record [("Código", VStr "TEST4"); ("Indicador - Dividend Yield", VStr "15,30%")])
    "Indicador - Dividend Yield"
  = Some (VFloat (f64 "15.3")).
Proof.
  refine (eq_trans (ruled_field_value _ "Indicador - Dividend Yield"
                      DataCleaner.clean_percentage_to_float (VStr "15,30%") _ _) _).
  - exact (List.nth_error_In cleaning_rules 22 eq_refl).
  - reflexivity.
  - vm_compute. reflexivity.
Defined.

End Replacement.

(** ** Reading the codes of the selection table *)

Section LinkCodes.

Import Codes.

Lemma split_from_nonempty (sep s : string) : forall skip, split_from sep skip s <> [].
Proof.
  induction s as [| c s IH]; intros skip; cbn [split_from]; [discriminate |].
  destruct skip as [| k]; [| apply IH].
  destruct (Str.startswith sep (String c s)); [discriminate |].
  destruct (split_from sep 0 s); discriminate.
Qed.

Lemma split_from_skip (sep p rest : string) :
  split_from sep (Str.len p) (p +:+ rest) = split_from sep 0 rest.
Proof.
  induction p as [| c p IH]; [destruct rest; reflexivity |].
  rewrite append_cons. cbn [Str.len String.length split_from]. exact IH.
Qed.

Lemma startswith_app (p r : string) : Str.startswith p (p +:+ r) = true.
Proof.
  induction p as [| a p IH]; [destruct r; reflexivity |].
  rewrite append_cons. cbn [Str.startswith]. rewrite Ascii.eqb_refl. exact IH.
Qed.

Lemma split_at_sep (sep rest : string) :
  sep <> "" -> split sep (sep +:+ rest) = "" :: split sep rest.
Proof.
  intros Hsep. destruct sep as [| a sep]; [contradiction |].
  unfold split. rewrite append_cons. cbn [split_from].
  pose proof (startswith_app (String a sep) rest) as Hstart.
  rewrite append_cons in Hstart. rewrite Hstart.
  replace (Str.len (String a sep) - 1)%nat with (Str.len sep)
    by (unfold Str.len; cbn [String.length]; lia).
  f_equal. apply split_from_skip.
Qed.

Lemma has_char_cons (z b : ascii) (s : string) :
  Str.has_char z (String b s) = false <-> Ascii.eqb z b = false /\ Str.has_char z s = false.
Proof. unfold Str.has_char. cbn [Str.any]. apply orb_false_iff. Qed.

Lemma has_char_app (z : ascii) (a b : string) :
  Str.has_char z (a +:+ b) = Str.has_char z a || Str.has_char z b.
Proof.
  induction a as [| c a IH]; [reflexivity |].
  rewrite append_cons. unfold Str.has_char in *. cbn [Str.any]. rewrite IH.
  apply orb_assoc.
Qed.

Lemma has_char_take (z : ascii) (s : string) :
  Str.has_char z s = false -> forall n, Str.has_char z (Str.take n s) = false.
Proof.
  induction s as [| c s IH]; intros Hs n; [destruct n; reflexivity |].
  apply has_char_cons in Hs as [Hc Hs].
  destruct n as [| n]; [reflexivity |]. cbn [Str.take].
  apply has_char_cons. split; [exact Hc | apply IH, Hs].
Qed.

Lemma take_app (a b : string) :
  forall n, (n <= Str.len a)%nat -> Str.take n (a +:+ b) = Str.take n a.
Proof.
  induction a as [| c a IH]; intros n Hn.
  - cbn in Hn. replace n with 0%nat by lia. destruct b; reflexivity.
  - destruct n as [| n]; [reflexivity |].
    rewrite append_cons. cbn [Str.take]. f_equal. apply IH.
    cbn [Str.len String.length] in Hn. unfold Str.len. lia.
Qed.

Lemma len_app (a b : string) : Str.len (a +:+ b) = (Str.len a + Str.len b)%nat.
Proof.
  induction a as [| c a IH]; [reflexivity |].
  rewrite append_cons. cbn [Str.len String.length]. unfold Str.len in IH. rewrite IH.
  reflexivity.
Qed.

(** A separator that ends with [z] does not start where none of the
    characters it would cover is [z]. *)
Lemma no_match_short (q : string) (z : ascii) :
  forall t, Str.has_char z (Str.take (S (Str.len q)) t) = false ->
            Str.startswith (q +:+ String z "") t = false.
Proof.
  induction q as [| a q IH]; intros t Ht.
  - rewrite append_nil_l. destruct t as [| b t]; [reflexivity |].
    cbn [Str.len String.length Str.take] in Ht. apply has_char_cons in Ht as [Hz _].
    cbn [Str.startswith]. rewrite Hz. reflexivity.
  - rewrite append_cons. destruct t as [| b t]; [reflexivity |].
    cbn [Str.len String.length Str.take] in Ht. apply has_char_cons in Ht as [_ Ht].
    cbn [Str.startswith]. rewrite (IH t Ht). apply andb_false_r.
Qed.

(** It does not start inside text free of [z] that comes before one of
    its own occurrences. *)
Lemma no_match_before_sep (q : string) (z : ascii) (u rest : string) :
  u <> "" -> Str.has_char z u = false -> Str.has_char z q = false ->
  Str.startswith (q +:+ String z "") (u +:+ (q +:+ String z "") +:+ rest) = false.
Proof.
  intros Hu Hzu Hzq. apply no_match_short.
  rewrite append_assoc, <- (append_assoc u q).
  rewrite take_app.
  - apply has_char_take. rewrite has_char_app, Hzu, Hzq. reflexivity.
  - rewrite len_app. destruct u; [contradiction |]. cbn [Str.len String.length]. lia.
Qed.

Lemma ascii_eqb_sym (a b : ascii) : Ascii.eqb a b = Ascii.eqb b a.
Proof.
  destruct (Ascii.eqb_spec a b) as [-> | Hne]; [symmetry; apply Ascii.eqb_refl |].
  symmetry. apply Ascii.eqb_neq. congruence.
Qed.

(** Nor inside text free of [z] that is followed by a character foreign
    to the separator. *)
Lemma no_match_before_char (x z : ascii) (q : string) :
  Str.has_char x (q +:+ String z "") = false ->
  forall u v, Str.has_char z u = false ->
              Str.startswith (q +:+ String z "") (u +:+ String x v) = false.
Proof.
  induction q as [| a q IH]; intros Hx u v Hu.
  - rewrite append_nil_l in *. apply has_char_cons in Hx as [Hx _].
    destruct u as [| b u]; rewrite ?append_cons, ?append_nil_l; cbn [Str.startswith].
    + rewrite ascii_eqb_sym, Hx. reflexivity.
    + apply has_char_cons in Hu as [Hb _]. rewrite Hb. reflexivity.
  - rewrite append_cons in *. apply has_char_cons in Hx as [Ha Hx].
    destruct u as [| b u]; rewrite ?append_cons, ?append_nil_l; cbn [Str.startswith].
    + rewrite ascii_eqb_sym, Ha. reflexivity.
    + apply has_char_cons in Hu as [_ Hu]. rewrite (IH Hx u v Hu). apply andb_false_r.
Qed.

Lemma sep_not_empty (q : string) (z : ascii) : q +:+ String z "" <> "".
Proof. destruct q; discriminate. Qed.

(** Text free of [z] in front of an occurrence is the first part. *)
Lemma split_before_sep (q : string) (z : ascii) (u rest : string) :
  Str.has_char z u = false -> Str.has_char z q = false ->
  split (q +:+ String z "") (u +:+ (q +:+ String z "") +:+ rest)
  = u :: split (q +:+ String z "") rest.
Proof.
  intros Hu Hq. induction u as [| b u IH].
  - rewrite append_nil_l. apply split_at_sep, sep_not_empty.
  - pose proof (no_match_before_sep q z (String b u) rest) as Hno.
    rewrite append_cons in Hno |- *. unfold split in *. cbn [split_from].
    rewrite Hno by (discriminate || assumption).
    apply has_char_cons in Hu as [_ Hu]. rewrite (IH Hu). reflexivity.
Qed.

(** Text free of [z] in front of a character foreign to the separator
    stays in one part with that character. *)
Lemma split_before_char (x z : ascii) (q u v : string) :
  Str.has_char x (q +:+ String z "") = false -> Str.has_char z u = false ->
  exists h t, split (q +:+ String z "") (u +:+ String x v) = (u +:+ String x h) :: t.
Proof.
  intros Hx Hu. induction u as [| b u IH].
  - rewrite append_nil_l. unfold split. cbn [split_from].
    pose proof (no_match_before_char x z q Hx "" v eq_refl) as Hno.
    rewrite append_nil_l in Hno. rewrite Hno.
    destruct (split_from (q +:+ String z "") 0 v) as [| h t] eqn:E;
      [exfalso; exact (split_from_nonempty _ _ _ E) |].
    exists h, t. reflexivity.
  - pose proof (no_match_before_char x z q Hx (String b u) v Hu) as Hno.
    rewrite append_cons in Hno |- *. unfold split in *. cbn [split_from]. rewrite Hno.
    apply has_char_cons in Hu as [_ Hu]. destruct (IH Hu) as (h & t & ->).
    exists h, t. reflexivity.
Qed.

Lemma split_no_sep (q : string) (z : ascii) (u : string) :
  Str.has_char z u = false -> split (q +:+ String z "") u = [u].
Proof.
  intros Hu. induction u as [| b u IH]; [reflexivity |].
  unfold split in *. cbn [split_from].
  rewrite (no_match_short q z (String b u)) by (apply has_char_take, Hu).
  apply has_char_cons in Hu as [_ Hu]. rewrite (IH Hu). reflexivity.
Qed.

Lemma split_not_contained (sep u : string) :
  Str.contains sep u = false -> split sep u = [u].
Proof.
  induction u as [| b u IH]; intros Hu; [reflexivity |].
  cbn [Str.contains] in Hu. apply orb_false_iff in Hu as [Hstart Hu].
  unfold split in *. cbn [split_from]. rewrite Hstart, (IH Hu). reflexivity.
Qed.

Lemma contains_after_char (x z : ascii) (q u v : string) :
  Str.has_char x (q +:+ String z "") = false -> Str.has_char z u = false ->
  Str.contains (q +:+ String z "") (u +:+ String x v)
  = Str.contains (q +:+ String z "") v.
Proof.
  intros Hx Hu. induction u as [| b u IH].
  - rewrite append_nil_l. cbn [Str.contains].
    pose proof (no_match_before_char x z q Hx "" v eq_refl) as Hno.
    rewrite append_nil_l in Hno. rewrite Hno. reflexivity.
  - pose proof (no_match_before_char x z q Hx (String b u) v Hu) as Hno.
    rewrite append_cons in Hno |- *. cbn [Str.contains]. rewrite Hno.
    apply has_char_cons in Hu as [_ Hu]. rewrite (IH Hu). reflexivity.
Qed.

Lemma contains_app (p r : string) : Str.contains p (p +:+ r) = true.
Proof.
  destruct p as [| a p]; [destruct r; reflexivity |].
  pose proof (startswith_app (String a p) r) as H. rewrite append_cons in H |- *.
  cbn [Str.contains]. rewrite H. reflexivity.
Qed.

Lemma contains_prefixed (p u r : string) :
  Str.contains p r = true -> Str.contains p (u +:+ r) = true.
Proof.
  intros Hr. induction u as [| b u IH]; [exact Hr |].
  rewrite append_cons. cbn [Str.contains]. rewrite IH. apply orb_true_r.
Qed.

(** One-character separators. *)
Lemma split_char_nonempty (sep : ascii) (s : string) : Str.split sep s <> [].
Proof.
  induction s as [| c s IH]; cbn [Str.split]; [discriminate |].
  destruct (Ascii.eqb c sep); [discriminate |].
  destruct (Str.split sep s); discriminate.
Qed.

Lemma split_char_head (sep : ascii) (u w : string) :
  Str.has_char sep u = false ->
  exists t, Str.split sep (u +:+ String sep w) = u :: t.
Proof.
  intros Hu. induction u as [| b u IH].
  - rewrite append_nil_l. cbn [Str.split]. rewrite Ascii.eqb_refl. eexists. reflexivity.
  - rewrite append_cons. cbn [Str.split].
    apply has_char_cons in Hu as [Hb Hu]. rewrite ascii_eqb_sym, Hb.
    destruct (IH Hu) as (t & ->). eexists. reflexivity.
Qed.

Lemma split_char_none (sep : ascii) (u : string) :
  Str.has_char sep u = false -> Str.split sep u = [u].
Proof.
  intros Hu. induction u as [| b u IH]; [reflexivity |].
  cbn [Str.split]. apply has_char_cons in Hu as [Hb Hu].
  rewrite ascii_eqb_sym, Hb, (IH Hu). reflexivity.
Qed.

(** Whenever the marker is in the text, the split has a second part. *)
Lemma split_contained (sep s : string) :
  sep <> "" -> Str.contains sep s = true ->
  exists a b rest, split sep s = a :: b :: rest.
Proof.
  intros Hsep. unfold split. induction s as [| c s IH]; intros Hs.
  - destruct sep; [contradiction | discriminate Hs].
  - cbn [Str.contains] in Hs. cbn [split_from].
    destruct (Str.startswith sep (String c s)) eqn:Hstart.
    + destruct (split_from sep (Str.len sep - 1) s) as [| b rest] eqn:E;
        [exfalso; exact (split_from_nonempty _ _ _ E) |].
      eexists _, _, _. reflexivity.
    + destruct (IH Hs) as (a & b & rest & ->). eexists _, _, _. reflexivity.
Qed.

End LinkCodes.

Section TableCodes.

Import Codes.

Lemma url_form (code rest : string) :
  url code +:+ rest
  = "https://www.investsite.com.br/principais_indicadores.php?"
    +:+ ("cod_negociacao" +:+ String "=" "") +:+ (code +:+ rest).
Proof.
  unfold url.
  change "https://www.investsite.com.br/principais_indicadores.php?cod_negociacao="
    with ("https://www.investsite.com.br/principais_indicadores.php?"
          +:+ ("cod_negociacao" +:+ String "=" "")).
  rewrite !append_assoc. reflexivity.
Qed.

Lemma split_url (code rest : string) :
  split marker (url code +:+ rest)
  = "https://www.investsite.com.br/principais_indicadores.php?"
    :: split marker (code +:+ rest).
Proof.
  rewrite url_form.
  change marker with ("cod_negociacao" +:+ String "=" "").
  apply split_before_sep; reflexivity.
Qed.

Lemma contains_url (code rest : string) : Str.contains marker (url code +:+ rest) = true.
Proof.
  rewrite url_form. apply contains_prefixed.
  change ("cod_negociacao" +:+ String "=" "") with marker.
  apply contains_app.
Qed.

Lemma long_enough_length (code : string) :
  long_enough code = true <-> (4 <= Str.len code)%nat.
Proof.
  unfold long_enough. rewrite andb_true_iff, Nat.leb_le.
  split; [tauto |]. intros H. split; [| exact H].
  destruct code; [cbn in H; lia | reflexivity].
Qed.

(** The code of a link to the page of a symbol, with or without further
    parameters. *)
Lemma href_code_requests_url (code params : string) :
  Str.has_char "=" code = false -> Str.has_char "&" code = false ->
  params = "" \/ (exists t, params = String "&" t) ->
  href_code_requests (url code +:+ params) = Some code.
Proof.
  intros Heq Hamp Hparams. unfold href_code_requests. rewrite split_url.
  change marker with ("cod_negociacao" +:+ String "=" "").
  destruct Hparams as [-> | (t & ->)].
  - rewrite append_nil_r, (split_no_sep _ _ code Heq). cbn.
    rewrite (split_char_none _ code Hamp). reflexivity.
  - destruct (split_before_char "&" "=" "cod_negociacao" code t eq_refl Heq)
      as (h & rest & ->). cbn.
    destruct (split_char_head "&" code h Hamp) as (rest' & ->). reflexivity.
Qed.

Lemma href_code_selenium_url (code params : string) :
  Str.has_char "=" code = false ->
  params = "" \/ (exists t, params = String "&" t /\ Str.contains marker t = false) ->
  href_code_selenium (url code +:+ params) = Some (code +:+ params).
Proof.
  intros Heq Hparams. unfold href_code_selenium. rewrite split_url.
  destruct Hparams as [-> | (t & -> & Ht)].
  - change marker with ("cod_negociacao" +:+ String "=" "").
    rewrite append_nil_r, (split_no_sep _ _ code Heq). reflexivity.
  - rewrite split_not_contained; [reflexivity |].
    change marker with ("cod_negociacao" +:+ String "=" "") in Ht |- *.
    rewrite contains_after_char by (reflexivity || assumption). exact Ht.
Qed.

Lemma for_each_cons {A S : Type} (body : S -> A -> option S) (x : A) (l : list A) (s : S) :
  for_each body (x :: l) s = (s' ← body s x; for_each body l s').
Proof. reflexivity. Qed.

Lemma for_each_one {A S : Type} (body : S -> A -> option S) (x : A) (s : S) :
  for_each body [x] s = body s x.
Proof. cbn [for_each]. destruct (body s x); reflexivity. Qed.

Lemma add_row_of_code (stock_codes : list string) (c params : string)
    (others : list cell) :
  Str.has_char "=" c = false -> Str.has_char "&" c = false -> (4 <= Str.len c)%nat ->
  params = "" \/ (exists t, params = String "&" t) ->
  add_row_requests stock_codes ([Some (url c +:+ params)] :: others)
  = Some (stock_codes ++ [c]).
Proof.
  intros Heq Hamp Hlen Hparams. unfold add_row_requests. rewrite for_each_one.
  unfold add_link_requests. cbn [default from_option id].
  rewrite contains_url, (href_code_requests_url c params Heq Hamp Hparams).
  cbn [mbind option_bind]. rewrite (proj2 (long_enough_length c) Hlen). reflexivity.
Qed.

Lemma add_link_selenium_of_code (stock_codes : list string) (c params : string) :
  Str.has_char "=" c = false -> (4 <= Str.len c)%nat ->
  params = "" \/ (exists t, params = String "&" t /\ Str.contains marker t = false) ->
  add_link_selenium stock_codes (Some (url c +:+ params))
  = Some (stock_codes ++ [c +:+ params]).
Proof.
  intros Heq Hlen Hparams. unfold add_link_selenium.
  rewrite contains_url, (href_code_selenium_url c params Heq Hparams).
  replace (Py.truthy (VStr (url c +:+ params))) with true by reflexivity.
  cbn [andb mbind option_bind].
  rewrite (proj2 (long_enough_length (c +:+ params))) by (rewrite len_app; lia).
  reflexivity.
Qed.

Lemma add_rows_of_codes (codes : list string) (params : string -> string)
    (others : string -> list cell) :
  (forall c, In c codes ->
             Str.has_char "=" c = false /\ Str.has_char "&" c = false
             /\ (4 <= Str.len c)%nat) ->
  (forall c, params c = "" \/ exists t, params c = String "&" t) ->
  forall stock_codes,
    for_each add_row_requests
      (List.map (fun c => [Some (url c +:+ params c)] :: others c) codes) stock_codes
    = Some (stock_codes ++ codes).
Proof.
  intros Hcodes Hparams. induction codes as [| c codes IH]; intros stock_codes.
  - rewrite app_nil_r. reflexivity.
  - cbn [List.map]. rewrite for_each_cons.
    destruct (Hcodes c (or_introl eq_refl)) as (Heq & Hamp & Hlen).
    rewrite (add_row_of_code stock_codes c (params c) (others c) Heq Hamp Hlen (Hparams c)).
    cbn [mbind option_bind]. rewrite IH by (intros; apply Hcodes; right; assumption).
    rewrite <- app_assoc. reflexivity.
Qed.

(** X8.  A result table whose rows, after the header row, each link in
    their first cell to the page of a symbol (the address that
    [scrape_stock_data] itself requests, with or without further
    parameters) yields exactly those symbols, in the order of the
    rows. *)
Theorem table_links_give_codes (header : row) (codes : list string)
    (params : string -> string) (others : string -> list cell) :
  (forall c, In c codes ->
             Str.has_char "=" c = false /\ Str.has_char "&" c = false
             /\ (4 <= Str.len c)%nat) ->
  (forall c, params c = "" \/ exists t, params c = String "&" t) ->
  get_codes_with_requests
    (Ok (Some [header :: List.map (fun c => [Some (url c +:+ params c)] :: others c) codes]))
  = codes.
Proof.
  intros Hcodes Hparams. unfold get_codes_with_requests.
  rewrite for_each_one. unfold add_table_requests. cbn [List.tail].
  rewrite (add_rows_of_codes codes params others Hcodes Hparams). reflexivity.
Qed.

Lemma table_links_give_codes_witness :
  get_codes_with_requests
    (Ok (Some [[[[None]];
                [[Some (url "PETR4" +:+ "")]; [Some "x"]];
                [[Some (url "VALE3" +:+ "&aba=1")]; [Some "x"]]]]))
  = ["PETR4"; "VALE3"].
Proof.
  apply (table_links_give_codes [[None]] ["PETR4"; "VALE3"]
           (fun c => if String.eqb c "PETR4" then "" else "&aba=1")
           (fun _ => [[Some "x"]])).
  - intros c [<- | [<- | []]]; vm_compute; repeat split; lia.
  - intros c. destruct (String.eqb c "PETR4"); [left | right; eexists]; reflexivity.
Defined.

Lemma split_char_head_clean (sep : ascii) (s : string) :
  forall h t, Str.split sep s = h :: t -> Str.has_char sep h = false.
Proof.
  induction s as [| c s IH]; intros h t; cbn [Str.split].
  - intros [= <- <-]. reflexivity.
  - destruct (Ascii.eqb c sep) eqn:Hc; [intros [= <- <-]; reflexivity |].
    destruct (Str.split sep s) as [| h' t'] eqn:E.
    + intros [= <- <-]. apply has_char_cons. rewrite ascii_eqb_sym. tauto.
    + intros [= <- <-]. apply has_char_cons. rewrite ascii_eqb_sym.
      split; [exact Hc | exact (IH h' t' eq_refl)].
Qed.

Lemma for_each_invariant {A S : Type} (body : S -> A -> option S) (P : S -> Prop) :
  (forall s x, P s -> exists s', body s x = Some s' /\ P s') ->
  forall l s, P s -> exists s', for_each body l s = Some s' /\ P s'.
Proof.
  intros Hbody. induction l as [| x l IH]; intros s Hs; cbn [for_each].
  - exists s. split; [reflexivity | exact Hs].
  - destruct (Hbody s x Hs) as (s1 & -> & Hs1). cbn [mbind option_bind].
    apply IH, Hs1.
Qed.

(** Codes of at least four characters without ['&']. *)
Lemma add_link_requests_invariant (stock_codes : list string) (link : option string) :
  Forall (fun c => (4 <= Str.len c)%nat /\ Str.has_char "&" c = false) stock_codes ->
  exists stock_codes',
    add_link_requests stock_codes link = Some stock_codes'
    /\ Forall (fun c => (4 <= Str.len c)%nat /\ Str.has_char "&" c = false) stock_codes'.
Proof.
  intros Hinv. unfold add_link_requests.
  destruct (Str.contains marker (default "" link)) eqn:Hin;
    [| exists stock_codes; split; [reflexivity | exact Hinv]].
  destruct (split_contained marker (default "" link)) as (a & part & rest & Hsplit);
    [discriminate | exact Hin |].
  unfold href_code_requests. rewrite Hsplit. cbn.
  destruct (Str.split "&" part) as [| code t] eqn:E;
    [exfalso; exact (split_char_nonempty _ _ E) |].
  cbn. destruct (long_enough code) eqn:Hlong;
    [| eexists; split; [reflexivity | exact Hinv]].
  eexists. split; [reflexivity |].
  apply Forall_app. split; [exact Hinv |]. constructor; [| constructor].
  split; [apply long_enough_length, Hlong | exact (split_char_head_clean _ _ _ _ E)].
Qed.

(** X9.  Reading the table never fails on the index [[1]] (the test
    [in] guarantees a second part), and every code it returns has at
    least four characters and no ['&'], whatever the links are. *)
Theorem table_codes_well_formed (search : result (option (list table))) :
  (forall tables, search = Ok (Some tables) ->
                  exists stock_codes,
                    for_each add_table_requests tables [] = Some stock_codes
                    /\ get_codes_with_requests search = stock_codes)
  /\ forall code, In code (get_codes_with_requests search) ->
                  (4 <= Str.len code)%nat /\ Str.has_char "&" code = false.
Proof.
  set (P := Forall (fun c => (4 <= Str.len c)%nat /\ Str.has_char "&" c = false)).
  assert (Htables : forall tables,
             exists stock_codes,
               for_each add_table_requests tables [] = Some stock_codes /\ P stock_codes).
  { intros tables. apply for_each_invariant; [| constructor].
    intros s rows Hs. unfold add_table_requests.
    apply for_each_invariant; [| exact Hs].
    intros s1 cells Hs1. unfold add_row_requests.
    destruct cells as [| first_cell cells]; [exists s1; split; [reflexivity | exact Hs1] |].
    apply for_each_invariant; [| exact Hs1].
    intros s2 link Hs2. apply add_link_requests_invariant, Hs2. }
  split.
  - intros tables ->. destruct (Htables tables) as (stock_codes & Hrun & _).
    exists stock_codes. split; [exact Hrun |].
    unfold get_codes_with_requests. rewrite Hrun. reflexivity.
  - intros code Hin. unfold get_codes_with_requests in Hin.
    destruct search as [[tables |] | e]; try contradiction.
    destruct (Htables tables) as (stock_codes & Hrun & Hall).
    rewrite Hrun in Hin. cbn [default from_option id] in Hin.
    unfold P in Hall. rewrite List.Forall_forall in Hall. apply Hall, Hin.
Qed.

Lemma table_codes_well_formed_witness :
  (4 <= Str.len "ITUB4")%nat /\ Str.has_char "&" "ITUB4" = false.
Proof.
  apply (proj2 (table_codes_well_formed
                  (Ok (Some [[[[None]]; [[Some "?x=1&cod_negociacao=ITUB4&cod_negociacao=AB"]]]])))).
  vm_compute. tauto.
Defined.

(** X10.  The Selenium reader does not cut the code at ['&']: a link to
    the page of a symbol yields the symbol together with whatever
    parameters follow it, so both readers agree on links without
    further parameters only. *)
Theorem selenium_keeps_parameters (codes : list string) (params : string -> string) :
  (forall c, In c codes -> Str.has_char "=" c = false /\ (4 <= Str.len c)%nat) ->
  (forall c, params c = ""
             \/ exists t, params c = String "&" t /\ Str.contains marker t = false) ->
  get_codes_with_selenium
    (Some (Ok (List.map (fun c => Some (url c +:+ params c)) codes)))
  = List.map (fun c => c +:+ params c) codes.
Proof.
  intros Hcodes Hparams. unfold get_codes_with_selenium.
  assert (Hloop : forall stock_codes,
             for_each add_link_selenium
               (List.map (fun c => Some (url c +:+ params c)) codes) stock_codes
             = Some (stock_codes ++ List.map (fun c => c +:+ params c) codes)).
  { induction codes as [| c codes IH]; intros stock_codes.
    - rewrite app_nil_r. reflexivity.
    - cbn [List.map]. rewrite for_each_cons.
      destruct (Hcodes c (or_introl eq_refl)) as (Heq & Hlen).
      rewrite (add_link_selenium_of_code stock_codes c (params c) Heq Hlen (Hparams c)).
      cbn [mbind option_bind]. rewrite IH by (intros; apply Hcodes; right; assumption).
      rewrite <- app_assoc. reflexivity. }
  rewrite Hloop. reflexivity.
Qed.

Lemma selenium_keeps_parameters_witness :
  get_codes_with_selenium (Some (Ok [Some (url "PETR4" +:+ "&aba=1")])) = ["PETR4&aba=1"].
Proof.
  apply (selenium_keeps_parameters ["PETR4"] (fun _ => "&aba=1")).
  - intros c [<- | []]. vm_compute. split; [reflexivity | lia].
  - intros c. right. eexists. split; reflexivity.
Defined.

End TableCodes.

(** ** Reading the codes of a spreadsheet *)

Section Spreadsheet.

Import Excel.

Lemma skip_header {A : Type} (header cells : list A) :
  List.skipn (List.length header) (header ++ cells) = cells.
Proof. induction header as [| x header IH]; [reflexivity | exact IH]. Qed.

Lemma start_row_header (header cells : list pyval) :
  header <> [] -> start_row (header ++ cells) = start_row header.
Proof. destruct header; [contradiction | reflexivity]. Qed.

Lemma read_cells_until_blank (cells rest : list pyval) :
  Forall (fun v => isna v = false /\ cell_text v <> "") cells ->
  match rest with
  | [] => True
  | blank :: _ => isna blank = true \/ cell_text blank = ""
  end ->
  forall stock_codes,
    read_cells (cells ++ rest) stock_codes
    = stock_codes ++ List.filter Codes.long_enough (List.map cell_text cells).
Proof.
  intros Hcells Hrest. induction Hcells as [| v cells [Hna Htext] _ IH]; intros stock_codes.
  - rewrite app_nil_r. destruct rest as [| blank rest]; [reflexivity |].
    cbn [app read_cells]. destruct Hrest as [-> | ->]; [reflexivity |].
    rewrite orb_true_r. reflexivity.
  - cbn [app read_cells List.map List.filter]. rewrite Hna.
    apply String.eqb_neq in Htext. rewrite Htext. cbn [orb].
    rewrite IH. destruct (Codes.long_enough (cell_text v)); [| reflexivity].
    rewrite <- app_assoc. reflexivity.
Qed.

(** X11.  From a spreadsheet, [read_stock_codes_from_excel] returns the
    cells of column A from the start row (the second row when the first
    cell reads "Código" in any case, the fourth otherwise) down to the
    first blank cell or the end of the sheet: each as stripped text, in
    order, without those shorter than four characters.  Nothing below
    the first blank cell is read. *)
Theorem excel_codes_until_blank (header cells rest : list pyval) :
  List.length header = start_row header ->
  Forall (fun v => isna v = false /\ cell_text v <> "") cells ->
  match rest with
  | [] => True
  | blank :: _ => isna blank = true \/ cell_text blank = ""
  end ->
  read_stock_codes_from_excel (Some (Ok (header ++ cells ++ rest)))
  = List.filter Codes.long_enough (List.map cell_text cells).
Proof.
  intros Hheader Hcells Hrest. unfold read_stock_codes_from_excel.
  assert (Hne : header <> []).
  { intros ->. unfold start_row in Hheader. cbn in Hheader. discriminate Hheader. }
  rewrite (start_row_header header _ Hne), <- Hheader, skip_header.
  apply (read_cells_until_blank cells rest Hcells Hrest []).
Qed.

Lemma excel_codes_until_blank_witness :
  read_stock_codes_from_excel
    (Some (Ok ([VStr "Stock Screener"; VNone; VStr "Ação"]
               ++ [VStr "PETR4"; VStr " VALE3 "; VStr "AB"; VInt 1234]
               ++ [VFloat S754_nan; VStr "ITUB4"])))
  = ["PETR4"; "VALE3"; "1234"].
Proof.
  apply (excel_codes_until_blank [VStr "Stock Screener"; VNone; VStr "Ação"]
           [VStr "PETR4"; VStr " VALE3 "; VStr "AB"; VInt 1234]
           [VFloat S754_nan; VStr "ITUB4"]).
  - reflexivity.
  - repeat constructor; discriminate.
  - left. reflexivity.
Defined.

End Spreadsheet.

(** ** Amounts in thousands, by section *)

Section CashFlow.

Import Page Stated DataCleaner.

Lemma run_numeric (t rest : string) :
  numeric t -> Re.starts_with_class Re.num_dot_comma rest = false ->
  Str.take_while Re.num_dot_comma (t +:+ rest) = t
  /\ Str.drop_while Re.num_dot_comma (t +:+ rest) = rest.
Proof.
  intros Ht Hrest. induction t as [| c t IH].
  - rewrite append_nil_l. destruct rest as [| r rest]; [split; reflexivity |].
    cbn in Hrest. cbn [Str.take_while Str.drop_while]. rewrite Hrest. split; reflexivity.
  - apply numeric_cons in Ht as [Hc Ht]. rewrite append_cons.
    cbn [Str.take_while Str.drop_while]. rewrite Hc.
    destruct (IH Ht) as [-> ->]. split; reflexivity.
Qed.

Lemma match_currency_at_marked (is_negative : bool) (t rest : string) :
  numeric t -> t <> "" -> Re.starts_with_class Re.num_dot_comma rest = false ->
  match_currency_at (marker is_negative +:+ t +:+ rest)
  = Some (let s4 := Str.drop_while Char.is_space rest in
          Str.drop (Str.len (opt_char is_scale_letter s4)) s4).
Proof.
  intros Ht Hne Hrest.
  assert (Hbody : forall s2,
             s2 = String "R" (String "$" (String " " (t +:+ rest))) ->
             (if Str.startswith "R$" s2
              then
                let s3 := Str.drop_while Char.is_space (Str.drop 2 s2) in
                match Str.take_while Re.num_dot_comma s3 with
                | "" => None
                | _ =>
                    let s4 :=
                      Str.drop_while Char.is_space (Str.drop_while Re.num_dot_comma s3) in
                    Some (Str.drop (Str.len (opt_char is_scale_letter s4)) s4)
                end
              else None)
             = Some (let s4 := Str.drop_while Char.is_space rest in
                     Str.drop (Str.len (opt_char is_scale_letter s4)) s4)).
  { intros s2 ->.
    replace (Str.startswith "R$" (String "R" (String "$" (String " " (t +:+ rest)))))
      with true by reflexivity.
    cbv zeta. cbn [Str.drop].
    replace (Str.drop_while Char.is_space (String " " (t +:+ rest))) with (t +:+ rest).
    2: { cbn [Str.drop_while]. change (Char.is_space " ") with true. cbv iota.
         symmetry. apply (lstrip_head Char.is_space), numeric_head_not_space; assumption. }
    destruct (run_numeric t rest Ht Hrest) as [-> ->].
    destruct t; [contradiction | reflexivity]. }
  destruct is_negative; unfold marker, match_currency_at; apply Hbody; reflexivity.
Qed.

Lemma search_currency_unfold (s : string) :
  search_currency s
  = match match_currency_at s with
    | Some rest => Some (Str.take (Str.len s - Str.len rest) s)
    | None =>
        match s with
        | EmptyString => None
        | String _ s' => search_currency s'
        end
    end.
Proof. destruct s; reflexivity. Qed.

Lemma take_prefix (u v : string) : Str.take (Str.len (u +:+ v) - Str.len v) (u +:+ v) = u.
Proof.
  rewrite len_app. replace (Str.len u + Str.len v - Str.len v)%nat with (Str.len u) by lia.
  rewrite take_app by lia.
  induction u as [| c u IH]; [reflexivity |]. cbn [Str.len String.length Str.take].
  f_equal. exact IH.
Qed.

Lemma marker_not_space (is_negative : bool) (rest : string) :
  Re.starts_with_class Char.is_space (marker is_negative +:+ rest) = false.
Proof. destruct is_negative; reflexivity. Qed.

(** The link text of a cash-flow cell in thousands loses its unit. *)
Lemma search_currency_mil (is_negative : bool) (t : string) :
  numeric t -> t <> "" ->
  search_currency (marker is_negative +:+ t +:+ " mil")
  = Some (marker is_negative +:+ t +:+ " ").
Proof.
  intros Ht Hne. rewrite search_currency_unfold.
  rewrite (match_currency_at_marked is_negative t " mil" Ht Hne eq_refl).
  change (let s4 := Str.drop_while Char.is_space " mil" in
          Str.drop (Str.len (opt_char is_scale_letter s4)) s4) with "mil".
  f_equal.
  replace (marker is_negative +:+ t +:+ " mil")
    with ((marker is_negative +:+ t +:+ " ") +:+ "mil")
    by (rewrite !append_assoc; reflexivity).
  apply take_prefix.
Qed.

Lemma has_word_mil_suffix (u : string) :
  forall prev_word, has_word_mil prev_word (u +:+ " mil") = true.
Proof.
  induction u as [| c u IH]; intros prev_word.
  - destruct prev_word; reflexivity.
  - rewrite append_cons. cbn [has_word_mil]. rewrite IH. apply orb_true_r.
Qed.

Lemma strip_shown (is_negative : bool) (t : string) :
  numeric t -> t <> "" ->
  Str.strip (marker is_negative +:+ t +:+ " mil") = marker is_negative +:+ t +:+ " mil".
Proof.
  intros Ht Hne.
  rewrite (strip_marked (marker is_negative) t " mil" Ht Hne (marker_not_space _ _)).
  reflexivity.
Qed.

Lemma cash_cell_value (sec : section_id) (is_negative : bool) (t plain : string) :
  In sec [Cash12m; Cash3m; Experimental] -> numeric t -> t <> "" ->
  cell_value sec {| text := plain; link := Some (marker is_negative +:+ t +:+ " mil") |}
  = marker is_negative +:+ t +:+ " ".
Proof.
  intros Hsec Ht Hne.
  assert (Hvalue : default (Str.strip (marker is_negative +:+ t +:+ " mil"))
                     (search_currency (Str.strip (marker is_negative +:+ t +:+ " mil")))
                   = marker is_negative +:+ t +:+ " ").
  { rewrite (strip_shown is_negative t Ht Hne), (search_currency_mil is_negative t Ht Hne).
    reflexivity. }
  cbn [In] in Hsec. destruct Hsec as [<- | [<- | [<- | []]]]; exact Hvalue.
Qed.

Lemma balance_cell_value (is_negative : bool) (t plain : string) :
  numeric t -> t <> "" ->
  cell_value Balance {| text := plain; link := Some (marker is_negative +:+ t +:+ " mil") |}
  = marker is_negative +:+ t +:+ " mil".
Proof.
  intros Ht Hne. unfold cell_value. cbn [link]. cbv zeta.
  rewrite (strip_shown is_negative t Ht Hne).
  unfold looks_scaled.
  replace (marker is_negative +:+ t +:+ " mil")
    with ((marker is_negative +:+ t) +:+ " mil") at 1 2
    by (rewrite !append_assoc; reflexivity).
  rewrite has_word_mil_suffix, orb_true_r. reflexivity.
Qed.

Lemma detect_scale_numeric (t : string) : numeric t -> detect_scale t = (1, t).
Proof.
  intros Ht. unfold detect_scale. rewrite <- (append_nil_r t).
  rewrite !(contains_numeric _ t "") by (reflexivity || exact Ht).
  reflexivity.
Qed.

Lemma scaled_unit_dropped (is_negative : bool) (t : string) (number : spec_float) :
  numeric t -> parsed_number t = Some number ->
  clean_currency_with_scale_to_float (VStr (marker is_negative +:+ t +:+ " "))
  = Ok (VFloat (apply_sign is_negative (Float.round2 (Float.mul number (Float.of_Z 1))))).
Proof.
  intros Ht Hnum.
  assert (Hne : t <> "") by (intros ->; discriminate Hnum).
  unfold clean_currency_with_scale_to_float.
  replace (is_missing (VStr (marker is_negative +:+ t +:+ " "))) with false
    by (destruct is_negative; reflexivity).
  assert (Hbody : clean_currency_with_scale_body (VStr (marker is_negative +:+ t +:+ " "))
                  = clean_currency_with_scale_body (VStr (marker is_negative +:+ t +:+ ""))).
  { unfold clean_currency_with_scale_body. cbn [Py.str].
    rewrite !(strip_marked (marker is_negative) t _ Ht Hne (marker_not_space _ _)).
    reflexivity. }
  rewrite Hbody.
  rewrite (scaled_body_marked (marker is_negative) t "" "" is_negative Ht Hne
             (marker_not_space _ _) eq_refl)
    by (destruct is_negative; reflexivity).
  change (Str.upper "") with "". rewrite append_nil_r.
  unfold scaled_of_text. rewrite (detect_scale_numeric t Ht).
  unfold parsed_number in Hnum.
  destruct (Re.search_run Re.num_dot (brazilian_number t)) as [g |]; [| discriminate].
  unfold Py.float. rewrite Hnum. reflexivity.
Qed.

Lemma scaled_unit_kept (is_negative : bool) (t : string) (number : spec_float) :
  numeric t -> parsed_number t = Some number ->
  clean_currency_with_scale_to_float (VStr (marker is_negative +:+ t +:+ " mil"))
  = Ok (VFloat (apply_sign is_negative
                  (Float.round2 (Float.mul number (Float.of_Z 1000))))).
Proof.
  intros Ht Hnum.
  apply (scaled_marked (marker is_negative) t " mil" "mil" is_negative 1000 number Ht Hnum);
    try (destruct is_negative; reflexivity).
  right. left. reflexivity.
Qed.

(** X12.  In the cash-flow and CAPEX sections the unit word of a linked
    amount in thousands is not kept: the text [R$ t mil] (or
    [- R$ t mil]) is stored as [R$ t ] and cleans to the number [t]
    itself, while the balance section stores the whole text and cleans
    it to the number times 1000. *)
Theorem cash_flow_drops_thousands (sec : section_id) (is_negative : bool)
    (t plain : string) (number : spec_float) :
  In sec [Cash12m; Cash3m; Experimental] ->
  numeric t -> parsed_number t = Some number ->
  let value_cell := {| text := plain; link := Some (marker is_negative +:+ t +:+ " mil") |} in
  cell_value sec value_cell = marker is_negative +:+ t +:+ " "
  /\ clean_currency_with_scale_to_float (VStr (cell_value sec value_cell))
     = Ok (VFloat (apply_sign is_negative
                     (Float.round2 (Float.mul number (Float.of_Z 1)))))
  /\ cell_value Balance value_cell = marker is_negative +:+ t +:+ " mil"
  /\ clean_currency_with_scale_to_float (VStr (cell_value Balance value_cell))
     = Ok (VFloat (apply_sign is_negative
                     (Float.round2 (Float.mul number (Float.of_Z 1000))))).
Proof.
  intros Hsec Ht Hnum value_cell.
  assert (Hne : t <> "") by (intros ->; discriminate Hnum).
  unfold value_cell.
  rewrite (cash_cell_value sec is_negative t plain Hsec Ht Hne).
  rewrite (balance_cell_value is_negative t plain Ht Hne).
  split; [reflexivity |].
  split; [apply scaled_unit_dropped; assumption |].
  split; [reflexivity | apply scaled_unit_kept; assumption].
Qed.

Lemma cash_flow_drops_thousands_witness :
  clean_currency_with_scale_to_float
    (VStr (cell_value Cash12m
             {| text := "R$ 250,30 mil"; link := Some ("R$ " +:+ "250,30" +:+ " mil") |}))
  = Ok (VFloat (f64 "250.3"))
  /\ clean_currency_with_scale_to_float
       (VStr (cell_value Balance
                {| text := "R$ 250,30 mil"; link := Some ("R$ " +:+ "250,30" +:+ " mil") |}))
     = Ok (VFloat (f64 "250300")).
Proof.
  destruct (cash_flow_drops_thousands Cash12m false "250,30" "R$ 250,30 mil" (f64 "250.30"))
    as (_ & Hcash & _ & Hbalance).
  - left. reflexivity.
  - reflexivity.
  - vm_compute. reflexivity.
  - split.
    + etransitivity; [exact Hcash |]. vm_compute. reflexivity.
    + etransitivity; [exact Hbalance |]. vm_compute. reflexivity.
Defined.

End CashFlow.

(** ** Integers *)

Section Integers.

Import Stated DataCleaner.

Lemma replace_char_filter (a : ascii) (s : string) :
  Str.replace (String a "") "" s = Str.filter (fun c => negb (Ascii.eqb a c)) s.
Proof.
  unfold Str.replace. induction s as [| c s IH]; [reflexivity |].
  cbn [Str.replace_from Str.startswith Str.filter Str.len String.length Nat.sub].
  rewrite andb_true_r. destruct (Ascii.eqb a c); cbn [negb].
  - rewrite append_nil_l. exact IH.
  - rewrite IH. reflexivity.
Qed.

Lemma filter_filter (p q : ascii -> bool) (s : string) :
  (forall c, p c = true -> q c = true) ->
  Str.filter p (Str.filter q s) = Str.filter p s.
Proof.
  intros Hpq. induction s as [| c s IH]; [reflexivity |].
  cbn [Str.filter]. destruct (q c) eqn:Hq; cbn [Str.filter].
  - rewrite IH. reflexivity.
  - destruct (p c) eqn:Hp; [rewrite (Hpq c Hp) in Hq; discriminate | exact IH].
Qed.

Lemma filter_drop_while (p q : ascii -> bool) (s : string) :
  (forall c, q c = true -> p c = false) ->
  Str.filter p (Str.drop_while q s) = Str.filter p s.
Proof.
  intros Hqp. induction s as [| c s IH]; [reflexivity |].
  cbn [Str.drop_while]. destruct (q c) eqn:Hq; [| reflexivity].
  cbn [Str.filter]. rewrite (Hqp c Hq). exact IH.
Qed.

Lemma filter_rstrip (p q : ascii -> bool) (s : string) :
  (forall c, q c = true -> p c = false) ->
  Str.filter p (Str.rstrip_by q s) = Str.filter p s.
Proof.
  intros Hqp. induction s as [| c s IH]; [reflexivity |].
  cbn [Str.rstrip_by]. destruct (Str.rstrip_by q s) as [| r rs] eqn:E.
  - cbn [Str.filter] in IH |- *. rewrite <- IH.
    destruct (q c) eqn:Hq; cbn [Str.filter]; [rewrite (Hqp c Hq) |]; reflexivity.
  - cbn [Str.filter] in IH |- *. rewrite IH. reflexivity.
Qed.

Lemma digit_or_sign_cases (c : ascii) :
  digit_or_sign c = true ->
  Char.is_space c = false /\ Ascii.eqb "." c = false /\ Ascii.eqb "," c = false.
Proof.
  destruct c as [[] [] [] [] [] [] [] []]; vm_compute; intuition discriminate.
Qed.

(** Only the digits and the signs of the text matter. *)
Lemma clean_integer_text (s : string) :
  Str.filter digit_or_sign (Str.strip (Str.replace "," "" (Str.replace "." "" s)))
  = Str.filter digit_or_sign s.
Proof.
  unfold Str.strip, Str.lstrip_by.
  rewrite filter_rstrip, filter_drop_while, !replace_char_filter, !filter_filter;
    try reflexivity.
  - intros c Hc. apply digit_or_sign_cases in Hc as (_ & -> & _). reflexivity.
  - intros c Hc. apply digit_or_sign_cases in Hc as (_ & _ & ->). reflexivity.
  - intros c Hc. destruct (digit_or_sign c) eqn:Hd; [| reflexivity].
    apply digit_or_sign_cases in Hd as (Hs & _). congruence.
  - intros c Hc. destruct (digit_or_sign c) eqn:Hd; [| reflexivity].
    apply digit_or_sign_cases in Hd as (Hs & _). congruence.
Qed.

Lemma numeric_digit_or_sign (c : ascii) :
  Re.num_dot_comma c = true -> digit_or_sign c = Char.is_digit c.
Proof. destruct c as [[] [] [] [] [] [] [] []]; vm_compute; intuition discriminate. Qed.

Lemma filter_numeric (t : string) :
  numeric t -> Str.filter digit_or_sign t = Str.filter Char.is_digit t.
Proof.
  induction t as [| c t IH]; intros Ht; [reflexivity |].
  apply numeric_cons in Ht as [Hc Ht]. cbn [Str.filter].
  rewrite (numeric_digit_or_sign c Hc), (IH Ht). reflexivity.
Qed.

Lemma filter_all (p : ascii -> bool) (s : string) : Str.all p (Str.filter p s) = true.
Proof.
  induction s as [| c s IH]; [reflexivity |]. cbn [Str.filter].
  destruct (p c) eqn:Hp; [cbn [Str.all]; rewrite Hp |]; exact IH.
Qed.

Lemma take_while_all (p : ascii -> bool) (s : string) :
  Str.all p s = true -> Str.take_while p s = s.
Proof.
  induction s as [| c s IH]; [reflexivity |]. cbn [Str.all Str.take_while].
  intros H. apply andb_true_iff in H as [-> H]. rewrite (IH H). reflexivity.
Qed.

Lemma digit_not_sign (c : ascii) : Char.is_digit c = true -> Re.is_sign c = false.
Proof. destruct c as [[] [] [] [] [] [] [] []]; vm_compute; intuition discriminate. Qed.

Lemma split_sign_digit (c : ascii) (s : string) :
  Char.is_digit c = true -> Float.split_sign (String c s) = (false, String c s).
Proof. destruct c as [[] [] [] [] [] [] [] []]; vm_compute; intuition discriminate. Qed.

(** Digits with an optional minus in front are matched whole. *)
Lemma search_signed_digits (negative : bool) (ds : string) :
  Str.all Char.is_digit ds = true -> ds <> "" ->
  Re.search_signed Char.is_digit ((if negative then "-" else "") +:+ ds)
  = Some ((if negative then "-" else "") +:+ ds).
Proof.
  intros Hds Hne. destruct ds as [| c ds]; [contradiction |].
  pose proof Hds as Hall. cbn [Str.all] in Hds. apply andb_true_iff in Hds as [Hc Hds].
  destruct negative.
  - change ("-" +:+ String c ds) with (String "-" (String c ds)).
    cbn [Re.search_signed]. change (Re.is_sign "-") with true.
    cbn [Re.starts_with_class]. rewrite Hc. cbn [andb].
    rewrite (take_while_all _ _ Hall). reflexivity.
  - rewrite append_nil_l. cbn [Re.search_signed].
    rewrite (digit_not_sign c Hc), Hc. cbn [andb].
    rewrite (take_while_all _ _ Hall). reflexivity.
Qed.

(** [int] of such a match: the integer that the digits write, unless
    there are more of them than the limit. *)
Lemma int_signed_digits (negative : bool) (ds : string) :
  Str.all Char.is_digit ds = true -> ds <> "" ->
  Py.int ((if negative then "-" else "") +:+ ds)
  = if (Py.int_max_str_digits <? Str.len ds)%nat
    then Raise (ValueError (Py.int_limit_message (Str.len ds)))
    else Ok (if negative then - Dec.value ds else Dec.value ds).
Proof.
  intros Hds Hne. destruct ds as [| c ds]; [contradiction |].
  cbn [Str.all] in Hds. apply andb_true_iff in Hds as [Hc _].
  unfold Py.int. destruct negative.
  - change ("-" +:+ String c ds) with (String "-" (String c ds)).
    change (Float.split_sign (String "-" (String c ds))) with (true, String c ds).
    reflexivity.
  - rewrite append_nil_l, (split_sign_digit c ds Hc). reflexivity.
Qed.

Lemma clean_integer_signed (negative : bool) (t : string) :
  numeric t -> Str.filter Char.is_digit t <> "" ->
  clean_integer_body (VStr ((if negative then "-" else "") +:+ t))
  = if (Py.int_max_str_digits <? Str.len (Str.filter Char.is_digit t))%nat
    then Raise (ValueError (Py.int_limit_message (Str.len (Str.filter Char.is_digit t))))
    else Ok (VInt (if negative then - Dec.value (Str.filter Char.is_digit t)
                   else Dec.value (Str.filter Char.is_digit t))).
Proof.
  intros Ht Hne. unfold clean_integer_body. cbn [Py.str]. rewrite clean_integer_text.
  replace (Str.filter digit_or_sign ((if negative then "-" else "") +:+ t))
    with ((if negative then "-" else "") +:+ Str.filter Char.is_digit t).
  2: { destruct negative.
       - change ("-" +:+ t) with (String "-" t). cbn [Str.filter].
         change (digit_or_sign "-") with true. cbv iota.
         rewrite (filter_numeric t Ht). reflexivity.
       - rewrite !append_nil_l. symmetry. apply filter_numeric, Ht. }
  rewrite (search_signed_digits negative _ (filter_all _ t) Hne).
  rewrite (int_signed_digits negative _ (filter_all _ t) Hne).
  destruct (_ <? _)%nat; reflexivity.
Qed.

Lemma signed_not_missing (negative : bool) (t : string) :
  numeric t -> Str.filter Char.is_digit t <> "" ->
  is_missing (VStr ((if negative then "-" else "") +:+ t)) = false.
Proof.
  intros Ht Hne. destruct t as [| c t]; [contradiction |].
  apply numeric_cons in Ht as [Hc _]. destruct negative.
  - reflexivity.
  - rewrite append_nil_l. revert Hc.
    destruct c as [[] [] [] [] [] [] [] []]; vm_compute; intuition discriminate.
Qed.

(** X13.  [clean_integer] takes every dot and comma as a grouping mark:
    on digits, dots and commas (with or without a minus in front) it
    returns the integer written by the digits alone, so
    ["1.250.000.000"] gives 1250000000 and a decimal such as ["12,5"]
    gives 125; with more than 4300 digits [int] raises and the result
    is [None]. *)
Theorem clean_integer_reads_digits (negative : bool) (t : string) :
  numeric t -> Str.filter Char.is_digit t <> "" ->
  clean_integer (VStr ((if negative then "-" else "") +:+ t))
  = Ok (if (Py.int_max_str_digits <? Str.len (Str.filter Char.is_digit t))%nat
        then VNone
        else VInt (if negative then - Dec.value (Str.filter Char.is_digit t)
                   else Dec.value (Str.filter Char.is_digit t))).
Proof.
  intros Ht Hne. unfold clean_integer.
  rewrite (signed_not_missing negative t Ht Hne), (clean_integer_signed negative t Ht Hne).
  destruct (_ <? _)%nat; reflexivity.
Qed.

Lemma clean_integer_reads_digits_witness :
  clean_integer (VStr ("" +:+ "1.250.000.000")) = Ok (VInt 1250000000)
  /\ clean_integer (VStr ("-" +:+ "12,5")) = Ok (VInt (-125))
  /\ clean_integer (VStr ("" +:+ Str.repeat "1" 4301)) = Ok VNone
  /\ clean_integer (VStr ("-" +:+ Str.repeat "0" 4301)) = Ok VNone.
Proof.
  split; [| split; [| split]].
  - apply (clean_integer_reads_digits false "1.250.000.000"); [reflexivity | discriminate].
  - apply (clean_integer_reads_digits true "12,5"); [reflexivity | discriminate].
  - refine (eq_trans (clean_integer_reads_digits false (Str.repeat "1" 4301) _ _) _).
    + vm_compute. reflexivity.
    + vm_compute. discriminate.
    + vm_compute. reflexivity.
  - refine (eq_trans (clean_integer_reads_digits true (Str.repeat "0" 4301) _ _) _).
    + vm_compute. reflexivity.
    + vm_compute. discriminate.
    + vm_compute. reflexivity.
Defined.

Lemma of_digit_spec (d : Z) :
  0 <= d < 10 ->
  Char.digit_value (Char.of_digit d) = d /\ Char.is_digit (Char.of_digit d) = true.
Proof.
  intros Hd.
  assert (H : d = 0 \/ d = 1 \/ d = 2 \/ d = 3 \/ d = 4 \/ d = 5 \/ d = 6 \/ d = 7
              \/ d = 8 \/ d = 9) by lia.
  repeat (destruct H as [-> | H]; [split; reflexivity |]). subst d. split; reflexivity.
Qed.

(** The digits written for [n] read back as [n], after whatever was
    read before them. *)
Lemma digits_fuel_value (fuel : nat) :
  forall n acc, 0 <= n < 2 ^ Z.of_nat fuel ->
    exists k, 0 <= k /\ forall a,
      Dec.value_from a (Dec.digits_fuel fuel n acc) = Dec.value_from (a * 10 ^ k + n) acc.
Proof.
  induction fuel as [| fuel IH]; intros n acc Hn.
  - exists 0. split; [lia |]. intros a. cbn [Dec.digits_fuel].
    change (2 ^ Z.of_nat 0) with 1 in Hn. f_equal. lia.
  - cbn [Dec.digits_fuel]. cbv zeta.
    pose proof (Z.mod_pos_bound n 10 ltac:(lia)) as Hmod.
    destruct (of_digit_spec (n mod 10) Hmod) as [Hval _].
    destruct (n <? 10) eqn:Hlt.
    + apply Z.ltb_lt in Hlt. exists 1. split; [lia |]. intros a.
      cbn [Dec.value_from]. rewrite Hval, Z.mod_small by lia. f_equal. lia.
    + apply Z.ltb_ge in Hlt.
      destruct (IH (n / 10) (String (Char.of_digit (n mod 10)) acc)) as (k & Hk & Hrec).
      { split; [apply Z.div_pos; lia |].
        apply Z.div_lt_upper_bound; [lia |].
        rewrite Nat2Z.inj_succ, Z.pow_succ_r in Hn by lia. lia. }
      exists (k + 1). split; [lia |]. intros a. rewrite Hrec.
      cbn [Dec.value_from]. rewrite Hval. f_equal.
      rewrite Z.pow_add_r by lia. pose proof (Z.div_mod n 10 ltac:(lia)). lia.
Qed.

Lemma digits_fuel_digits (fuel : nat) :
  forall n acc, 0 <= n -> Str.all Char.is_digit acc = true ->
    Str.all Char.is_digit (Dec.digits_fuel fuel n acc) = true.
Proof.
  induction fuel as [| fuel IH]; intros n acc Hn Hacc; [exact Hacc |].
  cbn [Dec.digits_fuel]. cbv zeta.
  pose proof (Z.mod_pos_bound n 10 ltac:(lia)) as Hmod.
  destruct (of_digit_spec (n mod 10) Hmod) as [_ Hdig].
  assert (Hacc' : Str.all Char.is_digit (String (Char.of_digit (n mod 10)) acc) = true)
    by (cbn [Str.all]; rewrite Hdig; exact Hacc).
  destruct (n <? 10); [exact Hacc' |].
  apply IH; [apply Z.div_pos; lia | exact Hacc'].
Qed.

Lemma digits_fuel_not_empty (fuel : nat) :
  forall n acc, acc <> "" -> Dec.digits_fuel fuel n acc <> "".
Proof.
  induction fuel as [| fuel IH]; intros n acc Hacc; [exact Hacc |].
  cbn [Dec.digits_fuel]. cbv zeta. destruct (n <? 10); [discriminate |].
  apply IH. discriminate.
Qed.

(** [str(n)] for [n >= 0]: digits, at least one, that read back as
    [n]. *)
Lemma of_nonneg_spec (n : Z) :
  0 <= n ->
  Str.all Char.is_digit (Dec.of_nonneg n) = true
  /\ Dec.of_nonneg n <> ""
  /\ Dec.value (Dec.of_nonneg n) = n.
Proof.
  intros Hn. unfold Dec.of_nonneg. split; [apply digits_fuel_digits; [lia | reflexivity] |].
  split.
  - cbn [Dec.digits_fuel]. cbv zeta. destruct (n <? 10); [discriminate |].
    apply digits_fuel_not_empty. discriminate.
  - destruct (digits_fuel_value (S (Z.to_nat (Z.log2 n))) n "") as (k & _ & Hval).
    + split; [exact Hn |].
      rewrite Nat2Z.inj_succ, Z2Nat.id by apply Z.log2_nonneg.
      destruct (Z.eq_dec n 0) as [-> | Hne]; [reflexivity |].
      apply Z.log2_spec. lia.
    + unfold Dec.value. rewrite Hval. cbn [Dec.value_from]. lia.
Qed.

Lemma digits_fuel_length (fuel : nat) :
  forall (n : Z) (acc : string) (k : nat),
    0 <= n < 10 ^ Z.of_nat k -> (1 <= k)%nat ->
    (Str.len (Dec.digits_fuel fuel n acc) <= k + Str.len acc)%nat.
Proof.
  induction fuel as [| fuel IH]; intros n acc k Hn Hk; cbn [Dec.digits_fuel]; [lia |].
  cbv zeta. destruct (n <? 10) eqn:Hlt.
  - cbn [Str.len String.length]. unfold Str.len. lia.
  - apply Z.ltb_ge in Hlt.
    destruct k as [| [| k]]; [lia | change (10 ^ Z.of_nat 1) with 10 in Hn; lia |].
    specialize (IH (n / 10) (String (Char.of_digit (n mod 10)) acc) (S k)).
    cbn [Str.len String.length] in IH. unfold Str.len in *.
    assert (Hdiv : 0 <= n / 10 < 10 ^ Z.of_nat (S k)).
    { split; [apply Z.div_pos; lia |].
      apply Z.div_lt_upper_bound; [lia |].
      rewrite (Nat2Z.inj_succ (S k)), Z.pow_succ_r in Hn by lia. lia. }
    specialize (IH Hdiv ltac:(lia)). lia.
Qed.

(** [str(n)] for [0 <= n < 10 ^ w] has at most [w] digits. *)
Lemma of_nonneg_length (w : nat) (n : Z) :
  0 <= n < 10 ^ Z.of_nat w -> (1 <= w)%nat -> (Str.len (Dec.of_nonneg n) <= w)%nat.
Proof.
  intros Hn Hw. unfold Dec.of_nonneg.
  pose proof (digits_fuel_length (S (Z.to_nat (Z.log2 n))) n "" w Hn Hw) as H.
  cbn [Str.len String.length] in H. unfold Str.len in *. lia.
Qed.

Lemma all_digits_numeric (ds : string) : Str.all Char.is_digit ds = true -> numeric ds.
Proof.
  unfold numeric. induction ds as [| c ds IH]; [reflexivity |].
  cbn [Str.all]. intros H. apply andb_true_iff in H as [Hc H].
  rewrite (IH H), andb_true_r. unfold Re.num_dot_comma, Re.num_dot. rewrite Hc. reflexivity.
Qed.

Lemma filter_kept (p : ascii -> bool) (s : string) :
  Str.all p s = true -> Str.filter p s = s.
Proof.
  induction s as [| c s IH]; [reflexivity |]. cbn [Str.all Str.filter].
  intros H. apply andb_true_iff in H as [-> H]. rewrite (IH H). reflexivity.
Qed.

Lemma clean_integer_body_of_int (n : Z) :
  Z.abs n < 10 ^ Z.of_nat Py.int_max_str_digits ->
  clean_integer_body (VStr (Dec.of_Z n)) = Ok (VInt n).
Proof.
  intros Hn. unfold Dec.of_Z. destruct (n <? 0) eqn:Hneg.
  - apply Z.ltb_lt in Hneg.
    destruct (of_nonneg_spec (- n)) as (Hdig & Hne & Hval); [lia |].
    pose proof (of_nonneg_length Py.int_max_str_digits (- n) ltac:(lia)
                  ltac:(unfold Py.int_max_str_digits; lia)) as Hlen.
    apply Nat.ltb_ge in Hlen.
    change (String "-" (Dec.of_nonneg (- n))) with ("-" +:+ Dec.of_nonneg (- n)).
    rewrite (clean_integer_signed true (Dec.of_nonneg (- n)) (all_digits_numeric _ Hdig))
      by (rewrite (filter_kept _ _ Hdig); exact Hne).
    rewrite (filter_kept _ _ Hdig), Hlen, Hval. do 2 f_equal. lia.
  - apply Z.ltb_ge in Hneg.
    destruct (of_nonneg_spec n Hneg) as (Hdig & Hne & Hval).
    pose proof (of_nonneg_length Py.int_max_str_digits n ltac:(lia)
                  ltac:(unfold Py.int_max_str_digits; lia)) as Hlen.
    apply Nat.ltb_ge in Hlen.
    rewrite <- (append_nil_l (Dec.of_nonneg n)).
    rewrite (clean_integer_signed false (Dec.of_nonneg n) (all_digits_numeric _ Hdig))
      by (rewrite (filter_kept _ _ Hdig); exact Hne).
    rewrite (filter_kept _ _ Hdig), Hlen, Hval. reflexivity.
Qed.

(** X14.  [clean_integer] reads back what [str] writes: for every
    integer [n] of at most 4300 digits, which are the integers that
    [str] writes, the text [str(n)] cleans to [n], and such an integer,
    already clean, stays as it is, except that [0], being falsy, cleans
    to [None]. *)
Theorem clean_integer_round_trip (n : Z) :
  Z.abs n < 10 ^ Z.of_nat Py.int_max_str_digits ->
  clean_integer (VStr (Py.str (VInt n))) = Ok (VInt n)
  /\ clean_integer (VInt n) = Ok (if n =? 0 then VNone else VInt n).
Proof.
  intros Hlimit. split.
  - unfold clean_integer. cbn [Py.str].
    replace (is_missing (VStr (Dec.of_Z n))) with false.
    + rewrite (clean_integer_body_of_int n Hlimit). reflexivity.
    + unfold Dec.of_Z. destruct (n <? 0) eqn:Hneg.
      * symmetry. apply (signed_not_missing true (Dec.of_nonneg (- n))).
        -- apply all_digits_numeric, of_nonneg_spec. apply Z.ltb_lt in Hneg. lia.
        -- apply Z.ltb_lt in Hneg.
           destruct (of_nonneg_spec (- n)) as (Hdig & Hne & _); [lia |].
           rewrite (filter_kept _ _ Hdig). exact Hne.
      * symmetry. apply Z.ltb_ge in Hneg.
        destruct (of_nonneg_spec n Hneg) as (Hdig & Hne & _).
        apply (signed_not_missing false (Dec.of_nonneg n)).
        -- apply all_digits_numeric, Hdig.
        -- rewrite (filter_kept _ _ Hdig). exact Hne.
  - unfold clean_integer.
    change (is_missing (VInt n)) with (negb (negb (n =? 0)) || false || false).
    rewrite negb_involutive, !orb_false_r.
    destruct (n =? 0); [reflexivity |].
    change (clean_integer_body (VInt n)) with (clean_integer_body (VStr (Dec.of_Z n))).
    rewrite (clean_integer_body_of_int n Hlimit). reflexivity.
Qed.

Lemma clean_integer_round_trip_witness :
  clean_integer (VStr (Py.str (VInt (-1250)))) = Ok (VInt (-1250))
  /\ clean_integer (VInt (-1250)) = Ok (VInt (-1250)).
Proof.
  apply (clean_integer_round_trip (-1250)). vm_compute. reflexivity.
Defined.

End Integers.

(** ** The order of the records *)

Section OneByOne.

Import Scraping Driver.

Variable fetch : string -> result Page.document.
Variable completion_order : Z -> list string -> list string.

Hypothesis completion_is_rearrangement :
  forall b batch, Permutation (completion_order b batch) batch.

Lemma single_completion (i : Z) (batch : list string) :
  (List.length batch <= 1)%nat -> completion_order i batch = batch.
Proof.
  intros Hlen. pose proof (completion_is_rearrangement i batch) as Hperm.
  destruct batch as [| c [| c' batch]]; [| | cbn in Hlen; lia].
  - apply Permutation_nil. symmetry. exact Hperm.
  - apply Permutation_length_1_inv. symmetry. exact Hperm.
Qed.

Lemma run_batches_one_by_one (codes : list string) (fuel : nat) :
  forall (i : Z) (self : scraper),
    batch_size self = 1 -> 0 < max_workers self -> 0 <= i ->
    Z.of_nat (List.length codes) - i <= Z.of_nat fuel ->
    run_batches fetch completion_order codes
      (range_from fuel i (Z.of_nat (List.length codes)) 1) self
    = ({| max_workers := max_workers self;
          batch_size := batch_size self;
          stocks_data := stocks_data self
                         ++ List.map (scrape_stock_data fetch) (drop (Z.to_nat i) codes);
          requested := requested self ++ drop (Z.to_nat i) codes |}, Ok tt).
Proof.
  induction fuel as [| k IH]; intros i self Hbs Hw Hi Hfuel.
  - cbn [range_from run_batches]. rewrite drop_ge by lia. cbn [List.map].
    rewrite !app_nil_r. destruct self; reflexivity.
  - rewrite range_from_unfold.
    destruct (i <? Z.of_nat (List.length codes)) eqn:Hlt.
    + apply Z.ltb_lt in Hlt. cbn [run_batches]. rewrite Hbs.
      rewrite slice_batch by lia.
      unfold run_batch. replace (max_workers self <=? 0) with false by (symmetry; lia).
      rewrite single_completion by (rewrite length_take; lia).
      rewrite IH; cbn [max_workers batch_size stocks_data requested]; try lia.
      rewrite <- !app_assoc, <- List.map_app.
      replace (take (Z.to_nat 1) (drop (Z.to_nat i) codes)
               ++ drop (Z.to_nat (i + 1)) codes)
        with (drop (Z.to_nat i) codes); [rewrite Hbs; reflexivity |].
      rewrite Z2Nat.inj_add by lia. rewrite <- drop_drop. symmetry. apply take_drop.
    + apply Z.ltb_ge in Hlt. cbn [run_batches]. rewrite drop_ge by lia. cbn [List.map].
      rewrite !app_nil_r. destruct self; reflexivity.
Qed.

(** X15.  With a batch size of 1 the batched run is the sequential one:
    whatever the order in which threads complete, the scraper ends in
    the very state that [scrape_all_stocks_legacy] reaches, with the
    records in the order of the symbols.  This is the configuration of
    the sequential mode of [main]. *)
Theorem single_batches_keep_order (w : Z) (stock_codes : list string) :
  0 < w ->
  scrape_all_stocks fetch completion_order stock_codes (init w 1)
  = (scrape_all_stocks_legacy fetch stock_codes (init w 1), Ok tt).
Proof.
  intros Hw. unfold scrape_all_stocks, py_range. cbn [batch_size init].
  change (1 =? 0) with false. change (1 <? 0) with false. cbv iota.
  rewrite (run_batches_one_by_one stock_codes
             (Z.to_nat (Z.of_nat (List.length stock_codes))) 0 (init w 1))
    by (cbn [batch_size max_workers init]; lia).
  rewrite legacy_appends. reflexivity.
Qed.

End OneByOne.

Lemma single_batches_keep_order_witness :
  Scraping.stocks_data
    (fst (Scraping.scrape_all_stocks Sample.one_symbol (fun _ batch => rev batch)
            ["PETR4"; "ITUB4"] (Scraping.init 1 1)))
  = List.map (Scraping.scrape_stock_data Sample.one_symbol) ["PETR4"; "ITUB4"].
Proof.
  rewrite (single_batches_keep_order Sample.one_symbol (fun _ batch => rev batch)
             sample_rearrangement 1 ["PETR4"; "ITUB4"]) by lia.
  reflexivity.
Defined.

Section Blocks.

Import Scraping Driver.

Variable fetch : string -> result Page.document.
Variable completion_order : Z -> list string -> list string.

Hypothesis completion_is_rearrangement :
  forall b batch, Permutation (completion_order b batch) batch.

Lemma take_plus {A : Type} (a n : nat) :
  forall l : list A, take (a + n) l = take a l ++ take n (drop a l).
Proof.
  induction a as [| a IH]; intros l; [reflexivity |].
  destruct l as [| x l]; [rewrite drop_nil, !take_nil; reflexivity |].
  cbn [Nat.add take drop app]. rewrite IH. reflexivity.
Qed.

(** The records of a batch all come before those of the next batches. *)
Lemma run_batches_blocks (codes : list string) (fuel : nat) :
  forall (i : Z) (self : scraper),
    0 < batch_size self -> 0 < max_workers self -> 0 <= i ->
    Z.of_nat (List.length codes) - i <= Z.of_nat fuel ->
    exists records,
      run_batches fetch completion_order codes
        (range_from fuel i (Z.of_nat (List.length codes)) (batch_size self)) self
      = ({| max_workers := max_workers self;
            batch_size := batch_size self;
            stocks_data := stocks_data self ++ records;
            requested := requested self ++ drop (Z.to_nat i) codes |}, Ok tt)
      /\ List.length records = List.length (drop (Z.to_nat i) codes)
      /\ forall k : nat,
           Permutation (take (k * Z.to_nat (batch_size self)) records)
             (List.map (scrape_stock_data fetch)
                (take (k * Z.to_nat (batch_size self)) (drop (Z.to_nat i) codes))).
Proof.
  induction fuel as [| n IH]; intros i self Hbs Hw Hi Hfuel.
  - exists []. cbn [range_from run_batches]. rewrite drop_ge by lia.
    rewrite !app_nil_r. split; [destruct self; reflexivity |].
    split; [reflexivity |]. intros k. rewrite !take_nil. constructor.
  - rewrite range_from_unfold.
    destruct (i <? Z.of_nat (List.length codes)) eqn:Hlt.
    + apply Z.ltb_lt in Hlt.
      cbn [run_batches]. rewrite slice_batch by assumption.
      unfold run_batch. replace (max_workers self <=? 0) with false by (symmetry; lia).
      set (B := Z.to_nat (batch_size self)).
      set (rest_codes := drop (Z.to_nat i) codes).
      set (batch := take B rest_codes).
      set (done := List.map (scrape_stock_data fetch) (completion_order i batch)).
      set (self1 := {| max_workers := max_workers self;
                       batch_size := batch_size self;
                       stocks_data := stocks_data self ++ done;
                       requested := requested self ++ batch |}).
      destruct (IH (i + batch_size self) self1) as (rest & Hrun & Hlen & Hblocks);
        [ assumption | assumption | lia | lia |].
      change (batch_size self1) with (batch_size self) in Hrun, Hblocks.
      fold B in Hblocks.
      assert (Hnext : drop (Z.to_nat (i + batch_size self)) codes = drop B rest_codes).
      { unfold rest_codes, B. rewrite drop_drop. f_equal. lia. }
      rewrite Hnext in Hrun, Hlen, Hblocks.
      assert (Hdone : Permutation done (List.map (scrape_stock_data fetch) batch))
        by (apply Permutation_map, completion_is_rearrangement).
      assert (Hdone_len : List.length done = List.length batch).
      { rewrite (Permutation_length Hdone). apply length_map. }
      exists (done ++ rest). split; [| split].
      * rewrite Hrun. subst self1. cbn [max_workers batch_size stocks_data requested].
        rewrite <- !app_assoc. unfold batch. rewrite take_drop. reflexivity.
      * rewrite length_app, Hlen, Hdone_len. unfold batch.
        rewrite <- (take_drop B rest_codes) at 3. rewrite length_app. reflexivity.
      * intros k. destruct k as [| k]; [constructor |].
        replace (S k * B)%nat with (B + k * B)%nat by lia.
        destruct (Nat.le_gt_cases B (List.length rest_codes)) as [Hfull | Hlast].
        -- assert (HB : List.length batch = B) by (unfold batch; rewrite length_take; lia).
           assert (Htake : take B (done ++ rest) = done).
           { rewrite <- HB, <- Hdone_len. apply take_app_length. }
           assert (Hdrop : drop B (done ++ rest) = rest).
           { rewrite <- HB, <- Hdone_len. apply drop_app_length. }
           rewrite !take_plus, Htake, Hdrop. fold batch. rewrite List.map_app.
           apply Permutation_app; [exact Hdone | apply Hblocks].
        -- assert (Hrest : rest = []).
           { apply length_zero_iff_nil. rewrite Hlen, length_drop. lia. }
           rewrite Hrest, app_nil_r.
           assert (Hbatch : batch = rest_codes) by (unfold batch; apply take_ge; lia).
           rewrite !take_ge by (rewrite ?Hdone_len, ?Hbatch; lia).
           rewrite <- Hbatch. exact Hdone.
    + apply Z.ltb_ge in Hlt. exists []. cbn [run_batches].
      rewrite drop_ge by lia. rewrite !app_nil_r.
      split; [destruct self; reflexivity |].
      split; [reflexivity |]. intros k. rewrite !take_nil. constructor.
Qed.

(** X16.  The records of a batch all come before those of the later
    batches: after a run that ends normally, for every [k] the first
    [k * batch_size] records are the records of the first
    [k * batch_size] symbols, in some order. *)
Theorem batches_keep_their_place (w b : Z) (stock_codes : list string) :
  0 < w -> 0 < b ->
  exists self',
    scrape_all_stocks fetch completion_order stock_codes (init w b) = (self', Ok tt)
    /\ forall k : nat,
         Permutation (take (k * Z.to_nat b) (stocks_data self'))
           (List.map (scrape_stock_data fetch) (take (k * Z.to_nat b) stock_codes)).
Proof.
  intros Hw Hb. unfold scrape_all_stocks, py_range. cbn [batch_size init].
  replace (b =? 0) with false by (symmetry; lia).
  replace (b <? 0) with false by (symmetry; lia).
  destruct (run_batches_blocks stock_codes
              (Z.to_nat (Z.of_nat (List.length stock_codes))) 0 (init w b))
    as (records & Hrun & _ & Hblocks); [assumption | assumption | lia | lia |].
  eexists. split; [exact Hrun |]. exact Hblocks.
Qed.

End Blocks.

Lemma batches_keep_their_place_witness :
  exists self',
    Scraping.scrape_all_stocks Sample.one_symbol (fun _ batch => rev batch)
      ["PETR4"; "ITUB4"; "VALE3"] (Scraping.init 2 2) = (self', Ok tt)
    /\ forall k : nat,
         Permutation (take (k * Z.to_nat 2) (Scraping.stocks_data self'))
           (List.map (Scraping.scrape_stock_data Sample.one_symbol)
              (take (k * Z.to_nat 2) ["PETR4"; "ITUB4"; "VALE3"])).
Proof.
  apply (batches_keep_their_place Sample.one_symbol (fun _ batch => rev batch)
           sample_rearrangement 2 2 ["PETR4"; "ITUB4"; "VALE3"]); lia.
Defined.

(** ** Dates *)

Section Dates.

Import Stated DataCleaner Strptime.

Lemma len_repeat (c : ascii) (n : nat) : Str.len (Str.repeat c n) = n.
Proof. induction n as [| n IH]; [reflexivity |]. cbn. unfold Str.len in IH. rewrite IH. reflexivity. Qed.

Lemma all_app (p : ascii -> bool) (a b : string) :
  Str.all p (a +:+ b) = Str.all p a && Str.all p b.
Proof.
  induction a as [| c a IH]; [reflexivity |].
  rewrite append_cons. cbn [Str.all]. rewrite IH. apply andb_assoc.
Qed.

Lemma all_repeat_zero (n : nat) : Str.all Char.is_digit (Str.repeat "0" n) = true.
Proof. induction n as [| n IH]; [reflexivity | exact IH]. Qed.

Lemma value_repeat_zero (n : nat) (s : string) :
  Dec.value (Str.repeat "0" n +:+ s) = Dec.value s.
Proof. induction n as [| n IH]; [reflexivity | exact IH]. Qed.

(** A number below [10 ^ w] padded to [w] digits: [w] digits that read
    back as the number. *)
Lemma padded_spec (w : nat) (n : Z) :
  0 <= n < 10 ^ Z.of_nat w -> (1 <= w)%nat ->
  Str.len (Dec.padded w n) = w
  /\ Str.all Char.is_digit (Dec.padded w n) = true
  /\ Dec.value (Dec.padded w n) = n.
Proof.
  intros Hn Hw. unfold Dec.padded. cbv zeta.
  destruct (of_nonneg_spec n) as (Hdig & _ & Hval); [lia |].
  assert (Hlen : (Str.len (Dec.of_nonneg n) <= w)%nat).
  { unfold Dec.of_nonneg.
    pose proof (digits_fuel_length (S (Z.to_nat (Z.log2 n))) n "" w Hn Hw) as H.
    cbn [Str.len String.length] in H. unfold Str.len in *. lia. }
  split; [rewrite len_app, len_repeat; lia |].
  split; [rewrite all_app, all_repeat_zero, Hdig; reflexivity |].
  rewrite value_repeat_zero. exact Hval.
Qed.

(** A date of the calendar. *)
Lemma strptime_valid (s : string) (fmt : list directive) (d : date) :
  strptime s fmt = Some d ->
  1 <= year d <= 9999 /\ 1 <= month d <= 12
  /\ 1 <= day d <= days_in_month (year d) (month d).
Proof.
  unfold strptime. destruct (match_format fmt s _) as [[f [| c r]] |]; try discriminate.
  destruct (_ && _) eqn:Hcheck; [| discriminate]. intros [= <-].
  repeat (apply andb_true_iff in Hcheck as [Hcheck ?]).
  repeat match goal with H : (_ <=? _) = true |- _ => apply Z.leb_le in H end.
  lia.
Qed.

Lemma days_in_month_bound (y m : Z) : days_in_month y m <= 31.
Proof.
  unfold days_in_month.
  destruct (m =? 2); [destruct (is_leap y); lia |].
  destruct (_ || _); lia.
Qed.

Lemma day_parse (n : Z) (r : string) :
  1 <= n <= 31 ->
  exists others, alternatives Day (Dec.padded 2 n +:+ r) = (n, r) :: others.
Proof.
  intros Hn.
  assert (H : n = 1 \/ n = 2 \/ n = 3 \/ n = 4 \/ n = 5 \/ n = 6 \/ n = 7 \/ n = 8
              \/ n = 9 \/ n = 10 \/ n = 11 \/ n = 12 \/ n = 13 \/ n = 14 \/ n = 15
              \/ n = 16 \/ n = 17 \/ n = 18 \/ n = 19 \/ n = 20 \/ n = 21 \/ n = 22
              \/ n = 23 \/ n = 24 \/ n = 25 \/ n = 26 \/ n = 27 \/ n = 28 \/ n = 29
              \/ n = 30 \/ n = 31) by lia.
  repeat (destruct H as [-> | H]; [eexists; reflexivity |]).
  subst n. eexists. reflexivity.
Qed.

Lemma month_parse (n : Z) (r : string) :
  1 <= n <= 12 ->
  exists others, alternatives Month (Dec.padded 2 n +:+ r) = (n, r) :: others.
Proof.
  intros Hn.
  assert (H : n = 1 \/ n = 2 \/ n = 3 \/ n = 4 \/ n = 5 \/ n = 6 \/ n = 7 \/ n = 8
              \/ n = 9 \/ n = 10 \/ n = 11 \/ n = 12) by lia.
  repeat (destruct H as [-> | H]; [eexists; reflexivity |]).
  subst n. eexists. reflexivity.
Qed.

Lemma digit_value_bound (a : ascii) :
  Char.is_digit a = true -> 0 <= Char.digit_value a <= 9.
Proof.
  destruct a as [[] [] [] [] [] [] [] []]; vm_compute;
    intuition (discriminate || congruence).
Qed.

Lemma take_len_app (u v : string) : Str.take (Str.len u) (u +:+ v) = u.
Proof.
  induction u as [| c u IH]; [destruct v; reflexivity |].
  rewrite append_cons. cbn [Str.len String.length Str.take]. f_equal. exact IH.
Qed.

Lemma drop_len_app (u v : string) : Str.drop (Str.len u) (u +:+ v) = v.
Proof.
  induction u as [| c u IH]; [reflexivity |].
  rewrite append_cons. cbn [Str.len String.length Str.drop]. exact IH.
Qed.

Lemma year_parse (y : Z) (r : string) :
  0 <= y <= 9999 -> alternatives Year4 (Dec.padded 4 y +:+ r) = [(y, r)].
Proof.
  intros Hy. destruct (padded_spec 4 y) as (Hlen & Hdig & Hval); [lia | lia |].
  pose proof (take_len_app (Dec.padded 4 y) r) as Htake.
  pose proof (drop_len_app (Dec.padded 4 y) r) as Hdrop.
  rewrite Hlen in Htake, Hdrop.
  unfold alternatives. cbv zeta. rewrite Htake, Hdrop, Hlen, Hdig, Hval. reflexivity.
Qed.

(** One directive matched by its first alternative. *)
Lemma match_step (dir : directive) (fmt : list directive) (s r : string) (v : Z)
    (others : list (Z * string)) (f : date) (res : date * string) :
  alternatives dir s = (v, r) :: others ->
  match_format fmt r (store dir v f) = Some res ->
  match_format (dir :: fmt) s f = Some res.
Proof.
  intros Halt Hrest. cbn [match_format]. rewrite Halt. cbn [find_map]. rewrite Hrest.
  reflexivity.
Qed.

(** A year of four digits is written as it is. *)
Lemma padded_year (y : Z) : 1000 <= y <= 9999 -> Dec.padded 4 y = Dec.of_nonneg y.
Proof.
  intros Hy. unfold Dec.padded. cbv zeta.
  assert (Hlen : (4 <= Str.len (Dec.of_nonneg y))%nat).
  { destruct (of_nonneg_spec y ltac:(lia)) as (Hdig & _ & Hval).
    destruct (Dec.of_nonneg y) as [| a [| b [| c [| e s]]]] eqn:E;
      [| | | | cbn; lia]; exfalso.
    - cbn in Hval. lia.
    - cbn [Str.all] in Hdig. rewrite andb_true_r in Hdig.
      pose proof (digit_value_bound a Hdig). unfold Dec.value in Hval.
      cbn [Dec.value_from] in Hval. lia.
    - cbn [Str.all] in Hdig. rewrite andb_true_r in Hdig.
      apply andb_true_iff in Hdig as [Ha Hb].
      pose proof (digit_value_bound a Ha). pose proof (digit_value_bound b Hb).
      unfold Dec.value in Hval. cbn [Dec.value_from] in Hval. lia.
    - cbn [Str.all] in Hdig. rewrite andb_true_r in Hdig.
      apply andb_true_iff in Hdig as [Ha Hdig]. apply andb_true_iff in Hdig as [Hb Hc].
      pose proof (digit_value_bound a Ha). pose proof (digit_value_bound b Hb).
      pose proof (digit_value_bound c Hc).
      unfold Dec.value in Hval. cbn [Dec.value_from] in Hval. lia. }
  replace (4 - Str.len (Dec.of_nonneg y))%nat with 0%nat by lia. reflexivity.
Qed.

(** Reading back what [strftime] writes, for a year of four digits. *)
Lemma strptime_strftime (d : date) :
  1000 <= year d <= 9999 -> 1 <= month d <= 12 ->
  1 <= day d <= days_in_month (year d) (month d) ->
  strptime (strftime_dmY d) fmt_dmY_slash = Some d.
Proof.
  destruct d as [y m n]. cbn [year month day]. intros Hy Hm Hn.
  pose proof (days_in_month_bound y m) as Hbound.
  unfold strptime, strftime_dmY, fmt_dmY_slash. cbn [year month day].
  rewrite <- (padded_year y Hy).
  destruct (day_parse n ("/" +:+ Dec.padded 2 m +:+ "/" +:+ Dec.padded 4 y))
    as (o1 & Hday); [lia |].
  destruct (month_parse m ("/" +:+ Dec.padded 4 y)) as (o2 & Hmonth); [lia |].
  pose proof (year_parse y "" ltac:(lia)) as Hyear. rewrite append_nil_r in Hyear.
  assert (Hmatch : match_format [Day; Lit "/"; Month; Lit "/"; Year4]
                     (Dec.padded 2 n +:+ "/" +:+ Dec.padded 2 m +:+ "/" +:+ Dec.padded 4 y)
                     {| year := 1900; month := 1; day := 1 |}
                   = Some ({| year := y; month := m; day := n |}, "")).
  { eapply match_step; [exact Hday |].
    eapply (match_step (Lit "/")); [reflexivity |].
    eapply match_step; [exact Hmonth |].
    eapply (match_step (Lit "/")); [reflexivity |].
    eapply match_step; [exact Hyear |].
    reflexivity. }
  rewrite Hmatch. cbn [year month day].
  replace ((1 <=? y) && (y <=? 9999) && (1 <=? m) && (m <=? 12) && (1 <=? n)
           && (n <=? days_in_month y m)) with true; [reflexivity |].
  symmetry. repeat (apply andb_true_iff; split); apply Z.leb_le; lia.
Qed.

Lemma find_map_some {A B : Type} (f : A -> option B) (l : list A) (b : B) :
  find_map f l = Some b -> exists a, In a l /\ f a = Some b.
Proof.
  induction l as [| a l IH]; [discriminate |]. cbn [find_map].
  destruct (f a) as [b' |] eqn:Hfa.
  - intros [= <-]. exists a. split; [left; reflexivity | exact Hfa].
  - intros H. destruct (IH H) as (a' & Hin & Ha'). exists a'. split; [right |]; assumption.
Qed.

Lemma digit_head_not_missing (a : ascii) (s : string) :
  Char.is_digit a = true -> is_missing (VStr (String a s)) = false.
Proof.
  destruct a as [[] [] [] [] [] [] [] []]; vm_compute; intuition discriminate.
Qed.

Lemma digit_not_space (a : ascii) : Char.is_digit a = true -> Char.is_space a = false.
Proof.
  destruct a as [[] [] [] [] [] [] [] []]; vm_compute; intuition discriminate.
Qed.

Lemma padded_head (w : nat) (n : Z) :
  0 <= n < 10 ^ Z.of_nat w -> (1 <= w)%nat ->
  exists a s, Dec.padded w n = String a s /\ Char.is_digit a = true.
Proof.
  intros Hn Hw. destruct (padded_spec w n Hn Hw) as (Hlen & Hdig & _).
  destruct (Dec.padded w n) as [| a s]; [cbn in Hlen; lia |].
  cbn [Str.all] in Hdig. apply andb_true_iff in Hdig as [Ha _]. eauto.
Qed.

(** Text that starts with a padded number and ends with one is not
    changed by [strip]. *)
Lemma strip_between_numbers (w1 w2 : nat) (n1 n2 : Z) (mid : string) :
  0 <= n1 < 10 ^ Z.of_nat w1 -> (1 <= w1)%nat ->
  0 <= n2 < 10 ^ Z.of_nat w2 -> (1 <= w2)%nat ->
  Str.strip (Dec.padded w1 n1 +:+ mid +:+ Dec.padded w2 n2)
  = Dec.padded w1 n1 +:+ mid +:+ Dec.padded w2 n2.
Proof.
  intros Hn1 Hw1 Hn2 Hw2.
  destruct (padded_head w1 n1 Hn1 Hw1) as (a & s & Hp & Ha).
  destruct (padded_spec w2 n2 Hn2 Hw2) as (Hlen & Hdig & _).
  pose proof (strip_marked (Dec.padded w1 n1 +:+ mid) (Dec.padded w2 n2) ""
                (all_digits_numeric _ Hdig)) as Hstrip.
  rewrite !append_assoc, !append_nil_r in Hstrip. apply Hstrip.
  - intros Hempty. rewrite Hempty in Hlen. cbn in Hlen. lia.
  - rewrite Hp, append_cons. cbn [Re.starts_with_class]. apply digit_not_space, Ha.
Qed.

Lemma strftime_not_missing (d : date) :
  1 <= day d <= 31 -> is_missing (VStr (strftime_dmY d)) = false.
Proof.
  intros Hd. unfold strftime_dmY.
  destruct (padded_head 2 (day d)) as (a & s & -> & Ha); [change (10 ^ Z.of_nat 2) with 100; lia | lia |].
  rewrite append_cons. apply digit_head_not_missing, Ha.
Qed.

Lemma strip_strftime (d : date) :
  1000 <= year d <= 9999 -> 1 <= day d <= 31 ->
  Str.strip (strftime_dmY d) = strftime_dmY d.
Proof.
  intros Hy Hd. unfold strftime_dmY. rewrite <- (padded_year (year d) Hy).
  pose proof (strip_between_numbers 2 4 (day d) (year d)
                ("/" +:+ Dec.padded 2 (month d) +:+ "/")) as H.
  rewrite !append_assoc in H. apply H; lia.
Qed.

Lemma match_format_cons (dir : directive) (fmt : list directive) (s : string) (f : date) :
  match_format (dir :: fmt) s f
  = find_map (fun '(v, r) => match_format fmt r (store dir v f)) (alternatives dir s).
Proof. reflexivity. Qed.

Lemma slash_after_digit (x : ascii) (s : string) (fmt : list directive) (f : date) :
  Char.is_digit x = true -> match_format (Lit "/" :: fmt) (String x s) f = None.
Proof.
  intros Hx. rewrite match_format_cons. cbn [alternatives].
  replace (Ascii.eqb x "/") with false; [reflexivity |].
  revert Hx. destruct x as [[] [] [] [] [] [] [] []]; vm_compute; intuition discriminate.
Qed.

(** Text that starts with three digits has no day followed by a
    slash. *)
Lemma day_slash_fails (a b c : ascii) (r : string) (fmt : list directive) (f : date) :
  Char.is_digit b = true -> Char.is_digit c = true ->
  match_format (Day :: Lit "/" :: fmt) (String a (String b (String c r))) f = None.
Proof.
  intros Hb Hc. rewrite match_format_cons. cbn [alternatives].
  destruct (Ascii.eqb a "3" && Char.in_range 48 49 b),
    (Char.in_range 49 50 a && Char.is_digit b),
    (Ascii.eqb a "0" && Char.in_range 49 57 b),
    (Char.in_range 49 57 a),
    (Ascii.eqb a " " && Char.in_range 49 57 b);
    cbn [app find_map]; rewrite ?(slash_after_digit c), ?(slash_after_digit b) by assumption;
    reflexivity.
Qed.

Lemma iso_parse (y m n : Z) :
  1 <= y <= 9999 -> 1 <= m <= 12 -> 1 <= n <= days_in_month y m ->
  first_date (Dec.padded 4 y +:+ "-" +:+ Dec.padded 2 m +:+ "-" +:+ Dec.padded 2 n)
  = Some {| year := y; month := m; day := n |}.
Proof.
  intros Hy Hm Hn. pose proof (days_in_month_bound y m) as Hbound.
  set (rest := "-" +:+ Dec.padded 2 m +:+ "-" +:+ Dec.padded 2 n).
  assert (Hfirst : strptime (Dec.padded 4 y +:+ rest) fmt_dmY_slash = None).
  { destruct (padded_spec 4 y) as (Hlen & Hdig & _); [lia | lia |].
    destruct (Dec.padded 4 y) as [| a [| b [| c p]]]; try (cbn in Hlen; lia).
    cbn [Str.all] in Hdig.
    apply andb_true_iff in Hdig as [_ Hdig]. apply andb_true_iff in Hdig as [Hb Hdig].
    apply andb_true_iff in Hdig as [Hc _].
    unfold strptime, fmt_dmY_slash. rewrite !append_cons.
    rewrite (day_slash_fails a b c _ _ _ Hb Hc). reflexivity. }
  assert (Hsecond : strptime (Dec.padded 4 y +:+ rest) fmt_Ymd_dash
                    = Some {| year := y; month := m; day := n |}).
  { unfold strptime, fmt_Ymd_dash, rest.
    pose proof (year_parse y ("-" +:+ Dec.padded 2 m +:+ "-" +:+ Dec.padded 2 n)
                  ltac:(lia)) as Hyear.
    destruct (month_parse m ("-" +:+ Dec.padded 2 n)) as (o2 & Hmonth); [lia |].
    destruct (day_parse n "") as (o1 & Hday); [lia |]. rewrite append_nil_r in Hday.
    assert (Hmatch : match_format [Year4; Lit "-"; Month; Lit "-"; Day]
                       (Dec.padded 4 y +:+ "-" +:+ Dec.padded 2 m +:+ "-" +:+ Dec.padded 2 n)
                       {| year := 1900; month := 1; day := 1 |}
                     = Some ({| year := y; month := m; day := n |}, "")).
    { eapply match_step; [exact Hyear |].
      eapply (match_step (Lit "-")); [reflexivity |].
      eapply match_step; [exact Hmonth |].
      eapply (match_step (Lit "-")); [reflexivity |].
      eapply match_step; [exact Hday |].
      reflexivity. }
    rewrite Hmatch. cbn [year month day].
    replace ((1 <=? y) && (y <=? 9999) && (1 <=? m) && (m <=? 12) && (1 <=? n)
             && (n <=? days_in_month y m)) with true; [reflexivity |].
    symmetry. repeat (apply andb_true_iff; split); apply Z.leb_le; lia. }
  unfold first_date, date_formats. cbn [find_map]. rewrite Hfirst, Hsecond. reflexivity.
Qed.

(** X17.  An ISO date [YYYY-MM-DD] of the calendar, with a year from
    1000 to 9999, is rewritten as [DD/MM/YYYY]: the first format fails
    on it and the second reads year, month and day. *)
Theorem iso_date_converted (y m n : Z) :
  1000 <= y <= 9999 -> 1 <= m <= 12 -> 1 <= n <= days_in_month y m ->
  clean_date_to_format
    (VStr (Dec.of_nonneg y +:+ "-" +:+ Dec.padded 2 m +:+ "-" +:+ Dec.padded 2 n))
  = Ok (VStr (Dec.padded 2 n +:+ "/" +:+ Dec.padded 2 m +:+ "/" +:+ Dec.of_nonneg y)).
Proof.
  intros Hy Hm Hn. pose proof (days_in_month_bound y m) as Hbound.
  rewrite <- (padded_year y Hy) at 1. unfold clean_date_to_format.
  destruct (padded_head 4 y) as (a & s & Hhead & Ha);
    [change (10 ^ Z.of_nat 4) with 10000; lia | lia |].
  replace (is_missing (VStr (Dec.padded 4 y +:+ "-" +:+ Dec.padded 2 m +:+ "-"
                             +:+ Dec.padded 2 n))) with false
    by (rewrite Hhead, append_cons; symmetry; apply digit_head_not_missing, Ha).
  rewrite clean_date_body_returns. cbn [Py.str try_except].
  pose proof (strip_between_numbers 4 2 y n ("-" +:+ Dec.padded 2 m +:+ "-")) as Hstrip.
  rewrite !append_assoc in Hstrip. rewrite Hstrip by (change (10 ^ Z.of_nat 4) with 10000; change (10 ^ Z.of_nat 2) with 100; lia).
  rewrite (iso_parse y m n) by lia. reflexivity.
Qed.

Lemma iso_date_converted_witness :
  clean_date_to_format (VStr "2024-02-29") = Ok (VStr "29/02/2024").
Proof.
  apply (iso_date_converted 2024 2 29); [lia | lia | vm_compute; split; discriminate].
Defined.

(** X18.  The date cleaner is idempotent on dates with a year of four
    digits: when the date read from a value has a year from 1000 on (or
    no date is read), whatever the cleaner returns for the value it
    returns again when applied to that result ([None] stays [None],
    text that no format reads stays as it is, and a date written as
    [DD/MM/YYYY] is read back by the first format as the same date).
    A year below 1000 is written without leading zeros, and then the
    result can change when cleaned again: ["01/01/0050"] gives
    ["01/01/50"], which gives ["01/01/2050"]. *)
Theorem clean_date_idempotent :
  (forall value cleaned : pyval,
     (forall d, first_date (Str.strip (Py.str value)) = Some d -> 1000 <= year d) ->
     clean_date_to_format value = Ok cleaned ->
     clean_date_to_format cleaned = Ok cleaned)
  /\ clean_date_to_format (VStr "01/01/0050") = Ok (VStr "01/01/50")
  /\ clean_date_to_format (VStr "01/01/50") = Ok (VStr "01/01/2050").
Proof.
  split; [| split; vm_compute; reflexivity].
  intros value cleaned Hyear.
  unfold clean_date_to_format at 1.
  destruct (is_missing value) eqn:Hmissing; [intros [= <-]; reflexivity |].
  rewrite clean_date_body_returns. cbn [try_except].
  destruct (first_date (Str.strip (Py.str value))) as [d |] eqn:Hdate; intros [= <-].
  - specialize (Hyear d eq_refl).
    apply find_map_some in Hdate as (fmt & _ & Hparse).
    apply strptime_valid in Hparse as (Hy & Hm & Hd).
    pose proof (days_in_month_bound (year d) (month d)) as Hbound.
    unfold clean_date_to_format.
    rewrite strftime_not_missing by lia.
    rewrite clean_date_body_returns. cbn [Py.str try_except].
    rewrite strip_strftime by lia.
    unfold first_date, date_formats. cbn [find_map].
    rewrite (strptime_strftime d ltac:(lia) Hm Hd). reflexivity.
  - unfold clean_date_to_format. rewrite Hmissing, clean_date_body_returns, Hdate.
    reflexivity.
Qed.

Lemma clean_date_idempotent_witness :
  clean_date_to_format (VStr "15/03/2024") = Ok (VStr "15/03/2024").
Proof.
  apply (proj1 clean_date_idempotent (VStr " 2024-3-15 ")).
  - intros d Hd. vm_compute in Hd. injection Hd as <-. cbn [year]. lia.
  - vm_compute. reflexivity.
Defined.

End Dates.

(** ** A scraper left without a session *)

Section Connection.

Import Scraping Driver Session.

Variable completion_order : Z -> list string -> list string.

Hypothesis completion_is_rearrangement :
  forall b batch, Permutation (completion_order b batch) batch.

Lemma filter_none {A : Type} (f : A -> bool) (l : list A) :
  Forall (fun a => f a = false) l -> List.filter f l = [].
Proof.
  induction 1 as [| a l Ha _ IH]; [reflexivity |].
  cbn [List.filter]. rewrite Ha. exact IH.
Qed.

(** X19.  A scraper created with Selenium has no requests session, and
    a driver that cannot be started only switches the flag: from then
    on every page request fails on the missing session.  The table
    gives no codes, so the run scrapes the codes of the spreadsheet or
    the ten examples, and every record is the symbol with that error:
    the summary counts no success. *)
Theorem driver_failure_fails_every_symbol
    (code_links : result (list (option string)))
    (search : result (option (list Codes.table))) (no_session : exn)
    (site : string -> result Page.document) (excel_codes : list string) (w b : Z) :
  0 < w -> 0 < b ->
  let stock_codes := get_stock_codes [] excel_codes in
  let total := List.length stock_codes in
  exists scraper',
    Session.run false code_links search no_session site completion_order excel_codes
      (Session.init true true) (Scraping.init w b)
    = (scraper', Some (total, 0%nat, total))
    /\ Permutation (stocks_data scraper')
         (List.map (fun code => [(code_key, VStr code);
                                 (error_key, VStr (exn_message no_session))])
            stock_codes).
Proof.
  intros Hw Hb. cbv zeta. unfold Session.run.
  change (get_stock_codes_from_table false code_links search no_session
            (Session.init true true))
    with ({| use_selenium := false; has_session := false |}, @nil string).
  cbv iota. unfold Driver.run.
  set (stock_codes := get_stock_codes [] excel_codes).
  set (total := List.length stock_codes).
  set (fetch := request {| use_selenium := false; has_session := false |} no_session site).
  assert (Hfetch : forall code,
             scrape_stock_data fetch code
             = [(code_key, VStr code); (error_key, VStr (exn_message no_session))]).
  { intros code. apply scrape_failed. reflexivity. }
  assert (Hcodes : stock_codes <> []).
  { unfold stock_codes, get_stock_codes. destruct excel_codes; discriminate. }
  destruct (batched_run fetch completion_order completion_is_rearrangement w b stock_codes
              Hw Hb) as (records & Hrun & Hperm).
  rewrite (List.map_ext _ _ Hfetch) in Hperm.
  rewrite Hrun.
  assert (Hlen : List.length records = total).
  { rewrite (Permutation_length Hperm). apply length_map. }
  clearbody total. destruct stock_codes as [| c cs]; [contradiction |].
  assert (Hnone : List.filter succeeded records = []).
  { apply filter_none. apply List.Forall_forall. intros r Hr.
    apply (Permutation_in _ Hperm) in Hr. apply in_map_iff in Hr as (code & <- & _).
    reflexivity. }
  eexists. split.
  - f_equal. unfold show_summary. cbn [stocks_data].
    destruct records as [| r rs];
      [apply Permutation_nil in Hperm; discriminate Hperm |].
    rewrite Hnone, Hlen. cbn [List.length]. rewrite Nat.sub_0_r. reflexivity.
  - exact Hperm.
Qed.

End Connection.

Lemma driver_failure_fails_every_symbol_witness :
  exists scraper',
    Session.run false (Ok []) (Ok None)
      (ValueError "no session")
      Sample.one_symbol (fun _ batch => rev batch) ["ITUB4"; "VALE3"]
      (Session.init true true) (Scraping.init 2 5)
    = (scraper', Some (2, 0, 2)%nat).
Proof.
  destruct (driver_failure_fails_every_symbol (fun _ batch => rev batch)
              sample_rearrangement (Ok []) (Ok None)
              (ValueError "no session")
              Sample.one_symbol ["ITUB4"; "VALE3"] 2 5) as (scraper' & Hrun & _);
    [lia | lia |].
  exists scraper'. exact Hrun.
Defined.

(** ** The derived field after cleaning *)

Section YieldField.

Import Stated DataCleaner.

Lemma filter_app (p : ascii -> bool) (a b : string) :
  Str.filter p (a +:+ b) = Str.filter p a +:+ Str.filter p b.
Proof.
  induction a as [| c a IH]; [reflexivity |].
  rewrite append_cons. cbn [Str.filter]. rewrite IH. destruct (p c); reflexivity.
Qed.

Lemma num_dot_cases (c : ascii) :
  Re.num_dot c = true ->
  Re.num_dot_comma c = true /\ Ascii.eqb "%" c = false /\ Ascii.eqb "," c = false
  /\ Ascii.eqb "_" c = false /\ Char.is_c_space c = false.
Proof.
  destruct c as [[] [] [] [] [] [] [] []]; vm_compute; intuition discriminate.
Qed.

Lemma digit_num_dot (c : ascii) :
  Char.is_digit c = true -> Re.num_dot c = true /\ Ascii.eqb "." c = false.
Proof.
  destruct c as [[] [] [] [] [] [] [] []]; vm_compute; intuition discriminate.
Qed.

Lemma all_implies (p q : ascii -> bool) (s : string) :
  (forall c, p c = true -> q c = true) -> Str.all p s = true -> Str.all q s = true.
Proof.
  intros Hpq. induction s as [| c s IH]; [reflexivity |]. cbn [Str.all].
  intros H. apply andb_true_iff in H as [Hc H]. rewrite (Hpq c Hc), (IH H). reflexivity.
Qed.

Lemma all_none (p : ascii -> bool) (z : ascii) (s : string) :
  (forall c, p c = true -> Ascii.eqb z c = false) ->
  Str.all p s = true -> Str.has_char z s = false.
Proof.
  intros Hp. induction s as [| c s IH]; [reflexivity |]. cbn [Str.all].
  intros H. apply andb_true_iff in H as [Hc H].
  apply has_char_cons. split; [apply Hp, Hc | apply IH, H].
Qed.

Lemma contains_char (z : ascii) (s : string) :
  Str.contains (String z "") s = Str.has_char z s.
Proof.
  unfold Str.has_char. induction s as [| c s IH]; [reflexivity |].
  cbn [Str.contains Str.startswith Str.any]. rewrite IH, andb_true_r. reflexivity.
Qed.

Lemma rstrip_none (p : ascii -> bool) (s : string) :
  Str.any p s = false -> Str.rstrip_by p s = s.
Proof.
  induction s as [| c s IH]; [reflexivity |]. cbn [Str.any Str.rstrip_by].
  intros H. apply orb_false_iff in H as [Hc H]. rewrite (IH H), Hc. destruct s; reflexivity.
Qed.

Lemma lstrip_none (p : ascii -> bool) (s : string) :
  Str.any p s = false -> Str.lstrip_by p s = s.
Proof.
  destruct s as [| c s]; [reflexivity |]. cbn [Str.any]. intros H.
  apply orb_false_iff in H as [Hc _]. unfold Str.lstrip_by. cbn [Str.drop_while].
  rewrite Hc. reflexivity.
Qed.

Lemma any_app (p : ascii -> bool) (a b : string) :
  Str.any p (a +:+ b) = Str.any p a || Str.any p b.
Proof.
  induction a as [| c a IH]; [reflexivity |].
  rewrite append_cons. cbn [Str.any]. rewrite IH. apply orb_assoc.
Qed.

Lemma all_not_any (p q : ascii -> bool) (s : string) :
  (forall c, p c = true -> q c = false) -> Str.all p s = true -> Str.any q s = false.
Proof.
  intros Hpq. induction s as [| c s IH]; [reflexivity |]. cbn [Str.all Str.any].
  intros H. apply andb_true_iff in H as [Hc H]. rewrite (Hpq c Hc), (IH H). reflexivity.
Qed.

Lemma run_of (p : ascii -> bool) (a rest : string) :
  Str.all p a = true -> Re.starts_with_class p rest = false ->
  Str.take_while p (a +:+ rest) = a /\ Str.drop_while p (a +:+ rest) = rest.
Proof.
  intros Ha Hrest. induction a as [| c a IH].
  - rewrite append_nil_l. destruct rest as [| r rest]; [split; reflexivity |].
    cbn in Hrest. cbn [Str.take_while Str.drop_while]. rewrite Hrest. split; reflexivity.
  - cbn [Str.all] in Ha. apply andb_true_iff in Ha as [Hc Ha].
    rewrite append_cons. cbn [Str.take_while Str.drop_while]. rewrite Hc.
    destruct (IH Ha) as [-> ->]. split; reflexivity.
Qed.

Lemma split_char_at (sep : ascii) (u w : string) :
  Str.has_char sep u = false ->
  Str.split sep (u +:+ String sep w) = u :: Str.split sep w.
Proof.
  intros Hu. induction u as [| b u IH].
  - rewrite append_nil_l. cbn [Str.split]. rewrite Ascii.eqb_refl. reflexivity.
  - rewrite append_cons. cbn [Str.split].
    apply has_char_cons in Hu as [Hb Hu]. rewrite ascii_eqb_sym, Hb, (IH Hu). reflexivity.
Qed.

(** Digits, a point and two digits, with or without a minus, followed
    by the percent sign: what [f"{x:.2f}%"] writes for a finite [x]. *)
Lemma clean_percentage_of_decimal (negative : bool) (ip fp : string) :
  Str.all Char.is_digit ip = true -> ip <> "" ->
  Str.all Char.is_digit fp = true -> Str.len fp = 2%nat ->
  exists x,
    clean_percentage_to_float
      (VStr (Float.sign_str negative +:+ ip +:+ "." +:+ fp +:+ "%"))
    = Ok (VFloat x).
Proof.
  intros Hip Hne Hfp Hlen.
  set (number := ip +:+ "." +:+ fp).
  assert (Hnum : Str.all Re.num_dot number = true).
  { unfold number. rewrite !all_app.
    rewrite (all_implies _ _ ip (fun c H => proj1 (digit_num_dot c H)) Hip).
    rewrite (all_implies _ _ fp (fun c H => proj1 (digit_num_dot c H)) Hfp).
    reflexivity. }
  assert (Hnumeric : numeric number).
  { apply (all_implies Re.num_dot); [| exact Hnum].
    intros c Hc. apply num_dot_cases, Hc. }
  assert (Hnonempty : number <> "").
  { unfold number. destruct ip; [contradiction | discriminate]. }
  assert (Hhead : exists a rest, number = String a rest /\ Char.is_digit a = true).
  { unfold number. destruct ip as [| a ip]; [contradiction |].
    cbn [Str.all] in Hip. apply andb_true_iff in Hip as [Ha _].
    exists a, (ip +:+ "." +:+ fp). split; [reflexivity | exact Ha]. }
  set (text := Float.sign_str negative +:+ number).
  assert (Htext : Float.sign_str negative +:+ ip +:+ "." +:+ fp +:+ "%" = text +:+ "%").
  { unfold text, number. rewrite !append_assoc. reflexivity. }
  rewrite Htext.
  (* the percent sign goes, nothing is stripped *)
  assert (Hclean : Str.strip (Str.replace "%" "" (text +:+ "%")) = text).
  { rewrite replace_char_filter, filter_app.
    change (Str.filter (fun c => negb (Ascii.eqb "%" c)) "%") with "".
    rewrite append_nil_r.
    assert (Hkeep : Str.filter (fun c => negb (Ascii.eqb "%" c)) text = text).
    { apply filter_kept. unfold text. rewrite all_app.
      replace (Str.all (fun c => negb (Ascii.eqb "%" c)) (Float.sign_str negative))
        with true by (destruct negative; reflexivity).
      apply (all_implies Re.num_dot); [| exact Hnum].
      intros c Hc. apply num_dot_cases in Hc as (_ & -> & _). reflexivity. }
    rewrite Hkeep. unfold text.
    pose proof (strip_marked (Float.sign_str negative) number "" Hnumeric Hnonempty)
      as Hstrip.
    rewrite !append_nil_r in Hstrip. apply Hstrip.
    destruct negative; [reflexivity |]. cbn [Float.sign_str]. rewrite append_nil_l.
    pose proof (numeric_head_not_space number "" Hnumeric Hnonempty) as Hspace.
    rewrite append_nil_r in Hspace. exact Hspace. }
  (* the separators: a point, no comma, two characters after the point *)
  assert (Hcomma : Str.contains "," text = false).
  { rewrite contains_char. unfold text. rewrite has_char_app.
    replace (Str.has_char "," (Float.sign_str negative)) with false
      by (destruct negative; reflexivity).
    apply (all_none Re.num_dot); [| exact Hnum].
    intros c Hc. apply num_dot_cases, Hc. }
  assert (Hsplit : Str.split "." text = [Float.sign_str negative +:+ ip; fp]).
  { unfold text, number.
    replace (Float.sign_str negative +:+ ip +:+ "." +:+ fp)
      with ((Float.sign_str negative +:+ ip) +:+ String "." fp)
      by (rewrite append_assoc; reflexivity).
    rewrite split_char_at.
    - rewrite split_char_none; [reflexivity |].
      apply (all_none Char.is_digit); [| exact Hfp].
      intros c Hc. apply digit_num_dot, Hc.
    - rewrite has_char_app.
      replace (Str.has_char "." (Float.sign_str negative)) with false
        by (destruct negative; reflexivity).
      apply (all_none Char.is_digit); [| exact Hip].
      intros c Hc. apply digit_num_dot, Hc. }
  assert (Hdot : Str.contains "." text = true).
  { rewrite contains_char. unfold text, number. rewrite !has_char_app.
    change (Str.has_char "." ".") with true. rewrite orb_true_r, !orb_true_r.
    reflexivity. }
  assert (Hptext : percentage_text text = Ok text).
  { unfold percentage_text. rewrite Hdot, Hcomma. cbn [andb].
    unfold Str.last_part. rewrite Hsplit. cbn [List.last]. rewrite Hlen. reflexivity. }
  (* the number is the whole text *)
  assert (Hsearch : Re.search_signed Re.num_dot text = Some text).
  { unfold text. destruct Hhead as (a & rest & Hnumber & Ha).
    destruct negative; cbn [Float.sign_str].
    - change ("-" +:+ number) with (String "-" number). cbn [Re.search_signed].
      change (Re.is_sign "-") with true. rewrite Hnumber at 1.
      cbn [Re.starts_with_class]. rewrite (proj1 (digit_num_dot a Ha)). cbn [andb].
      rewrite (take_while_all _ _ Hnum). reflexivity.
    - rewrite append_nil_l. rewrite Hnumber in Hnum |- *. cbn [Re.search_signed].
      rewrite (digit_not_sign a Ha), (proj1 (digit_num_dot a Ha)). cbn [andb].
      rewrite (take_while_all _ _ Hnum). reflexivity. }
  (* and [float] reads it *)
  assert (Hfloat : exists y, Float.of_string text = Some y).
  { unfold Float.of_string. cbv zeta.
    assert (Hspace : Str.any Char.is_c_space text = false).
    { unfold text. rewrite any_app.
      replace (Str.any Char.is_c_space (Float.sign_str negative)) with false
        by (destruct negative; reflexivity).
      apply (all_not_any Re.num_dot); [| exact Hnum].
      intros c Hc. apply num_dot_cases, Hc. }
    rewrite (lstrip_none _ _ Hspace), (rstrip_none _ _ Hspace).
    replace (Str.has_char "_" text) with false.
    2: { symmetry. unfold text. rewrite has_char_app.
         replace (Str.has_char "_" (Float.sign_str negative)) with false
           by (destruct negative; reflexivity).
         apply (all_none Re.num_dot); [| exact Hnum].
         intros c Hc. apply num_dot_cases, Hc. }
    assert (Hsign : Float.split_sign text = (negative, number)).
    { unfold text. destruct negative; [reflexivity |].
      destruct Hhead as (a & rest & -> & Ha). apply split_sign_digit, Ha. }
    rewrite Hsign.
    assert (Hparse : exists y, Float.parse_number negative number = Some y).
    { unfold Float.parse_number. cbv zeta. unfold number.
      destruct (run_of Char.is_digit ip ("." +:+ fp) Hip eq_refl) as [-> ->].
      change ("." +:+ fp) with (String "." fp). cbv iota.
      destruct (run_of Char.is_digit fp "" Hfp eq_refl) as [Htake Hdrop].
      rewrite append_nil_r in Htake, Hdrop. rewrite Htake, Hdrop.
      replace (String.eqb (ip +:+ fp) "") with false
        by (destruct ip; [contradiction | reflexivity]).
      cbn [Float.parse_exponent]. eexists. reflexivity. }
    destruct Hparse as (y & ->). exists y. reflexivity. }
  destruct Hfloat as (y & Hy).
  exists (Float.round2 y). unfold clean_percentage_to_float.
  replace (is_missing (VStr (text +:+ "%"))) with false.
  2: { symmetry. unfold text. destruct Hhead as (a & rest & -> & Ha).
       destruct negative; [reflexivity |]. rewrite append_nil_l, append_cons.
       apply digit_head_not_missing, Ha. }
  unfold clean_percentage_body. cbn [Py.str]. rewrite Hclean, Hptext.
  cbn [mbind result_bind]. unfold first_signed_number. rewrite Hsearch.
  unfold Py.float. rewrite Hy. reflexivity.
Qed.

Lemma hundredths_nonneg (m : positive) (e : Z) : 0 <= Float.hundredths m e.
Proof.
  unfold Float.hundredths, Float.exact.
  assert (Hround : forall n d, 0 <= n -> 0 < d -> 0 <= Float.round_half_even n d).
  { intros n d Hn Hd. unfold Float.round_half_even. cbv zeta.
    pose proof (Z.div_pos n d Hn Hd).
    destruct (2 * (n mod d) ?= d); [destruct (Z.even (n / d)) | |]; lia. }
  destruct (0 <=? e) eqn:He.
  - apply Z.leb_le in He. apply Hround; [| lia].
    pose proof (Z.pow_pos_nonneg 2 e ltac:(lia) He). nia.
  - apply Z.leb_gt in He. apply Hround; [lia |].
    apply Z.pow_pos_nonneg; lia.
Qed.

(** What [f"{x:.2f}"] writes for a number. *)
Lemma format_2f_shape (x : spec_float) :
  match x with
  | S754_zero _ | S754_finite _ _ _ =>
      exists negative ip fp,
        Float.format_2f x = Float.sign_str negative +:+ ip +:+ "." +:+ fp
        /\ Str.all Char.is_digit ip = true /\ ip <> ""
        /\ Str.all Char.is_digit fp = true /\ Str.len fp = 2%nat
  | S754_infinity s => Float.format_2f x = Float.sign_str s +:+ "inf"
  | S754_nan => Float.format_2f x = "nan"
  end.
Proof.
  destruct x as [s | s | | s m e]; try reflexivity.
  - exists s, "0", "00". repeat split; try reflexivity; discriminate.
  - cbn [Float.format_2f]. cbv zeta.
    pose proof (hundredths_nonneg m e) as Hc.
    set (c := Float.hundredths m e) in *.
    destruct (of_nonneg_spec (c / 100)) as (Hdig & Hne & _);
      [apply Z.div_pos; lia |].
    destruct (padded_spec 2 (c mod 100)) as (Hlen & Hfp & _);
      [change (10 ^ Z.of_nat 2) with 100; apply Z.mod_pos_bound; lia | lia |].
    exists s, (Dec.of_nonneg (c / 100)), (Dec.padded 2 (c mod 100)).
    repeat split; assumption.
Qed.

Lemma yield_text_cleaned (d : Dict.t) :
  let text := VStr (StocksScraper.calculate_earnings_yield d) in
  match clean_percentage_to_float text with
  | Ok VNone => In text [VStr "N/A"; VStr "inf%"; VStr "-inf%"; VStr "nan%"]
  | Ok (VFloat _) => True
  | _ => False
  end.
Proof.
  cbv zeta. unfold StocksScraper.calculate_earnings_yield.
  destruct (StocksScraper.find_profit d) as [| s | l | n];
    [vm_compute; tauto | vm_compute; tauto | | vm_compute; tauto].
  destruct (StocksScraper.find_price d) as [| s | p | n];
    [vm_compute; tauto | vm_compute; tauto | | vm_compute; tauto].
  destruct (Float.ltb (Float.of_Z 0) p); [| vm_compute; tauto].
  cbv zeta. set (x := Float.mul (Float.div l p) (Float.of_Z 100)).
  pose proof (format_2f_shape x) as Hshape.
  destruct x as [s | s | | s m e].
  - destruct Hshape as (negative & ip & fp & -> & Hip & Hne & Hfp & Hlen).
    destruct (clean_percentage_of_decimal negative ip fp Hip Hne Hfp Hlen) as (y & Hy).
    rewrite !append_assoc. rewrite Hy. exact I.
  - rewrite Hshape. destruct s; vm_compute; tauto.
  - rewrite Hshape. vm_compute. tauto.
  - destruct Hshape as (negative & ip & fp & -> & Hip & Hne & Hfp & Hlen).
    destruct (clean_percentage_of_decimal negative ip fp Hip Hne Hfp Hlen) as (y & Hy).
    rewrite !append_assoc. rewrite Hy. exact I.
Qed.

End YieldField.

Section DerivedField.

Import Scraping.

(** X20.  In the record of a fetched page the derived field
    ["Earnings Yield (%)"] is always present and is a float, unless no
    yield could be computed (the text ["N/A"]) or the quotient is not a
    finite number (the texts ["inf%"], ["-inf%"], ["nan%"], which the
    percentage cleaner cannot read): the text that
    [calculate_earnings_yield] formats is read back by
    [clean_percentage_to_float]. *)
Theorem yield_field_is_cleaned (fetch : string -> result Page.document) (code : string)
    (soup : Page.document) :
  fetch code = Ok soup ->
  exists v,
    Dict.get (scrape_stock_data fetch code) yield_key = Some v
    /\ ((exists x, v = VFloat x)
        \/ In v [VStr "N/A"; VStr "inf%"; VStr "-inf%"; VStr "nan%"]).
Proof.
  intros Hfetch. rewrite (scrape_fetched fetch code soup Hfetch). cbv zeta.
  set (stock_data := Page.extract soup [(code_key, VStr code)]).
  set (text := VStr (StocksScraper.calculate_earnings_yield stock_data)).
  assert (Hin : In (yield_key, DataCleaner.clean_percentage_to_float)
                  StocksScraper.cleaning_rules)
    by exact (List.nth_error_In StocksScraper.cleaning_rules 80 eq_refl).
  assert (Hget : Dict.get (Dict.set stock_data yield_key text) yield_key = Some text)
    by apply get_set_same.
  unfold StocksScraper.clean_record.
  rewrite (rules_value StocksScraper.cleaning_rules yield_key
             DataCleaner.clean_percentage_to_float text cleaning_rules_distinct Hin _ Hget).
  rewrite (apply_rule_value _ yield_key DataCleaner.clean_percentage_to_float text Hget).
  pose proof (yield_text_cleaned stock_data) as Hclean. cbv zeta in Hclean. fold text in Hclean.
  assert (Htruthy : Py.truthy text = true) by apply earnings_yield_truthy.
  rewrite Htruthy.
  destruct (DataCleaner.clean_percentage_to_float text) as [[| s | x | n] | e];
    try contradiction.
  - exists text. split; [reflexivity | right; exact Hclean].
  - exists (VFloat x). split; [reflexivity | left; exists x; reflexivity].
Qed.

End DerivedField.

Lemma yield_field_is_cleaned_witness :
  exists v,
    Dict.get (Scraping.scrape_stock_data Sample.one_symbol "ITUB4") Scraping.yield_key
    = Some v
    /\ ((exists x, v = VFloat x)
        \/ In v [VStr "N/A"; VStr "inf%"; VStr "-inf%"; VStr "nan%"]).
Proof.
  apply (yield_field_is_cleaned Sample.one_symbol "ITUB4" Sample.bank_page). reflexivity.
Defined.


(** ** The field counts of the summary *)

Section FieldCounts.

Import Scraping Written Driver Summary.

Lemma list_sum_cons (a : nat) (l : list nat) : list_sum (a :: l) = (a + list_sum l)%nat.
Proof. reflexivity. Qed.

Lemma counts_cons (classes : list (string -> bool)) (k : string) (l : list string) :
  list_sum (List.map (fun class => List.length (List.filter class (k :: l))) classes)
  = (list_sum (List.map (fun class : string -> bool => if class k then 1%nat else 0%nat) classes)
     + list_sum (List.map (fun class => List.length (List.filter class l)) classes))%nat.
Proof.
  induction classes as [| class classes IH]; [reflexivity |].
  rewrite !List.map_cons, !list_sum_cons, IH. cbn [List.filter].
  destruct (class k); cbn [List.length]; lia.
Qed.

(** Classes of which every key has exactly one share the keys among
    them. *)
Lemma counts_split (classes : list (string -> bool)) (l : list string) :
  (forall k, In k l ->
     list_sum (List.map (fun class : string -> bool => if class k then 1%nat else 0%nat) classes)
     = 1%nat) ->
  list_sum (List.map (fun class => List.length (List.filter class l)) classes)
  = List.length l.
Proof.
  induction l as [| k l IH]; intros Hone.
  - clear Hone. induction classes as [| c classes IHc]; [reflexivity |].
    rewrite List.map_cons, list_sum_cons, IHc. reflexivity.
  - rewrite counts_cons, (Hone k (or_introl eq_refl)), IH; [reflexivity |].
    intros k' Hk'. apply Hone. right. exact Hk'.
Qed.

Lemma startswith_longer (p q k : string) :
  Str.startswith p k = false -> Str.startswith (p +:+ q) k = false.
Proof.
  revert k. induction p as [| a p IH]; intros k; [destruct k; discriminate |].
  rewrite append_cons. destruct k as [| b k]; [reflexivity |]. cbn [Str.startswith].
  destruct (Ascii.eqb a b); [apply IH | reflexivity].
Qed.

(** A key without a section prefix is a basic field and nothing else. *)
Lemma basic_key_class (k : string) :
  startswith_any sectioned k = false ->
  list_sum (List.map (fun class : string -> bool => if class k then 1%nat else 0%nat)
              field_classes) = 1%nat.
Proof.
  intros Hk. unfold field_classes. rewrite !List.map_cons, !list_sum_cons. rewrite Hk.
  unfold startswith_any, sectioned in Hk. cbn [existsb] in Hk.
  repeat (apply orb_false_iff in Hk as [? Hk]).
  pose proof (startswith_longer "DRE " "12M -" k ltac:(assumption)) as Hdre12.
  pose proof (startswith_longer "DRE " "3M -" k ltac:(assumption)) as Hdre3.
  pose proof (startswith_longer "FC " "12M -" k ltac:(assumption)) as Hfc12.
  pose proof (startswith_longer "FC " "3M -" k ltac:(assumption)) as Hfc3.
  change ("DRE " +:+ "12M -") with "DRE 12M -" in Hdre12.
  change ("DRE " +:+ "3M -") with "DRE 3M -" in Hdre3.
  change ("FC " +:+ "12M -") with "FC 12M -" in Hfc12.
  change ("FC " +:+ "3M -") with "FC 3M -" in Hfc3.
  repeat match goal with H : Str.startswith _ k = false |- _ => rewrite H; clear H end.
  reflexivity.
Qed.

Lemma section_key_class (sec : Page.section_id) (label : string) :
  sec <> Page.Basic ->
  list_sum (List.map (fun class : string -> bool =>
                        if class (Page.key_prefix sec +:+ label) then 1%nat else 0%nat)
              field_classes) = 1%nat.
Proof. destruct sec; [contradiction | ..]; intros _; reflexivity. Qed.

Lemma record_keys_in (fetch : string -> result Page.document) (code : string)
    (soup : Page.document) (k : string) :
  fetch code = Ok soup ->
  In k (Dict.keys (scrape_stock_data fetch code)) ->
  k = code_key \/ k = yield_key \/ In k (written_keys soup).
Proof.
  intros Hfetch. rewrite (scrape_fetched fetch code soup Hfetch).
  unfold StocksScraper.clean_record. rewrite rules_keys, keys_set, keys_extract.
  cbn [Dict.keys List.map fst In]. intuition congruence.
Qed.

(** X21.  The field counts of the summary add up: for the record of a
    fetched page whose basic table has no label starting with one of
    the section prefixes, every key falls in exactly one of the ten
    classes that [show_summary] prints, so the ten counts sum to the
    total printed after them. *)
Theorem field_counts_add_up (fetch : string -> result Page.document) (code : string)
    (soup : Page.document) :
  fetch code = Ok soup ->
  (forall k, In k (section_keys soup Page.Basic) -> startswith_any sectioned k = false) ->
  list_sum (field_counts (scrape_stock_data fetch code))
  = field_total (scrape_stock_data fetch code).
Proof.
  intros Hfetch Hbasic. unfold field_counts, field_total, Dict.len.
  rewrite <- (length_map fst). fold (Dict.keys (scrape_stock_data fetch code)).
  apply counts_split. intros k Hk.
  apply (record_keys_in fetch code soup k Hfetch) in Hk.
  destruct Hk as [-> | [-> | Hk]]; [reflexivity | reflexivity |].
  unfold written_keys in Hk. apply in_flat_map in Hk as (sec & _ & Hk).
  destruct (section_keys_prefixed soup sec k Hk) as (label & ->).
  destruct sec; try (apply section_key_class; discriminate).
  apply basic_key_class, Hbasic, Hk.
Qed.

End FieldCounts.

Lemma field_counts_add_up_witness :
  list_sum (Summary.field_counts (Scraping.scrape_stock_data Sample.one_symbol "ITUB4"))
  = Summary.field_total (Scraping.scrape_stock_data Sample.one_symbol "ITUB4").
Proof.
  apply (field_counts_add_up Sample.one_symbol "ITUB4" Sample.bank_page); [reflexivity |].
  intros k Hk. vm_compute in Hk. destruct Hk as [<- | [<- | []]]; reflexivity.
Defined.

